(** * Ledger core of the accounting application

    The development follows the repository in three layers.

    - [Schema]: the relational store declared by the SQL migration
      (tables [organizations], [accounts], [journal_entries],
      [journal_lines], their keys, CHECK constraints and ON DELETE
      actions), as an explicit database state with statement-level
      operations.
    - [Policies]: the row-level security policies of the migration on
      [accounts] and [journal_lines], in front of those operations.
    - The pages ([ChartOfAccounts], its older copy, [Dashboard],
      [Reports], [Expenses], [Banking]): the pure part of each loader,
      i.e. what it computes from the rows a query returned.  JavaScript
      numbers are IEEE binary64 values and are kept as such
      ([PrimFloat.float]); [null] is [None]. *)

From Stdlib Require Import ZArith NArith Ascii String PrimFloat Floats.
From stdpp Require Import gmap strings list sorting.

Abbreviation uuid := string (only parsing).

(** ** The store *)

Module Schema.

(** [type text CHECK (type IN ('asset', ...)) NOT NULL]. *)
Inductive account_type := asset | liability | equity | income | expense.

#[global] Instance account_type_eq_dec : EqDecision account_type.
Proof. solve_decision. Defined.

(** This module is the tables themselves: what a statement does once
    row-level security has let it through, or when it comes from a role
    that row security does not apply to.  The policies are in
    [Policies] below. *)

(** Rows.  A column without NOT NULL is an [option]; the bookkeeping
    columns [created_at] and [updated_at] play no role and are left out.
    Monetary columns are [numeric(15,2)]: a value is kept as its number
    of minor units (cents), an integer. *)
Record account_row := {
  acc_id : uuid;
  acc_organization_id : option uuid;
  acc_code : string;
  acc_name : string;
  acc_type : account_type;
  acc_parent_account_id : option uuid;
  acc_is_active : option bool
}.

Record journal_entry_row := {
  je_id : uuid;
  je_organization_id : option uuid;
  je_date : string;
  je_description : string;
  je_reference : option string;
  je_created_by : option uuid
}.

Record journal_line_row := {
  jl_id : uuid;
  jl_entry_id : option uuid;
  jl_account_id : option uuid;
  jl_debit : option Z;
  jl_credit : option Z;
  jl_description : option string
}.

(** The database: one list of rows per table, in insertion order.  Of
    [organizations] only the primary key matters here. *)
Record database := {
  organizations : list uuid;
  accounts : list account_row;
  journal_entries : list journal_entry_row;
  journal_lines : list journal_line_row
}.

Definition empty_database : database :=
  {| organizations := []; accounts := []; journal_entries := [];
     journal_lines := [] |}.

(** SQLSTATE classes the statements below can raise. *)
Inductive pg_error :=
  | unique_violation          (* 23505 *)
  | foreign_key_violation     (* 23503 *)
  | check_violation           (* 23514 *)
  | numeric_value_out_of_range (* 22003 *)
  | insufficient_privilege    (* 42501, raised by row security *).

Inductive response (A : Type) :=
  | ok (a : A)
  | error (e : pg_error).
Arguments ok {A} a.
Arguments error {A} e.

(** *** Three-valued logic of CHECK constraints

    A comparison with NULL is unknown ([None]); a CHECK constraint is
    violated only when its expression is false. *)
Definition sql_bool := option bool.

Definition sql_and (a b : sql_bool) : sql_bool :=
  match a, b with
  | Some false, _ | _, Some false => Some false
  | Some true, Some true => Some true
  | _, _ => None
  end.

Definition sql_not (a : sql_bool) : sql_bool := negb <$> a.

Definition sql_ge0 (x : option Z) : sql_bool := (fun v => (0 <=? v)%Z) <$> x.
Definition sql_gt0 (x : option Z) : sql_bool := (fun v => (0 <? v)%Z) <$> x.

Definition check_passes (b : sql_bool) : bool :=
  match b with Some false => false | _ => true end.

(** [numeric(15,2)]: at most 13 digits before the decimal point, that is
    fewer than 10^15 minor units in absolute value. *)
Definition numeric_15_2 (x : option Z) : bool :=
  match x with
  | Some v => (Z.abs v <? 10 ^ 15)%Z
  | None => true
  end.

(** [CHECK (debit >= 0 AND credit >= 0)] and
    [CHECK (NOT (debit > 0 AND credit > 0))]. *)
Definition journal_lines_check (l : journal_line_row) : bool :=
  check_passes (sql_and (sql_ge0 (jl_debit l)) (sql_ge0 (jl_credit l)))
  && check_passes
       (sql_not (sql_and (sql_gt0 (jl_debit l)) (sql_gt0 (jl_credit l)))).

(** A foreign key column: NULL references nothing, anything else must be
    a key of the referenced table. *)
Definition fk_ok (ref : option uuid) (keys : list uuid) : bool :=
  match ref with
  | Some k => bool_decide (k ∈ keys)
  | None => true
  end.

(** [UNIQUE(organization_id, code)]: two rows collide when both carry the
    same non-NULL organization and the same code. *)
Definition same_org_code (a b : account_row) : bool :=
  match acc_organization_id a, acc_organization_id b with
  | Some o1, Some o2 =>
      bool_decide (o1 = o2) && bool_decide (acc_code a = acc_code b)
  | _, _ => false
  end.

(** *** INSERT

    The values of a statement are converted to the types of their
    columns first, all of them.  Then the rows are inserted one after
    the other: the CHECK constraints and the unique indexes are tested
    row by row, the foreign keys when the statement ends.  Any failure
    aborts the whole statement. *)
Fixpoint add_account_rows (rows tbl : list account_row)
  : response (list account_row) :=
  match rows with
  | [] => ok tbl
  | r :: rest =>
      if bool_decide (acc_id r ∈ map acc_id tbl) then error unique_violation
      else if existsb (same_org_code r) tbl then error unique_violation
      else add_account_rows rest (tbl ++ [r])
  end.

Definition insert_accounts (rows : list account_row) (db : database)
  : response database :=
  match add_account_rows rows (accounts db) with
  | error e => error e
  | ok tbl =>
      if forallb (fun r =>
                    fk_ok (acc_organization_id r) (organizations db)
                    && fk_ok (acc_parent_account_id r) (map acc_id tbl)) rows
      then ok {| organizations := organizations db; accounts := tbl;
                 journal_entries := journal_entries db;
                 journal_lines := journal_lines db |}
      else error foreign_key_violation
  end.

Fixpoint add_entry_rows (rows tbl : list journal_entry_row)
  : response (list journal_entry_row) :=
  match rows with
  | [] => ok tbl
  | r :: rest =>
      if bool_decide (je_id r ∈ map je_id tbl) then error unique_violation
      else add_entry_rows rest (tbl ++ [r])
  end.

(** [created_by] refers to the hosting platform's user table, which is
    not part of the migration; that key is not checked. *)
Definition insert_journal_entries (rows : list journal_entry_row)
  (db : database) : response database :=
  match add_entry_rows rows (journal_entries db) with
  | error e => error e
  | ok tbl =>
      if forallb (fun r => fk_ok (je_organization_id r) (organizations db))
           rows
      then ok {| organizations := organizations db; accounts := accounts db;
                 journal_entries := tbl;
                 journal_lines := journal_lines db |}
      else error foreign_key_violation
  end.

Definition in_range (r : journal_line_row) : bool :=
  numeric_15_2 (jl_debit r) && numeric_15_2 (jl_credit r).

Fixpoint add_line_rows (rows tbl : list journal_line_row)
  : response (list journal_line_row) :=
  match rows with
  | [] => ok tbl
  | r :: rest =>
      if negb (journal_lines_check r) then error check_violation
      else if bool_decide (jl_id r ∈ map jl_id tbl) then error unique_violation
      else add_line_rows rest (tbl ++ [r])
  end.

Definition insert_journal_lines (rows : list journal_line_row)
  (db : database) : response database :=
  if negb (forallb in_range rows) then error numeric_value_out_of_range
  else
    match add_line_rows rows (journal_lines db) with
    | error e => error e
    | ok tbl =>
        if forallb (fun r =>
                      fk_ok (jl_entry_id r) (map je_id (journal_entries db))
                      && fk_ok (jl_account_id r) (map acc_id (accounts db)))
             rows
        then ok {| organizations := organizations db; accounts := accounts db;
                   journal_entries := journal_entries db;
                   journal_lines := tbl |}
        else error foreign_key_violation
    end.

Definition insert_organization (id : uuid) (db : database)
  : response database :=
  if bool_decide (id ∈ organizations db) then error unique_violation
  else ok {| organizations := organizations db ++ [id];
             accounts := accounts db;
             journal_entries := journal_entries db;
             journal_lines := journal_lines db |}.

(** *** DELETE

    [accounts.parent_account_id ... ON DELETE SET NULL],
    [journal_lines.account_id ... ON DELETE CASCADE],
    [journal_lines.entry_id ... ON DELETE CASCADE],
    [accounts.organization_id] and [journal_entries.organization_id
    ... ON DELETE CASCADE].  No foreign key restricts a delete, so a
    delete never fails. *)
Definition refers_to (ref : option uuid) (keys : list uuid) : bool :=
  match ref with
  | Some k => bool_decide (k ∈ keys)
  | None => false
  end.

Definition set_parent_null (gone : list uuid) (a : account_row)
  : account_row :=
  if refers_to (acc_parent_account_id a) gone
  then {| acc_id := acc_id a;
          acc_organization_id := acc_organization_id a;
          acc_code := acc_code a; acc_name := acc_name a;
          acc_type := acc_type a; acc_parent_account_id := None;
          acc_is_active := acc_is_active a |}
  else a.

(** Removing the accounts whose key is in [gone], with the two actions
    that hang on [accounts(id)]. *)
Definition drop_accounts (gone : list uuid) (db : database) : database :=
  {| organizations := organizations db;
     accounts :=
       map (set_parent_null gone)
         (filter (fun a => acc_id a ∉ gone) (accounts db));
     journal_entries := journal_entries db;
     journal_lines :=
       filter (fun l => refers_to (jl_account_id l) gone = false)
         (journal_lines db) |}.

Definition drop_entries (gone : list uuid) (db : database) : database :=
  {| organizations := organizations db;
     accounts := accounts db;
     journal_entries := filter (fun e => je_id e ∉ gone) (journal_entries db);
     journal_lines :=
       filter (fun l => refers_to (jl_entry_id l) gone = false)
         (journal_lines db) |}.

(** [DELETE FROM accounts WHERE id = ...]. *)
Definition delete_account (id : uuid) (db : database) : response database :=
  ok (drop_accounts [id] db).

Definition delete_journal_entry (id : uuid) (db : database)
  : response database :=
  ok (drop_entries [id] db).

Definition delete_journal_line (id : uuid) (db : database)
  : response database :=
  ok {| organizations := organizations db; accounts := accounts db;
        journal_entries := journal_entries db;
        journal_lines := filter (fun l => jl_id l ≠ id) (journal_lines db) |}.

Definition delete_organization (id : uuid) (db : database)
  : response database :=
  let accs :=
    map acc_id
      (filter (fun a => refers_to (acc_organization_id a) [id] = true)
         (accounts db)) in
  let ents :=
    map je_id
      (filter (fun e => refers_to (je_organization_id e) [id] = true)
         (journal_entries db)) in
  let db1 := drop_entries ents (drop_accounts accs db) in
  ok {| organizations := filter (fun o => o ≠ id) (organizations db1);
        accounts := accounts db1;
        journal_entries := journal_entries db1;
        journal_lines := journal_lines db1 |}.

(** *** Histories

    The statements a client may send, and the state a sequence of them
    leaves behind; a statement that fails changes nothing. *)
Inductive statement :=
  | InsertOrganization (id : uuid)
  | DeleteOrganization (id : uuid)
  | InsertAccounts (rows : list account_row)
  | DeleteAccount (id : uuid)
  | InsertJournalEntries (rows : list journal_entry_row)
  | DeleteJournalEntry (id : uuid)
  | InsertJournalLines (rows : list journal_line_row)
  | DeleteJournalLine (id : uuid).

Definition execute (s : statement) (db : database) : response database :=
  match s with
  | InsertOrganization id => insert_organization id db
  | DeleteOrganization id => delete_organization id db
  | InsertAccounts rows => insert_accounts rows db
  | DeleteAccount id => delete_account id db
  | InsertJournalEntries rows => insert_journal_entries rows db
  | DeleteJournalEntry id => delete_journal_entry id db
  | InsertJournalLines rows => insert_journal_lines rows db
  | DeleteJournalLine id => delete_journal_line id db
  end.

Definition step (db : database) (s : statement) : database :=
  match execute s db with
  | ok db' => db'
  | error _ => db
  end.

Definition run (ss : list statement) (db : database) : database :=
  fold_left step ss db.

(** The lines of one entry, and SQL's SUM over a column (NULLs are not
    counted). *)
Definition lines_of_entry (entry : uuid) (db : database)
  : list journal_line_row :=
  filter (fun l => jl_entry_id l = Some entry) (journal_lines db).

Definition sum_column (xs : list (option Z)) : Z :=
  fold_right (fun x acc => (default 0 x + acc)%Z) 0%Z xs.

Definition total_debit (ls : list journal_line_row) : Z :=
  sum_column (map jl_debit ls).
Definition total_credit (ls : list journal_line_row) : Z :=
  sum_column (map jl_credit ls).

(** What the two CHECK constraints and the column type say about a line. *)
Definition line_ok (l : journal_line_row) : Prop :=
  journal_lines_check l = true
  ∧ numeric_15_2 (jl_debit l) = true ∧ numeric_15_2 (jl_credit l) = true.

(** A line that is a debit or a credit, exactly one of the two; and an
    entry whose two sides are equal. *)
Definition exactly_one_side (l : journal_line_row) : Prop :=
  (exists d, jl_debit l = Some d /\ (0 < d)%Z /\ jl_credit l = Some 0%Z)
  \/ (exists c, jl_credit l = Some c /\ (0 < c)%Z /\ jl_debit l = Some 0%Z).

Definition balanced_entry (entry : uuid) (db : database) : Prop :=
  total_debit (lines_of_entry entry db) = total_credit (lines_of_entry entry db).

(** The references of a line resolve in [db]. *)
Definition line_refs_ok (db : database) (r : journal_line_row) : Prop :=
  fk_ok (jl_entry_id r) (map je_id (journal_entries db)) = true
  /\ fk_ok (jl_account_id r) (map acc_id (accounts db)) = true.

(** [UNIQUE(organization_id, code)] over a table: every row is tested
    against the rows before it. *)
Fixpoint codes_unique (tbl : list account_row) : Prop :=
  match tbl with
  | [] => True
  | a :: rest =>
      Forall (fun b => same_org_code b a = false) rest /\ codes_unique rest
  end.

(** Primary keys: no key occurs twice in its table. *)
Definition keys_unique (db : database) : Prop :=
  NoDup (organizations db)
  /\ NoDup (map acc_id (accounts db))
  /\ NoDup (map je_id (journal_entries db))
  /\ NoDup (map jl_id (journal_lines db)).

(** Foreign keys: every reference that is not NULL names a stored row. *)
Definition account_refs_ok (db : database) (a : account_row) : Prop :=
  fk_ok (acc_organization_id a) (organizations db) = true
  /\ fk_ok (acc_parent_account_id a) (map acc_id (accounts db)) = true.

Definition entry_refs_ok (db : database) (e : journal_entry_row) : Prop :=
  fk_ok (je_organization_id e) (organizations db) = true.

Definition references_resolve (db : database) : Prop :=
  Forall (account_refs_ok db) (accounts db)
  /\ Forall (entry_refs_ok db) (journal_entries db)
  /\ Forall (line_refs_ok db) (journal_lines db).

(** Everything the schema declares, together. *)
Definition consistent (db : database) : Prop :=
  keys_unique db /\ references_resolve db
  /\ codes_unique (accounts db) /\ Forall line_ok (journal_lines db).

(** The keys of the accounts and of the entries of one organization. *)
Definition accounts_of (id : uuid) (db : database) : list uuid :=
  map acc_id
    (filter (fun a => refers_to (acc_organization_id a) [id] = true)
       (accounts db)).

Definition entries_of (id : uuid) (db : database) : list uuid :=
  map je_id
    (filter (fun e => refers_to (je_organization_id e) [id] = true)
       (journal_entries db)).

End Schema.

(** ** Row-level security

    [ALTER TABLE ... ENABLE ROW LEVEL SECURITY] and the policies
    [TO authenticated] of the migration.  A policy decides by a
    subquery over the caller's rows of [user_organizations]; those rows
    are what a session carries here. *)

Module Policies.
Import Schema.

(** [role text CHECK (role IN ('owner', 'admin', 'staff', 'advisor'))],
    [status text CHECK (status IN ('active', 'inactive', 'pending'))]. *)
Inductive member_role := owner | admin | staff | advisor.
Inductive member_status := active | inactive | pending.

#[global] Instance member_role_eq_dec : EqDecision member_role.
Proof. solve_decision. Defined.
#[global] Instance member_status_eq_dec : EqDecision member_status.
Proof. solve_decision. Defined.

(** A row of [user_organizations]; the three columns are nullable. *)
Record membership := {
  uo_organization_id : option uuid;
  uo_role : option member_role;
  uo_status : option member_status
}.

(** Who sends a statement: a role that row security does not apply to
    (the owner of the tables, a role with BYPASSRLS), or an
    authenticated user, with the rows of [user_organizations] whose
    [user_id] is [auth.uid()]. *)
Inductive session :=
  | unrestricted
  | authenticated (memberships : list membership).

(** [SELECT organization_id FROM user_organizations
     WHERE user_id = auth.uid() AND status = 'active']. *)
Definition member_orgs (memberships : list membership) : list uuid :=
  omap uo_organization_id
    (filter (fun m => uo_status m = Some active) memberships).

(** [... WHERE user_id = auth.uid() AND role IN ('owner', 'admin')
     AND status = 'active']. *)
Definition managed_orgs (memberships : list membership) : list uuid :=
  omap uo_organization_id
    (filter (fun m => (uo_role m = Some owner \/ uo_role m = Some admin)
                      /\ uo_status m = Some active) memberships).

(** "Organization admins and owners can manage accounts", FOR ALL:
    [organization_id IN (...)], which is not true of a NULL. *)
Definition may_manage (s : session) (organization_id : option uuid) : bool :=
  match s with
  | unrestricted => true
  | authenticated memberships =>
      match organization_id with
      | Some o => bool_decide (o ∈ managed_orgs memberships)
      | None => false
      end
  end.

(** "Organization members can create journal lines", FOR INSERT, and
    "Organization admins and owners can manage journal lines", FOR ALL:
    [entry_id IN (SELECT id FROM journal_entries
                  WHERE organization_id IN (...))]. *)
Definition may_add_line (s : session) (db : database) (r : journal_line_row)
  : bool :=
  match s with
  | unrestricted => true
  | authenticated memberships =>
      match jl_entry_id r with
      | Some e =>
          existsb
            (fun je =>
               bool_decide (je_id je = e)
               && match je_organization_id je with
                  | Some o =>
                      bool_decide (o ∈ member_orgs memberships)
                      || bool_decide (o ∈ managed_orgs memberships)
                  | None => false
                  end)
            (journal_entries db)
      | None => false
      end
  end.

(** INSERT INTO accounts.  The policy is the WITH CHECK of each new row,
    tested before the row reaches the indexes: the rows before the
    first one it refuses have been through theirs. *)
Definition insert_accounts (s : session) (rows : list account_row)
  (db : database) : response database :=
  match list_find (fun r => may_manage s (acc_organization_id r) = false) rows
  with
  | None => Schema.insert_accounts rows db
  | Some (i, _) =>
      match add_account_rows (take i rows) (accounts db) with
      | error e => error e
      | ok _ => error insufficient_privilege
      end
  end.

(** DELETE FROM accounts WHERE id = ...  A row the policy does not show
    is not deleted, and that is not an error.  ([id] is the primary
    key: at most one row carries it.)  The ON DELETE actions are not
    subject to row security. *)
Definition delete_account (s : session) (id : uuid) (db : database)
  : response database :=
  match s with
  | unrestricted => Schema.delete_account id db
  | authenticated _ =>
      if existsb (fun a => bool_decide (acc_id a = id)
                           && may_manage s (acc_organization_id a))
           (accounts db)
      then Schema.delete_account id db
      else ok db
  end.

(** INSERT INTO journal_lines; the values are converted to the column
    types before any policy is tested. *)
Definition insert_journal_lines (s : session) (rows : list journal_line_row)
  (db : database) : response database :=
  match list_find (fun r => may_add_line s db r = false) rows with
  | None => Schema.insert_journal_lines rows db
  | Some (i, _) =>
      if negb (forallb in_range rows) then error numeric_value_out_of_range
      else
        match add_line_rows (take i rows) (journal_lines db) with
        | error e => error e
        | ok _ => error insufficient_privilege
        end
  end.

End Policies.

(** ** JavaScript values used by the pages *)

Module Js.

(** [x > 0] where [x] is a number or [null]. *)
Definition gt0 (x : option float) : bool :=
  match x with
  | Some v => (0 <? v)%float
  | None => false
  end.

(** ToNumber: [null] becomes [+0]. *)
Definition to_number (x : option float) : float := default 0%float x.

(** The falsy numbers are [+0], [-0] and [NaN]. *)
Definition falsy (x : float) : bool := (x =? 0)%float || negb (x =? x)%float.

(** [x || 0] where [x] is a number or [undefined]. *)
Definition or0 (x : option float) : float :=
  match x with
  | Some v => if falsy v then 0%float else v
  | None => 0%float
  end.

(** An object used as a dictionary [{ [key: string]: number }]: its
    properties in creation order. *)
Abbreviation object := (list (string * float)) (only parsing).

Fixpoint obj_get (o : object) (k : string) : option float :=
  match o with
  | [] => None
  | (k', v) :: o' => if bool_decide (k' = k) then Some v else obj_get o' k
  end.

(** [o[k] = v]: an existing property keeps its place. *)
Fixpoint obj_set (o : object) (k : string) (v : float) : object :=
  match o with
  | [] => [(k, v)]
  | (k', v') :: o' =>
      if bool_decide (k' = k) then (k, v) :: o' else (k', v') :: obj_set o' k v
  end.

(** Reads and writes above are those of own properties.  A plain object
    also inherits the properties of [Object.prototype]; a dictionary is
    this list only as long as none of its keys is one of these names. *)
Definition inherited_keys : list string :=
  [ "constructor"; "__proto__"; "__defineGetter__"; "__defineSetter__";
    "__lookupGetter__"; "__lookupSetter__"; "hasOwnProperty";
    "isPrototypeOf"; "propertyIsEnumerable"; "toLocaleString"; "toString";
    "valueOf" ].

(** Array indices: the canonical decimal strings of 0 .. 2^32 - 2.  They
    come first, in ascending numeric order, when the own properties of an
    object are enumerated. *)
Definition digit (c : ascii) : option N :=
  let n := N_of_ascii c in
  if (48 <=? n)%N && (n <=? 57)%N then Some (n - 48)%N else None.

Fixpoint digits (s : string) (acc : N) : option N :=
  match s with
  | EmptyString => Some acc
  | String c s' =>
      match digit c with
      | Some d => digits s' (10 * acc + d)%N
      | None => None
      end
  end.

Definition array_index (s : string) : option N :=
  match s with
  | EmptyString => None
  | String c s' =>
      if bool_decide (s = "0") then Some 0%N
      else if bool_decide (c = "0"%char) then None
      else match digits s 0%N with
           | Some n => if (n <=? 4294967294)%N then Some n else None
           | None => None
           end
  end.

Definition index_le (p q : N * (string * float)) : Prop := (p.1 <= q.1)%N.

#[global] Instance index_le_dec p q : Decision (index_le p q).
Proof. unfold index_le. apply _. Defined.

Definition indexed (o : object) : list (N * (string * float)) :=
  omap (fun kv => (fun n => (n, kv)) <$> array_index kv.1) o.

(** [Object.entries(o)]. *)
Definition Object_entries (o : object) : list (string * float) :=
  map snd (merge_sort index_le (indexed o))
  ++ filter (fun kv => array_index kv.1 = None) o.

(** [s.toLowerCase()] on ASCII text. *)
Definition lower_char (c : ascii) : ascii :=
  let n := N_of_ascii c in
  if (65 <=? n)%N && (n <=? 90)%N then ascii_of_N (n + 32) else c.

Fixpoint toLowerCase (s : string) : string :=
  match s with
  | EmptyString => EmptyString
  | String c s' => String (lower_char c) (toLowerCase s')
  end.

(** [s.includes(sub)]. *)
Fixpoint includes (s sub : string) : bool :=
  String.prefix sub s
  || match s with
     | EmptyString => false
     | String _ s' => includes s' sub
     end.

(** A string is truthy unless it is empty. *)
Definition truthy_string (s : string) : bool := negb (bool_decide (s = "")).

(** The answer of a query, [{ data, error }]. *)
Inductive query_result (A : Type) :=
  | QueryData (data : option (list A))
  | QueryError.
Arguments QueryData {A} data.
Arguments QueryError {A}.

Inductive toast :=
  | toast_success (message : string)
  | toast_error (message : string).

End Js.

(** ** Rows as the pages receive them

    The entry queries embed each entry's lines in the entry (field
    [journal_lines]) and each line's account in the line (field
    [accounts]); the embedded account is [null] when it does not
    resolve. *)

Module Rows.

Record Account := {
  id : string;
  code : string;
  name : string;
  type : Schema.account_type;
  parent_account_id : option string;
  is_active : bool
}.

Record JournalLine := {
  line_id : string;
  debit : option float;
  credit : option float;
  accounts : option Account
}.

Record JournalEntry := {
  entry_id : string;
  date : string;
  description : string;
  journal_lines : option (list JournalLine)
}.

(** [entry.journal_lines?.forEach]: nothing to visit when absent. *)
Definition lines_of (entry : JournalEntry) : list JournalLine :=
  default [] (journal_lines entry).

Definition all_lines (entries : list JournalEntry) : list JournalLine :=
  concat (map lines_of entries).

End Rows.

(** ** Chart of accounts page (src/pages/ChartOfAccounts.tsx) *)

Module ChartOfAccounts.
Import Js Rows.

(** The objects built by [loadAccounts]: the account's columns and a
    [children] array.  The arrays hold references, and an object pushed
    into its parent's array is still filled afterwards, so the objects
    live in a heap ([accountMap], keyed by account id) and arrays hold
    keys of that heap. *)
Record AccountObj := {
  account : Account;
  children : list string
}.

Record hierarchy := {
  accountMap : gmap string AccountObj;
  rootAccounts : list string
}.

(** First pass: [accountMap.set(account.id, { ...account, children: [] })]. *)
Definition first_pass (data : list Account) : gmap string AccountObj :=
  fold_left
    (fun m a => <[id a := {| account := a; children := [] |}]> m) data ∅.

Definition push_child (child : string) (o : AccountObj) : AccountObj :=
  {| account := account o; children := children o ++ [child] |}.

Definition push_root (h : hierarchy) (a : Account) : hierarchy :=
  {| accountMap := accountMap h; rootAccounts := rootAccounts h ++ [id a] |}.

(** Second pass, one account. *)
Definition link (h : hierarchy) (a : Account) : hierarchy :=
  match parent_account_id a with
  | Some p =>
      if truthy_string p then
        match accountMap h !! p with
        | Some _ =>
            {| accountMap := alter (push_child (id a)) p (accountMap h);
               rootAccounts := rootAccounts h |}
        | None => push_root h a
        end
      else push_root h a
  | None => push_root h a
  end.

Definition build_hierarchy (data : list Account) : hierarchy :=
  fold_left link data {| accountMap := first_pass data; rootAccounts := [] |}.

(** [loadAccounts]: [shown] is the page's [accounts] state; a failed
    query leaves it as it was. *)
Definition loadAccounts (answer : query_result Account) (shown : hierarchy)
  : hierarchy * list toast :=
  match answer with
  | QueryError => (shown, [toast_error "Failed to load accounts"])
  | QueryData data => (build_hierarchy (default [] data), [])
  end.

(** The objects one can reach from the roots through [children]: what the
    page renders. *)
Inductive shown_in (h : hierarchy) : string -> Prop :=
  | shown_root k : k ∈ rootAccounts h -> shown_in h k
  | shown_child p o k :
      shown_in h p -> accountMap h !! p = Some o -> k ∈ children o ->
      shown_in h k.

Definition defaultAccounts : list (string * string * Schema.account_type) :=
  [ ("1000", "Cash and Cash Equivalents", Schema.asset);
    ("1100", "Accounts Receivable", Schema.asset);
    ("1200", "Inventory", Schema.asset);
    ("1500", "Equipment", Schema.asset);
    ("2000", "Accounts Payable", Schema.liability);
    ("2100", "Accrued Expenses", Schema.liability);
    ("2500", "Long-term Debt", Schema.liability);
    ("3000", "Owner's Equity", Schema.equity);
    ("3100", "Retained Earnings", Schema.equity);
    ("4000", "Sales Revenue", Schema.income);
    ("4100", "Service Revenue", Schema.income);
    ("5000", "Cost of Goods Sold", Schema.expense);
    ("6000", "Operating Expenses", Schema.expense);
    ("6100", "Rent Expense", Schema.expense);
    ("6200", "Utilities Expense", Schema.expense);
    ("6300", "Marketing Expense", Schema.expense) ].

(** The row the store keeps for an inserted account: the key comes from
    [gen_random_uuid()], [is_active] from its default, and no parent is
    given. *)
Definition account_insert (key org : uuid)
  (a : string * string * Schema.account_type) : Schema.account_row :=
  {| Schema.acc_id := key;
     Schema.acc_organization_id := Some org;
     Schema.acc_code := a.1.1;
     Schema.acc_name := a.1.2;
     Schema.acc_type := a.2;
     Schema.acc_parent_account_id := None;
     Schema.acc_is_active := Some true |}.

(** [createDefaultAccounts]: one INSERT of the whole list, sent in the
    session of the [caller]; [gen i] is the key the store generates for
    the i-th row.  (The reload that follows a success is [loadAccounts]
    on a new query.) *)
Definition createDefaultAccounts (caller : Policies.session)
  (currentOrganization : option uuid)
  (gen : nat -> uuid) (db : Schema.database)
  : Schema.database * list toast :=
  match currentOrganization with
  | None => (db, [])
  | Some org =>
      match Policies.insert_accounts caller
              (imap (fun i a => account_insert (gen i) org a) defaultAccounts)
              db with
      | Schema.error _ =>
          (db, [toast_error "Failed to create default accounts"])
      | Schema.ok db' =>
          (db', [toast_success "Default chart of accounts created!"])
      end
  end.

(** The page offers the button only while no account is shown
    ([accounts.length === 0]). *)
Definition offers_default_accounts (shown : hierarchy) : bool :=
  bool_decide (length (rootAccounts shown) = 0).

(** [handleDeleteAccount]; [confirmed] is the answer to the dialog. *)
Definition handleDeleteAccount (caller : Policies.session)
  (confirmed : bool) (accountId : uuid)
  (db : Schema.database) : Schema.database * list toast :=
  if negb confirmed then (db, [])
  else
    match Policies.delete_account caller accountId db with
    | Schema.error _ => (db, [toast_error "Failed to delete account"])
    | Schema.ok db' => (db', [toast_success "Account deleted successfully!"])
    end.

(** The form of the "Add Account" dialog. *)
Record NewAccount := {
  new_code : string;
  new_name : string;
  new_type : Schema.account_type;
  new_parent_account_id : option string
}.

Definition new_account_row (key org : uuid) (newAccount : NewAccount)
  : Schema.account_row :=
  {| Schema.acc_id := key;
     Schema.acc_organization_id := Some org;
     Schema.acc_code := new_code newAccount;
     Schema.acc_name := new_name newAccount;
     Schema.acc_type := new_type newAccount;
     Schema.acc_parent_account_id := new_parent_account_id newAccount;
     Schema.acc_is_active := Some true |}.

(** [handleAddAccount]; [key] is the key the store generates for the new
    row.  Error code 23505 is the unique violation. *)
Definition handleAddAccount (caller : Policies.session)
  (currentOrganization : option uuid)
  (newAccount : NewAccount) (key : uuid) (db : Schema.database)
  : Schema.database * list toast :=
  match currentOrganization with
  | Some org =>
      if truthy_string (new_code newAccount)
         && truthy_string (new_name newAccount)
      then
        match Policies.insert_accounts caller
                [new_account_row key org newAccount] db
        with
        | Schema.error Schema.unique_violation =>
            (db, [toast_error "Account code already exists"])
        | Schema.error _ => (db, [toast_error "Failed to add account"])
        | Schema.ok db' => (db', [toast_success "Account added successfully!"])
        end
      else (db, [toast_error "Please fill in all required fields"])
  | None => (db, [toast_error "Please fill in all required fields"])
  end.

End ChartOfAccounts.

(** ** The other copy of the chart of accounts page (unnamed/part_005) *)

Module ChartOfAccountsCopy.
Import Js Rows.

(** Second pass of this copy: an account whose parent is not in
    [accountMap] is pushed nowhere. *)
Definition link (h : ChartOfAccounts.hierarchy) (a : Account)
  : ChartOfAccounts.hierarchy :=
  match parent_account_id a with
  | Some p =>
      if truthy_string p then
        match ChartOfAccounts.accountMap h !! p with
        | Some _ =>
            {| ChartOfAccounts.accountMap :=
                 alter (ChartOfAccounts.push_child (id a)) p
                   (ChartOfAccounts.accountMap h);
               ChartOfAccounts.rootAccounts :=
                 ChartOfAccounts.rootAccounts h |}
        | None => h
        end
      else ChartOfAccounts.push_root h a
  | None => ChartOfAccounts.push_root h a
  end.

Definition build_hierarchy (data : list Account) : ChartOfAccounts.hierarchy :=
  fold_left link data
    {| ChartOfAccounts.accountMap := ChartOfAccounts.first_pass data;
       ChartOfAccounts.rootAccounts := [] |}.

(** [loadAccounts]: here the error is thrown and caught, and so is the
    TypeError of [data.forEach] on a [null] answer. *)
Definition loadAccounts (answer : query_result Account)
  (shown : ChartOfAccounts.hierarchy)
  : ChartOfAccounts.hierarchy * list toast :=
  match answer with
  | QueryData (Some data) => (build_hierarchy data, [])
  | _ => (shown, [toast_error "Failed to load accounts"])
  end.

End ChartOfAccountsCopy.

(** ** Seeding, as the store sees it *)

Module Seeding.
Import Schema.

Definition default_codes : list string :=
  map (fun a => a.1.1) ChartOfAccounts.defaultAccounts.

Definition default_rows (org : uuid) (gen : nat -> uuid) : list account_row :=
  imap (fun i a => ChartOfAccounts.account_insert (gen i) org a)
    ChartOfAccounts.defaultAccounts.






End Seeding.

(** ** Reading a hierarchy *)

Module Hierarchy.
Import Js Rows ChartOfAccounts.

(** [p] is the key of a loaded account. *)
Definition resolves (data : list Account) (p : string) : Prop :=
  exists b, b ∈ data /\ id b = p.

(** No parent, or a parent that is not loaded. *)
Definition top_level (data : list Account) (a : Account) : Prop :=
  match parent_account_id a with
  | Some p => truthy_string p = false \/ ~ resolves data p
  | None => True
  end.

(** Accounts from which the chain of parents ends at a top-level
    account: all of them when the parent relation has no cycle. *)
Inductive anchored (data : list Account) : Account -> Prop :=
  | anchored_top a : a ∈ data -> top_level data a -> anchored data a
  | anchored_child a b :
      a ∈ data -> b ∈ data ->
      parent_account_id a = Some (id b) -> truthy_string (id b) = true ->
      anchored data b -> anchored data a.

(** [k] is in the [children] array of the object [p]. *)
Definition child_of (h : hierarchy) (p k : string) : Prop :=
  exists o, accountMap h !! p = Some o /\ k ∈ children o.

(** [top_level], decided. *)
Definition is_top_level (data : list Account) (a : Account) : bool :=
  match parent_account_id a with
  | Some p => negb (truthy_string p) || negb (bool_decide (p ∈ map id data))
  | None => true
  end.

(** [a] names [p] as its parent, by a key that is not empty. *)
Definition names_parent (p : string) (a : Account) : bool :=
  bool_decide (parent_account_id a = Some p) && truthy_string p.

(** Top-level in the other copy of the page: no parent at all. *)
Definition has_no_parent (a : Account) : bool :=
  match parent_account_id a with
  | Some p => negb (truthy_string p)
  | None => true
  end.

(** The heap holds exactly the loaded keys, before and during the second
    pass. *)
Definition holds_loaded (data : list Account) (m : gmap string AccountObj)
  : Prop :=
  forall p, is_Some (m !! p) <-> p ∈ map id data.

(** The object [o] with [kids] pushed to its [children]. *)
Definition grown (kids : list string) (o : AccountObj) : AccountObj :=
  {| account := account o; children := children o ++ kids |}.

End Hierarchy.

(** ** Dashboard page (unnamed/part_006) *)

Module Dashboard.
Import Js Rows.

Record RecentTransaction := {
  rt_id : string;
  rt_description : string;
  rt_amount : float;
  rt_type : string;
  rt_date : string
}.

Record MonthlyPoint := {
  month : string;
  inflow : float;
  outflow : float
}.

Record Slice := {
  slice_name : string;
  value : float;
  color : string
}.

Record DashboardData := {
  totalRevenue : float;
  totalExpenses : float;
  netProfit : float;
  outstandingInvoices : float;
  recentTransactions : list RecentTransaction;
  monthlyData : list MonthlyPoint;
  expenseBreakdown : list Slice
}.

(** The variables the loop updates. *)
Record vars := {
  v_totalRevenue : float;
  v_totalExpenses : float;
  v_monthlyRevenue : object;
  v_monthlyExpenses : object;
  v_expensesByCategory : object;
  v_recentTransactions : list RecentTransaction
}.

Definition no_data : DashboardData :=
  {| totalRevenue := 0; totalExpenses := 0; netProfit := 0;
     outstandingInvoices := 0; recentTransactions := [];
     monthlyData := []; expenseBreakdown := [] |}.

Definition start : vars :=
  {| v_totalRevenue := 0; v_totalExpenses := 0; v_monthlyRevenue := [];
     v_monthlyExpenses := []; v_expensesByCategory := [];
     v_recentTransactions := [] |}.

(** [o[k] = (o[k] || 0) + x]. *)
Definition bump (o : object) (k : string) (x : float) : object :=
  obj_set o k (or0 (obj_get o k) + x)%float.

Definition add_revenue (m : string) (v : vars) (x : float) : vars :=
  {| v_totalRevenue := (v_totalRevenue v + x)%float;
     v_totalExpenses := v_totalExpenses v;
     v_monthlyRevenue := bump (v_monthlyRevenue v) m x;
     v_monthlyExpenses := v_monthlyExpenses v;
     v_expensesByCategory := v_expensesByCategory v;
     v_recentTransactions := v_recentTransactions v |}.

Definition add_expense (m category : string) (v : vars) (x : float) : vars :=
  {| v_totalRevenue := v_totalRevenue v;
     v_totalExpenses := (v_totalExpenses v + x)%float;
     v_monthlyRevenue := v_monthlyRevenue v;
     v_monthlyExpenses := bump (v_monthlyExpenses v) m x;
     v_expensesByCategory := bump (v_expensesByCategory v) category x;
     v_recentTransactions := v_recentTransactions v |}.

(** Body of the inner [forEach]. *)
Definition visit_line (m : string) (v : vars) (line : JournalLine) : vars :=
  match accounts line with
  | None => v
  | Some account =>
      let v1 :=
        if bool_decide (type account = Schema.income) && gt0 (credit line)
        then add_revenue m v (to_number (credit line))
        else v in
      if bool_decide (type account = Schema.expense) && gt0 (debit line)
      then add_expense m (name account) v1 (to_number (debit line))
      else v1
  end.

(** The amount shown for an entry in the recent list: the [reduce] over
    its lines. *)
Definition entry_amount_step (sum : float) (line : JournalLine) : float :=
  match accounts line with
  | Some account =>
      if bool_decide (type account = Schema.income)
      then (sum + to_number (credit line))%float
      else if bool_decide (type account = Schema.expense)
      then (sum - to_number (debit line))%float
      else sum
  | None => sum
  end.

Definition entry_amount (entry : JournalEntry) : float :=
  or0 ((fun ls => fold_left entry_amount_step ls 0%float)
         <$> journal_lines entry).

Definition recent (entry : JournalEntry) : RecentTransaction :=
  let amount := entry_amount entry in
  {| rt_id := entry_id entry;
     rt_description := description entry;
     rt_amount := amount;
     rt_type := if (0 <? amount)%float then "income" else "expense";
     rt_date := date entry |}.

Definition months : list string :=
  ["Jan"; "Feb"; "Mar"; "Apr"; "May"; "Jun";
   "Jul"; "Aug"; "Sep"; "Oct"; "Nov"; "Dec"].

Definition palette : list string :=
  ["#3B82F6"; "#10B981"; "#F59E0B"; "#EF4444"; "#8B5CF6"].

(** [Object.entries(o).map(([name, value], index) => ...).slice(0, 5)]. *)
Definition breakdown (o : object) : list Slice :=
  take 5
    (imap (fun index kv =>
             {| slice_name := kv.1; value := kv.2;
                color := default "" (palette !! (index mod 5)) |})
       (Object_entries o)).

Section Locale.

(** The short month name of a date in the browser's locale and time
    zone, [new Date(d).toLocaleString('default', { month: 'short' })]. *)
Variable monthLabel : string -> string.

(** Body of the outer [forEach]. *)
Definition visit_entry (v : vars) (entry : JournalEntry) : vars :=
  let v' := fold_left (visit_line (monthLabel (date entry))) (lines_of entry) v in
  if (length (v_recentTransactions v') <? 5)%nat
  then {| v_totalRevenue := v_totalRevenue v';
          v_totalExpenses := v_totalExpenses v';
          v_monthlyRevenue := v_monthlyRevenue v';
          v_monthlyExpenses := v_monthlyExpenses v';
          v_expensesByCategory := v_expensesByCategory v';
          v_recentTransactions := v_recentTransactions v' ++ [recent entry] |}
  else v'.

Definition scan (journalEntries : list JournalEntry) : vars :=
  fold_left visit_entry journalEntries start.

Definition loadDashboardData (answer : query_result JournalEntry)
  : DashboardData :=
  match answer with
  | QueryError => no_data
  | QueryData journalEntries =>
      let v := scan (default [] journalEntries) in
      {| totalRevenue := v_totalRevenue v;
         totalExpenses := v_totalExpenses v;
         netProfit := (v_totalRevenue v - v_totalExpenses v)%float;
         outstandingInvoices := 0;
         recentTransactions := v_recentTransactions v;
         monthlyData :=
           map (fun m => {| month := m;
                            inflow := or0 (obj_get (v_monthlyRevenue v) m);
                            outflow := or0 (obj_get (v_monthlyExpenses v) m) |})
             months;
         expenseBreakdown := breakdown (v_expensesByCategory v) |}
  end.

End Locale.

(** [hasData]: the page shows its figures only then, and otherwise the
    panel that invites to record a first transaction. *)
Definition hasData (dashboardData : DashboardData) : bool :=
  (0 <? totalRevenue dashboardData)%float
  || (0 <? totalExpenses dashboardData)%float.

End Dashboard.

(** ** Reports page (unnamed/part_007) *)

Module Reports.
Import Js Rows.

Record MonthlyRow := {
  month : string;
  revenue : float;
  expenses : float;
  profit : float
}.

Record Quarter := {
  quarter : string;
  quarter_value : float
}.

Record ReportData := {
  totalRevenue : float;
  totalExpenses : float;
  netProfit : float;
  profitMargin : float;
  monthlyData : list MonthlyRow;
  quarterlyData : list Quarter
}.

Record vars := {
  v_totalRevenue : float;
  v_totalExpenses : float;
  v_monthlyRevenue : object;
  v_monthlyExpenses : object
}.

Definition no_data : ReportData :=
  {| totalRevenue := 0; totalExpenses := 0; netProfit := 0;
     profitMargin := 0; monthlyData := []; quarterlyData := [] |}.

Definition start : vars :=
  {| v_totalRevenue := 0; v_totalExpenses := 0; v_monthlyRevenue := [];
     v_monthlyExpenses := [] |}.

Definition visit_line (m : string) (v : vars) (line : JournalLine) : vars :=
  match accounts line with
  | None => v
  | Some account =>
      let v1 :=
        if bool_decide (type account = Schema.income) && gt0 (credit line)
        then {| v_totalRevenue :=
                  (v_totalRevenue v + to_number (credit line))%float;
                v_totalExpenses := v_totalExpenses v;
                v_monthlyRevenue :=
                  Dashboard.bump (v_monthlyRevenue v) m (to_number (credit line));
                v_monthlyExpenses := v_monthlyExpenses v |}
        else v in
      if bool_decide (type account = Schema.expense) && gt0 (debit line)
      then {| v_totalRevenue := v_totalRevenue v1;
              v_totalExpenses :=
                (v_totalExpenses v1 + to_number (debit line))%float;
              v_monthlyRevenue := v_monthlyRevenue v1;
              v_monthlyExpenses :=
                Dashboard.bump (v_monthlyExpenses v1) m (to_number (debit line)) |}
      else v1
  end.

(** [rows.slice(from, to).reduce((sum, m) => sum + m.revenue, 0)]. *)
Definition quarter_revenue (rows : list MonthlyRow) (from to : nat) : float :=
  fold_left (fun sum m => (sum + revenue m)%float)
    (take (to - from) (drop from rows)) 0%float.

Section Locale.

Variable monthLabel : string -> string.

Definition visit_entry (v : vars) (entry : JournalEntry) : vars :=
  fold_left (visit_line (monthLabel (date entry))) (lines_of entry) v.

Definition scan (journalEntries : list JournalEntry) : vars :=
  fold_left visit_entry journalEntries start.

Definition loadReportData (answer : query_result JournalEntry) : ReportData :=
  match answer with
  | QueryError => no_data
  | QueryData journalEntries =>
      let v := scan (default [] journalEntries) in
      let netProfit := (v_totalRevenue v - v_totalExpenses v)%float in
      let profitMargin :=
        if (0 <? v_totalRevenue v)%float
        then (netProfit / v_totalRevenue v * 100)%float
        else 0%float in
      let monthlyData :=
        map (fun m =>
               {| month := m;
                  revenue := or0 (obj_get (v_monthlyRevenue v) m);
                  expenses := or0 (obj_get (v_monthlyExpenses v) m);
                  profit := (or0 (obj_get (v_monthlyRevenue v) m)
                             - or0 (obj_get (v_monthlyExpenses v) m))%float |})
          Dashboard.months in
      {| totalRevenue := v_totalRevenue v;
         totalExpenses := v_totalExpenses v;
         netProfit := netProfit;
         profitMargin := profitMargin;
         monthlyData := monthlyData;
         quarterlyData :=
           [ {| quarter := "Q1"; quarter_value := quarter_revenue monthlyData 0 3 |};
             {| quarter := "Q2"; quarter_value := quarter_revenue monthlyData 3 6 |};
             {| quarter := "Q3"; quarter_value := quarter_revenue monthlyData 6 9 |};
             {| quarter := "Q4"; quarter_value := quarter_revenue monthlyData 9 12 |} ] |}
  end.

End Locale.

End Reports.

(** ** Expenses page (src/pages/Expenses.tsx) *)

Module Expenses.
Import Js Rows.

Record Expense := {
  expense_id : string;
  expense_date : string;
  expense_description : string;
  amount : float;
  category : string;
  receipt : bool;
  status : string
}.

Record vars := {
  expensesData : list Expense;
  categoryTotals : object
}.

(** [`${entry.id}-${line.id}`]. *)
Definition row_key (entry : JournalEntry) (line : JournalLine) : string :=
  entry_id entry +:+ "-" +:+ line_id line.

Definition visit_line (entry : JournalEntry) (v : vars) (line : JournalLine)
  : vars :=
  match accounts line with
  | Some account =>
      if bool_decide (type account = Schema.expense) && gt0 (debit line)
      then {| expensesData :=
                expensesData v
                ++ [ {| expense_id := row_key entry line;
                        expense_date := date entry;
                        expense_description := description entry;
                        amount := to_number (debit line);
                        category := name account;
                        receipt := false;
                        status := "approved" |} ];
              categoryTotals :=
                Dashboard.bump (categoryTotals v) (name account)
                  (to_number (debit line)) |}
      else v
  | None => v
  end.

Definition visit_entry (v : vars) (entry : JournalEntry) : vars :=
  fold_left (visit_line entry) (lines_of entry) v.

Definition scan (journalEntries : list JournalEntry) : vars :=
  fold_left visit_entry journalEntries
    {| expensesData := []; categoryTotals := [] |}.

(** [loadExpenses]: the expense list and the pie chart's categories; a
    failed query leaves what was [shown]. *)
Definition loadExpenses (answer : query_result JournalEntry)
  (shown : list Expense * list Dashboard.Slice)
  : (list Expense * list Dashboard.Slice) * list toast :=
  match answer with
  | QueryError => (shown, [toast_error "Failed to load expenses"])
  | QueryData journalEntries =>
      let v := scan (default [] journalEntries) in
      ((expensesData v, Dashboard.breakdown (categoryTotals v)), [])
  end.

(** The list under the filters of the page. *)
Definition filteredExpenses (searchTerm categoryFilter statusFilter : string)
  (expenses : list Expense) : list Expense :=
  filter
    (fun expense =>
       includes (toLowerCase (expense_description expense))
         (toLowerCase searchTerm) = true
       /\ (categoryFilter = "all" \/ category expense = categoryFilter)
       /\ (statusFilter = "all" \/ status expense = statusFilter))
    expenses.

(** [expenses.reduce((sum, expense) => sum + expense.amount, 0)]. *)
Definition totalExpenses (expenses : list Expense) : float :=
  fold_left (fun sum expense => (sum + amount expense)%float) expenses 0%float.

Definition pendingExpenses (expenses : list Expense) : float :=
  fold_left (fun sum exp => (sum + amount exp)%float)
    (filter (fun exp => status exp = "pending") expenses) 0%float.

End Expenses.

(** ** Banking page (unnamed/part_004) *)

Module Banking.
Import Js Rows.

Record BankAccount := {
  bank_id : string;
  bank_name : string;
  bank_type : string;
  balance : float
}.

Record Transaction := {
  tx_id : string;
  tx_date : string;
  tx_description : string;
  amount : float;
  status : string;
  category : string
}.

Record view := {
  bankAccounts : list BankAccount;
  transactions : list Transaction
}.

(** The account query keeps active asset accounts
    ([.eq('type', 'asset').eq('is_active', true)]). *)
Definition asset_query (rows : list Account) : list Account :=
  filter (fun a => type a = Schema.asset ∧ is_active a = true) rows.

Definition looks_like_bank (a : Account) : bool :=
  includes (toLowerCase (name a)) "cash"
  || includes (toLowerCase (name a)) "bank"
  || includes (toLowerCase (name a)) "checking"
  || includes (toLowerCase (name a)) "savings".

Definition bankAccountsData (accounts : list Account) : list BankAccount :=
  map (fun a => {| bank_id := id a; bank_name := name a;
                   bank_type := "checking"; balance := 0 |})
    (filter (fun a => looks_like_bank a = true) accounts).

(** One line of one entry: at most one transaction. *)
Definition project (entry : JournalEntry) (line : JournalLine)
  : option Transaction :=
  match accounts line with
  | Some account =>
      if gt0 (debit line) || gt0 (credit line)
      then Some {| tx_id := Expenses.row_key entry line;
                   tx_date := date entry;
                   tx_description := description entry;
                   amount := if gt0 (debit line)
                             then (- to_number (debit line))%float
                             else to_number (credit line);
                   status := "reconciled";
                   category := name account |}
      else None
  | None => None
  end.

Definition transactionsData (journalEntries : list JournalEntry)
  : list Transaction :=
  concat (map (fun entry => omap (project entry) (lines_of entry))
            journalEntries).

(** [loadBankingData]: [accounts] answers the account query over the
    organization's rows, [entries] the query for the 50 latest journal
    entries. *)
Definition loadBankingData (accounts : query_result Account)
  (entries : query_result JournalEntry) : view :=
  match accounts with
  | QueryError => {| bankAccounts := []; transactions := [] |}
  | QueryData rows =>
      let banks := bankAccountsData (asset_query (default [] rows)) in
      match entries with
      | QueryError => {| bankAccounts := banks; transactions := [] |}
      | QueryData journalEntries =>
          {| bankAccounts := banks;
             transactions := transactionsData (default [] journalEntries) |}
      end
  end.

(** What the running balance of an account would be: each of its lines
    counted with the sign of an asset account (debit up, credit down),
    over all the entries given. *)
Definition signed_delta (line : JournalLine) : float :=
  (to_number (debit line) - to_number (credit line))%float.

Definition running_balance (account_id : string)
  (journalEntries : list JournalEntry) : float :=
  fold_left (fun sum line => (sum + signed_delta line)%float)
    (filter (fun line => id <$> Rows.accounts line = Some account_id)
       (all_lines journalEntries))
    0%float.

(** The list under the search box and the status filter. *)
Definition filteredTransactions (searchTerm selectedFilter : string)
  (transactions : list Transaction) : list Transaction :=
  filter
    (fun transaction =>
       includes (toLowerCase (tx_description transaction))
         (toLowerCase searchTerm) = true
       /\ (selectedFilter = "all" \/ status transaction = selectedFilter))
    transactions.

Definition totalInflow (transactions : list Transaction) : float :=
  fold_left (fun sum t => (sum + amount t)%float)
    (filter (fun t => (0 <? amount t)%float = true) transactions) 0%float.

Definition totalOutflow (transactions : list Transaction) : float :=
  fold_left (fun sum t => (sum + abs (amount t))%float)
    (filter (fun t => (amount t <? 0)%float = true) transactions) 0%float.

Definition reconciledCount (transactions : list Transaction) : nat :=
  length (filter (fun t => status t = "reconciled") transactions).

End Banking.

(** ** What the loaders compute, line by line *)

Module Ledger.
Import Js Rows.

(** [xs.reduce((sum, x) => sum + x, 0)], the way [+=] accumulates. *)
Definition js_sum (xs : list float) : float :=
  fold_left PrimFloat.add xs 0%float.

(** What one line adds to [totalRevenue] and to [totalExpenses], if
    anything. *)
Definition revenue_of (line : JournalLine) : option float :=
  match accounts line with
  | Some account =>
      if bool_decide (type account = Schema.income) && gt0 (credit line)
      then Some (to_number (credit line)) else None
  | None => None
  end.

Definition expense_of (line : JournalLine) : option float :=
  match accounts line with
  | Some account =>
      if bool_decide (type account = Schema.expense) && gt0 (debit line)
      then Some (to_number (debit line)) else None
  | None => None
  end.

(** The signed total the sign convention would give an income account:
    credits up, debits down. *)
Definition signed_income_total (lines : list JournalLine) : float :=
  fold_left
    (fun sum line => (sum + to_number (credit line) - to_number (debit line))%float)
    lines 0%float.

(** The category and the amount a line adds to the dictionary of
    expenses, if any. *)
Definition expense_category (line : JournalLine) : option (string * float) :=
  match accounts line with
  | Some account =>
      if bool_decide (type account = Schema.expense) && gt0 (debit line)
      then Some (name account, to_number (debit line)) else None
  | None => None
  end.

(** [o[k] = (o[k] || 0) + x] for each pair of a list, in order. *)
Definition bump_all (o : object) (cs : list (string * float)) : object :=
  fold_left (fun o c => Dashboard.bump o c.1 c.2) cs o.

(** The value a key ends with: the amounts recorded for it, added one
    after the other, the first one to [undefined || 0]. *)
Definition summed (slot : option float) (xs : list float) : option float :=
  fold_left (fun acc x => Some (or0 acc + x)%float) xs slot.

Definition amounts_of (k : string) (cs : list (string * float)) : list float :=
  map snd (filter (fun c => c.1 = k) cs).

Definition category_total (k : string) (cs : list (string * float))
  : option float :=
  summed None (amounts_of k cs).


(** A line the Banking page turns into a transaction. *)
Definition linked (line : JournalLine) : Prop :=
  is_Some (accounts line)
  /\ (gt0 (debit line) = true \/ gt0 (credit line) = true).

#[global] Instance linked_dec line : Decision (linked line).
Proof. unfold linked. apply _. Defined.

(** The entries whose month label is [m], and what their lines add to
    revenue and to expenses. *)
Definition entries_of_month (monthLabel : string -> string) (m : string)
  (entries : list JournalEntry) : list JournalEntry :=
  filter (fun e => monthLabel (date e) = m) entries.

Definition month_revenue (monthLabel : string -> string) (m : string)
  (entries : list JournalEntry) : float :=
  or0 (summed None
         (omap revenue_of (all_lines (entries_of_month monthLabel m entries)))).

Definition month_expenses (monthLabel : string -> string) (m : string)
  (entries : list JournalEntry) : float :=
  or0 (summed None
         (omap expense_of (all_lines (entries_of_month monthLabel m entries)))).

(** No line adds to revenue or to expenses. *)
Definition quiet (entries : list JournalEntry) : Prop :=
  Forall (fun l => revenue_of l = None /\ expense_of l = None)
    (all_lines entries).

(** The lines the Banking page shows as money out and as money in. *)
Definition paid_out (line : JournalLine) : option float :=
  match accounts line with
  | Some _ => if gt0 (debit line) then Some (to_number (debit line)) else None
  | None => None
  end.

Definition paid_in (line : JournalLine) : option float :=
  match accounts line with
  | Some _ =>
      if gt0 (debit line) then None
      else if gt0 (credit line) then Some (to_number (credit line)) else None
  | None => None
  end.

(** What the lines of the entries add to a dictionary keyed by month
    label: one pair per line that [f] counts, in the order of the rows. *)
Definition month_contributions (f : JournalLine -> option float)
  (monthLabel : string -> string) (entries : list JournalEntry)
  : list (string * float) :=
  concat
    (map (fun e => map (pair (monthLabel (date e))) (omap f (lines_of e)))
       entries).

(** The row a line adds to the list of the expenses page, if any. *)
Definition expense_row (entry : JournalEntry) (line : JournalLine)
  : option Expenses.Expense :=
  match accounts line with
  | Some account =>
      if bool_decide (type account = Schema.expense) && gt0 (debit line)
      then Some {| Expenses.expense_id := Expenses.row_key entry line;
                   Expenses.expense_date := date entry;
                   Expenses.expense_description := description entry;
                   Expenses.amount := to_number (debit line);
                   Expenses.category := name account;
                   Expenses.receipt := false;
                   Expenses.status := "approved" |}
      else None
  | None => None
  end.

(** A line that is neither against an income nor against an expense
    account. *)
Definition off_the_result (line : JournalLine) : Prop :=
  match accounts line with
  | Some a => type a <> Schema.income /\ type a <> Schema.expense
  | None => True
  end.

(** The lines an answer carries: the [journal_lines] array of each
    entry that has one, one array after the other. *)
Definition loaded_lines (entries : list JournalEntry) : list JournalLine :=
  flat_map (fun e => match journal_lines e with
                     | Some ls => ls
                     | None => []
                     end) entries.

(** Month labels are month names, not names of inherited properties. *)
Definition plain_labels (monthLabel : string -> string)
  (entries : list JournalEntry) : Prop :=
  Forall (fun e => monthLabel (date e) ∉ inherited_keys) entries.

End Ledger.

(** ** Sample data *)

Module Fixtures.
Import Schema.

Definition cash_row : account_row :=
  {| acc_id := "acc-cash"; acc_organization_id := Some "org-1";
     acc_code := "1000"; acc_name := "Cash and Cash Equivalents";
     acc_type := asset; acc_parent_account_id := None;
     acc_is_active := Some true |}.

Definition sales_row : account_row :=
  {| acc_id := "acc-sales"; acc_organization_id := Some "org-1";
     acc_code := "4000"; acc_name := "Sales Revenue";
     acc_type := income; acc_parent_account_id := None;
     acc_is_active := Some true |}.

Definition entry_row : journal_entry_row :=
  {| je_id := "je-1"; je_organization_id := Some "org-1";
     je_date := "2024-03-05"; je_description := "Cash sale";
     je_reference := None; je_created_by := None |}.

Definition line_row (key : uuid) (debit credit : Z) (account : uuid)
  : journal_line_row :=
  {| jl_id := key; jl_entry_id := Some "je-1"; jl_account_id := Some account;
     jl_debit := Some debit; jl_credit := Some credit;
     jl_description := None |}.

(** An organization with two accounts and one entry, no line yet. *)
Definition opened : database :=
  run [ InsertOrganization "org-1";
        InsertAccounts [cash_row; sales_row];
        InsertJournalEntries [entry_row] ] empty_database.

(** 100.00 debited to cash, nothing credited anywhere. *)
Definition one_sided : list journal_line_row :=
  [ line_row "jl-1" 10000 0 "acc-cash" ].

(** A line that carries the two column defaults, 0 and 0. *)
Definition blank_line : journal_line_row := line_row "jl-0" 0 0 "acc-sales".

(** A balanced entry: 100.00 debited to cash and credited to sales. *)
Definition balanced : list journal_line_row :=
  [ line_row "jl-1" 10000 0 "acc-cash"; line_row "jl-2" 0 10000 "acc-sales" ].

(** The history of a balanced entry. *)
Definition sample_history : list statement :=
  [ InsertOrganization "org-1";
    InsertAccounts [cash_row; sales_row];
    InsertJournalEntries [entry_row];
    InsertJournalLines balanced ].


(** The owner of "org-1", and a member of its staff. *)
Definition owner_session : Policies.session :=
  Policies.authenticated
    [ {| Policies.uo_organization_id := Some "org-1";
         Policies.uo_role := Some Policies.owner;
         Policies.uo_status := Some Policies.active |} ].



End Fixtures.

(** ** Sample rows *)

Module Samples.
Import Js Rows.

Definition sales : Account :=
  {| id := "acc-sales"; code := "4000"; name := "Sales Revenue";
     type := Schema.income; parent_account_id := None; is_active := true |}.

Definition rent : Account :=
  {| id := "acc-rent"; code := "6100"; name := "Rent Expense";
     type := Schema.expense; parent_account_id := None; is_active := true |}.

Definition cash : Account :=
  {| id := "acc-cash"; code := "1000"; name := "Cash and Cash Equivalents";
     type := Schema.asset; parent_account_id := None; is_active := true |}.

Definition line (key : string) (d c : float) (a : Account) : JournalLine :=
  {| line_id := key; debit := Some d; credit := Some c; accounts := Some a |}.

Definition entry (key day text : string) (ls : list JournalLine)
  : JournalEntry :=
  {| entry_id := key; date := day; description := text;
     journal_lines := Some ls |}.

(** A sale of 1000 and a rent payment of 400, one entry each. *)
Definition sale_and_rent : list JournalEntry :=
  [ entry "je-2" "2024-03-20" "March rent" [line "jl-3" 400 0 rent];
    entry "je-1" "2024-03-05" "Invoice 17" [line "jl-1" 0 1000 sales] ].

(** A refund booked as a debit of 100 on the income account. *)
Definition refund : list JournalEntry :=
  [ entry "je-3" "2024-04-02" "Refund" [line "jl-5" 100 0 sales] ].

(** 250 paid into the cash account. *)
Definition deposit : list JournalEntry :=
  [ entry "je-4" "2024-04-09" "Deposit" [line "jl-7" 250 0 cash] ].

Definition utilities : Account :=
  {| id := "acc-util"; code := "6200"; name := "Utilities Expense";
     type := Schema.expense; parent_account_id := None; is_active := true |}.

(** Utilities first, rent second, 100 each; then 50 more of utilities. *)
Definition two_categories : list JournalEntry :=
  [ entry "je-6" "2024-05-02" "Power" [line "jl-9" 100 0 utilities];
    entry "je-5" "2024-05-01" "May rent" [line "jl-8" 100 0 rent] ].


(** Six expense accounts, one bill each, the largest last. *)
Definition expense_account (key code name : string) : Account :=
  {| id := key; code := code; name := name; type := Schema.expense;
     parent_account_id := None; is_active := true |}.

Definition six_categories : list JournalEntry :=
  [ entry "je-11" "2024-06-06" "Rent" [line "jl-21" 100 0 rent];
    entry "je-12" "2024-06-05" "Power" [line "jl-22" 200 0 utilities];
    entry "je-13" "2024-06-04" "Flyers"
      [line "jl-23" 300 0
         (expense_account "acc-mkt" "6300" "Marketing Expense")];
    entry "je-14" "2024-06-03" "Supplies"
      [line "jl-24" 400 0
         (expense_account "acc-ops" "6000" "Operating Expenses")];
    entry "je-15" "2024-06-02" "Stock"
      [line "jl-25" 500 0
         (expense_account "acc-cogs" "5000" "Cost of Goods Sold")];
    entry "je-16" "2024-06-01" "Wages"
      [line "jl-26" 600 0
         (expense_account "acc-pay" "6400" "Payroll Expense")] ].


(** An account whose parent is not among the loaded accounts. *)
Definition orphan : Account :=
  {| id := "acc-branch"; code := "1010"; name := "Branch Cash";
     type := Schema.asset; parent_account_id := Some "acc-closed";
     is_active := true |}.

(** Two accounts, each the parent of the other. *)
Definition child_of_b : Account :=
  {| id := "acc-a"; code := "1020"; name := "A";
     type := Schema.asset; parent_account_id := Some "acc-b";
     is_active := true |}.

Definition child_of_a : Account :=
  {| id := "acc-b"; code := "1030"; name := "B";
     type := Schema.asset; parent_account_id := Some "acc-a";
     is_active := true |}.

Definition march (_ : string) : string := "Mar".

End Samples.

(** ** The JavaScript helpers on examples *)

Module JsExamples.
Import Js.

Example array_index_canonical :
  array_index "10" = Some 10%N /\ array_index "0" = Some 0%N
  /\ array_index "01" = None /\ array_index "4294967295" = None
  /\ array_index "Rent" = None /\ array_index "" = None.
Proof. repeat split. Qed.

Example entries_put_indices_first :
  Object_entries [("b", 1%float); ("10", 2%float); ("9", 3%float)]
  = [("9", 3%float); ("10", 2%float); ("b", 1%float)].
Proof. reflexivity. Qed.

Example or0_of_falsy :
  or0 None = 0%float /\ or0 (Some nan) = 0%float
  /\ or0 (Some (- 0)%float) = 0%float /\ or0 (Some 2.5%float) = 2.5%float.
Proof. repeat split. Qed.

Example includes_after_lowering :
  includes (toLowerCase "Petty CASH box") "cash" = true
  /\ includes (toLowerCase "Equipment") "cash" = false.
Proof. repeat split. Qed.

End JsExamples.

(** ** Row security in front of the tables *)

Module PolicyProperties.
Import Schema Policies.

Lemma insert_accounts_allowed s rows db :
  Forall (fun r => may_manage s (acc_organization_id r) = true) rows ->
  Policies.insert_accounts s rows db = Schema.insert_accounts rows db.
Proof.
  intros Hall. unfold Policies.insert_accounts.
  destruct (list_find _ rows) as [[i r]|] eqn:Hfind; [|done].
  apply list_find_Some in Hfind as (Hi & Hr & _).
  rewrite Forall_forall in Hall.
  rewrite (Hall r) in Hr; [discriminate|].
  by apply list_elem_of_lookup_2 with i.
Qed.

Lemma insert_accounts_refused s r rows db :
  may_manage s (acc_organization_id r) = false ->
  Policies.insert_accounts s (r :: rows) db = error insufficient_privilege.
Proof.
  intros Hr. unfold Policies.insert_accounts. cbn [list_find].
  by rewrite decide_True.
Qed.

(** What row security lets through is what the tables then decide. *)
Lemma insert_accounts_ok s rows db db' :
  Policies.insert_accounts s rows db = ok db' ->
  Schema.insert_accounts rows db = ok db'
  /\ Forall (fun r => may_manage s (acc_organization_id r) = true) rows.
Proof.
  unfold Policies.insert_accounts.
  destruct (list_find _ rows) as [[i r]|] eqn:Hfind.
  - destruct (add_account_rows _ _); discriminate.
  - intros H. split; [exact H|].
    apply list_find_None in Hfind.
    eapply Forall_impl; [exact Hfind|]. intros r Hr. simpl in Hr.
    by destruct (may_manage s (acc_organization_id r)).
Qed.

Lemma delete_account_shown s id db a :
  a ∈ accounts db -> acc_id a = id ->
  may_manage s (acc_organization_id a) = true ->
  Policies.delete_account s id db = Schema.delete_account id db.
Proof.
  intros Ha Hid Hm. unfold Policies.delete_account.
  destruct s as [|ms]; [done|].
  assert (existsb (fun a => bool_decide (acc_id a = id)
                            && may_manage (authenticated ms)
                                 (acc_organization_id a))
            (accounts db) = true) as ->; [|done].
  apply existsb_exists. exists a. split; [by apply list_elem_of_In|].
  by rewrite bool_decide_eq_true_2, Hm.
Qed.





End PolicyProperties.

(** ** Properties of the store *)

Module StoreProperties.
Import Schema.

Lemma line_ok_sides l :
  line_ok l ->
  (forall d, jl_debit l = Some d -> (0 <= d)%Z)
  /\ (forall c, jl_credit l = Some c -> (0 <= c)%Z)
  /\ (forall d c, jl_debit l = Some d -> jl_credit l = Some c ->
      d = 0%Z \/ c = 0%Z).
Proof.
  intros [Hc _]. unfold journal_lines_check in Hc.
  apply andb_prop in Hc as [H1 H2].
  destruct (jl_debit l) as [d|], (jl_credit l) as [c|]; simpl in *;
    (split; [|split]); intros; simplify_eq;
    repeat match goal with
      | H : context [(0 <=? ?x)%Z] |- _ => destruct (Z.leb_spec 0 x); simpl in H
      | H : context [(0 <? ?x)%Z] |- _ => destruct (Z.ltb_spec 0 x); simpl in H
      end; try discriminate; try lia.
Qed.

Lemma add_line_rows_spec rows : forall tbl tbl',
  add_line_rows rows tbl = ok tbl' <->
  tbl' = tbl ++ rows
  /\ Forall (fun r => journal_lines_check r = true) rows
  /\ NoDup (map jl_id rows)
  /\ (forall r, r ∈ rows -> jl_id r ∉ map jl_id tbl).
Proof.
  induction rows as [|r rows IH]; intros tbl tbl'; simpl.
  - rewrite app_nil_r. split.
    + intros [= <-]. repeat split; auto using NoDup_nil_2.
      intros r Hr. inversion Hr.
    + intros (-> & _). reflexivity.
  - destruct (journal_lines_check r) eqn:Hk; simpl.
    2:{ split; [discriminate|]. intros (_ & Hok & _).
        apply Forall_cons in Hok as [Hk' _]. congruence. }
    case_bool_decide as Hin.
    { split; [discriminate|]. intros (_ & _ & _ & Hfresh).
      exfalso. apply (Hfresh r); [left | exact Hin]. }
    rewrite IH. rewrite <- app_assoc. simpl.
    split.
    + intros (-> & Hok & Hnd & Hfresh). repeat split; auto.
      * constructor; [|assumption].
        intros Hr. apply list_elem_of_fmap in Hr as (r' & Heq & Hr').
        apply (Hfresh r' Hr'). rewrite fmap_app. apply elem_of_app. right.
        rewrite <- Heq. simpl. left.
      * intros r' Hr' Hin'. apply elem_of_cons in Hr' as [->|Hr'];
          [contradiction|].
        apply (Hfresh r' Hr'). rewrite fmap_app. apply elem_of_app. by left.
    + intros (-> & Hok & Hnd & Hfresh).
      apply Forall_cons in Hok as [_ Hok].
      apply NoDup_cons in Hnd as [Hnr Hnd].
      repeat split; auto.
      intros r' Hr'. rewrite fmap_app. intros Hin'.
      apply elem_of_app in Hin' as [Hin'|Hin'].
      * apply (Hfresh r'); [by right | assumption].
      * simpl in Hin'. apply list_elem_of_singleton in Hin'.
        apply Hnr. rewrite <- Hin'. by apply list_elem_of_fmap_2.
Qed.

Lemma lines_ok_iff rows :
  Forall line_ok rows <->
  forallb in_range rows = true
  /\ Forall (fun r => journal_lines_check r = true) rows.
Proof.
  induction rows as [|r rows IH]; simpl.
  - split; [by intros _|by intros _].
  - rewrite Forall_cons, IH, andb_true_iff, (Forall_cons _ r rows).
    unfold line_ok, in_range. rewrite andb_true_iff. tauto.
Qed.

Lemma insert_journal_lines_spec rows db db' :
  insert_journal_lines rows db = ok db' <->
  Forall line_ok rows
  /\ NoDup (map jl_id rows)
  /\ (forall r, r ∈ rows -> jl_id r ∉ map jl_id (journal_lines db))
  /\ Forall (line_refs_ok db) rows
  /\ db' = {| organizations := organizations db; accounts := accounts db;
              journal_entries := journal_entries db;
              journal_lines := journal_lines db ++ rows |}.
Proof.
  unfold insert_journal_lines. rewrite lines_ok_iff.
  destruct (forallb in_range rows); simpl;
    [|split; [discriminate | by intros ([[=] _] & _)]].
  destruct (add_line_rows rows (journal_lines db)) as [tbl|e] eqn:Hadd.
  - apply add_line_rows_spec in Hadd as (-> & Hok & Hnd & Hfresh).
    destruct (forallb _ rows) eqn:Hfk.
    + split.
      * intros [= <-]. repeat split; auto.
        apply Forall_forall. intros r Hr.
        rewrite forallb_forall in Hfk.
        specialize (Hfk r (proj1 (list_elem_of_In _ _) Hr)).
        apply andb_prop in Hfk. exact Hfk.
      * intros (_ & _ & _ & _ & ->). reflexivity.
    + split; [discriminate|]. intros (_ & _ & _ & Hrefs & _).
      assert (forallb (fun r =>
                fk_ok (jl_entry_id r) (map je_id (journal_entries db))
                && fk_ok (jl_account_id r) (map acc_id (accounts db))) rows
              = true) as Hall; [|congruence].
      apply forallb_forall. intros r Hr.
      apply list_elem_of_In in Hr.
      rewrite Forall_forall in Hrefs. destruct (Hrefs r Hr) as [-> ->]. done.
  - split; [discriminate|]. intros ([_ Hok] & Hnd & Hfresh & _ & _).
    assert (add_line_rows rows (journal_lines db) = ok (journal_lines db ++ rows))
      as Hyes; [|congruence].
    apply add_line_rows_spec. auto.
Qed.

(** Every statement keeps the per-line constraints. *)
Lemma execute_lines_ok s db db' :
  execute s db = ok db' ->
  Forall line_ok (journal_lines db) -> Forall line_ok (journal_lines db').
Proof.
  destruct s; simpl; intros Hex Hok.
  - unfold insert_organization in Hex. case_bool_decide; simplify_eq. done.
  - unfold delete_organization in Hex. simplify_eq. simpl.
    apply Forall_forall. intros l Hl.
    apply list_elem_of_filter in Hl as [_ Hl].
    apply list_elem_of_filter in Hl as [_ Hl].
    by eapply Forall_forall in Hok.
  - unfold insert_accounts in Hex.
    destruct (add_account_rows _ _); [|discriminate].
    destruct (forallb _ _); simplify_eq. done.
  - unfold delete_account in Hex. simplify_eq. simpl.
    apply Forall_forall. intros l Hl.
    apply list_elem_of_filter in Hl as [_ Hl].
    by eapply Forall_forall in Hok.
  - unfold insert_journal_entries in Hex.
    destruct (add_entry_rows _ _); [|discriminate].
    destruct (forallb _ _); simplify_eq. done.
  - unfold delete_journal_entry in Hex. simplify_eq. simpl.
    apply Forall_forall. intros l Hl.
    apply list_elem_of_filter in Hl as [_ Hl].
    by eapply Forall_forall in Hok.
  - apply insert_journal_lines_spec in Hex as (Hrows & _ & _ & _ & ->).
    simpl. apply Forall_app. by split.
  - unfold delete_journal_line in Hex. simplify_eq. simpl.
    apply Forall_forall. intros l Hl.
    apply list_elem_of_filter in Hl as [_ Hl].
    by eapply Forall_forall in Hok.
Qed.

Lemma step_lines_ok db s :
  Forall line_ok (journal_lines db) ->
  Forall line_ok (journal_lines (step db s)).
Proof.
  unfold step. destruct (execute s db) eqn:Hex; [|done].
  by apply execute_lines_ok with s.
Qed.

Lemma run_lines_ok ss : forall db,
  Forall line_ok (journal_lines db) ->
  Forall line_ok (journal_lines (run ss db)).
Proof.
  induction ss as [|s ss IH]; intros db Hok; [done|].
  simpl. apply IH. by apply step_lines_ok.
Qed.

Lemma sum_column_nonneg xs :
  Forall (fun x => forall v, x = Some v -> (0 <= v)%Z) xs ->
  (0 <= sum_column xs)%Z.
Proof.
  induction 1 as [|x xs Hx _ IH]; simpl; [lia|].
  destruct x as [v|]; simpl; [specialize (Hx v eq_refl)|]; lia.
Qed.

(** C1, as amended: in every state a history of statements can reach,
    the debit total and the credit total of each entry are both
    non-negative numbers of minor units, exact to the cent.  That is all
    the per-line CHECK constraints give: nothing relates the two
    totals. *)
Theorem entry_totals_are_non_negative ss entry :
  (0 <= total_debit (lines_of_entry entry (run ss empty_database)))%Z
  /\ (0 <= total_credit (lines_of_entry entry (run ss empty_database)))%Z.
Proof.
  pose proof (run_lines_ok ss empty_database (Forall_nil_2 _)) as Hok.
  assert (Forall line_ok (lines_of_entry entry (run ss empty_database)))
    as Hsub.
  { apply Forall_forall. intros l Hl.
    apply list_elem_of_filter in Hl as [_ Hl].
    by eapply Forall_forall in Hok. }
  split; apply sum_column_nonneg; apply Forall_fmap;
    (eapply Forall_impl; [exact Hsub|]); intros l Hl v Hv; simpl in Hv;
    destruct (line_ok_sides l Hl) as (Hd & Hc & _); eauto.
Qed.

(** C1 fails as stated: the entry "je-1" is stored with a single line,
    100.00 on the debit side and nothing on the credit side. *)
Lemma unbalanced_entry_is_recorded :
  let db := run [InsertJournalLines Fixtures.one_sided] Fixtures.opened in
  Fixtures.entry_row ∈ journal_entries db
  /\ lines_of_entry "je-1" db = Fixtures.one_sided
  /\ total_debit (lines_of_entry "je-1" db) = 10000%Z
  /\ total_credit (lines_of_entry "je-1" db) = 0%Z
  /\ ~ balanced_entry "je-1" db.
Proof.
  vm_compute. repeat split; try reflexivity.
  - apply list_elem_of_singleton. reflexivity.
  - discriminate.
Qed.

(** C2, as amended: in every state a history of statements can reach,
    each stored line has a non-negative debit and a non-negative credit
    (where the column is not NULL), and of a debit and a credit that are
    both present at least one is zero.  Nothing requires one of them to
    be positive. *)
Theorem persisted_line_has_at_most_one_side ss l :
  l ∈ journal_lines (run ss empty_database) ->
  (forall d, jl_debit l = Some d -> (0 <= d)%Z)
  /\ (forall c, jl_credit l = Some c -> (0 <= c)%Z)
  /\ (forall d c, jl_debit l = Some d -> jl_credit l = Some c ->
      d = 0%Z \/ c = 0%Z).
Proof.
  intros Hl. apply line_ok_sides.
  pose proof (run_lines_ok ss empty_database (Forall_nil_2 _)) as Hok.
  by eapply Forall_forall in Hok.
Qed.

Lemma persisted_line_has_at_most_one_side_witness :
  Fixtures.line_row "jl-2" 0 10000 "acc-sales"
    ∈ journal_lines (run Fixtures.sample_history empty_database)
  /\ ((forall d, Some 0%Z = Some d -> (0 <= d)%Z)
      /\ (forall c, Some 10000%Z = Some c -> (0 <= c)%Z)
      /\ (forall d c, Some 0%Z = Some d -> Some 10000%Z = Some c ->
          d = 0%Z \/ c = 0%Z)).
Proof.
  assert (Fixtures.line_row "jl-2" 0 10000 "acc-sales"
            ∈ journal_lines (run Fixtures.sample_history empty_database)) as Hin.
  { vm_compute. right. left. }
  split; [exact Hin|].
  exact (persisted_line_has_at_most_one_side Fixtures.sample_history _ Hin).
Defined.

(** C2 fails as stated: a line whose debit and credit are both 0, the
    defaults of the two columns, is accepted and stored. *)
Lemma blank_line_is_persisted :
  insert_journal_lines [Fixtures.blank_line] Fixtures.opened
  = ok (run [InsertJournalLines [Fixtures.blank_line]] Fixtures.opened)
  /\ Fixtures.blank_line
       ∈ journal_lines
           (run [InsertJournalLines [Fixtures.blank_line]] Fixtures.opened)
  /\ jl_debit Fixtures.blank_line = Some 0%Z
  /\ jl_credit Fixtures.blank_line = Some 0%Z
  /\ ~ exactly_one_side Fixtures.blank_line.
Proof.
  repeat split; try reflexivity.
  - vm_compute. left.
  - intros [(d & Hd & Hpos & _) | (c & Hc & Hpos & _)]; simpl in *;
      simplify_eq; lia.
Qed.

(** *** Deleting an account *)







End StoreProperties.

(** ** Seeding the default chart of accounts *)

Module SeedingProperties.
Import Schema Seeding.

Lemma codes_unique_app l1 l2 :
  codes_unique (l1 ++ l2) <->
  codes_unique l1 /\ codes_unique l2
  /\ (forall a b, a ∈ l1 -> b ∈ l2 -> same_org_code b a = false).
Proof.
  induction l1 as [|x l1 IH]; simpl.
  - split; [intros H; repeat split; auto; intros a b Ha; inversion Ha | tauto].
  - rewrite Forall_app, IH. split.
    + intros ((H1 & H2) & H3 & H4 & H5). repeat split; auto.
      intros a b Ha Hb. apply elem_of_cons in Ha as [->|Ha]; [|by apply H5].
      by eapply Forall_forall in H2.
    + intros ((H1 & H2) & H3 & H4). repeat split; auto.
      * apply Forall_forall. intros b Hb. apply H4; [left | done].
      * intros a b Ha Hb. apply H4; [by right | done].
Qed.

Lemma existsb_false_forall {A} (f : A -> bool) (l : list A) :
  existsb f l = false <-> forall x, x ∈ l -> f x = false.
Proof.
  induction l as [|y l IH]; simpl.
  - split; [intros _ x Hx; inversion Hx | done].
  - rewrite orb_false_iff, IH. split.
    + intros [H1 H2] x Hx. apply elem_of_cons in Hx as [->|Hx]; auto.
    + intros H. split; [apply H; left | intros x Hx; apply H; by right].
Qed.

Lemma add_account_rows_spec rows : forall tbl tbl',
  add_account_rows rows tbl = ok tbl' <->
  tbl' = tbl ++ rows
  /\ NoDup (map acc_id rows)
  /\ (forall r, r ∈ rows -> acc_id r ∉ map acc_id tbl)
  /\ codes_unique rows
  /\ (forall t r, t ∈ tbl -> r ∈ rows -> same_org_code r t = false).
Proof.
  induction rows as [|r rows IH]; intros tbl tbl'; simpl.
  - rewrite app_nil_r. split.
    + intros [= <-]. repeat split; auto using NoDup_nil_2.
      * intros r Hr; inversion Hr.
      * intros t r _ Hr; inversion Hr.
    + intros (-> & _). reflexivity.
  - case_bool_decide as Hin.
    { split; [discriminate|]. intros (_ & _ & Hfresh & _).
      exfalso. apply (Hfresh r); [left | exact Hin]. }
    destruct (existsb (same_org_code r) tbl) eqn:Hex.
    { split; [discriminate|]. intros (_ & _ & _ & _ & Hcross).
      apply existsb_exists in Hex as (t & Ht & Hsame).
      apply list_elem_of_In in Ht.
      rewrite (Hcross t r Ht) in Hsame; [discriminate | left]. }
    pose proof (proj1 (existsb_false_forall _ _) Hex) as Hno.
    rewrite IH. rewrite <- app_assoc. simpl. split.
    + intros (-> & Hnd & Hfresh & Huniq & Hcross). repeat split; auto.
      * constructor; [|assumption].
        intros Hr. apply list_elem_of_fmap in Hr as (r' & Heq & Hr').
        apply (Hfresh r' Hr'). rewrite fmap_app. apply elem_of_app. right.
        rewrite <- Heq. simpl. left.
      * intros r' Hr' Hin'. apply elem_of_cons in Hr' as [->|Hr'];
          [contradiction|].
        apply (Hfresh r' Hr'). rewrite fmap_app. apply elem_of_app. by left.
      * apply Forall_forall. intros b Hb. apply Hcross; [|done].
        apply elem_of_app. right. left.
      * intros t r' Ht Hr'. apply elem_of_cons in Hr' as [->|Hr'];
          [by apply Hno|].
        apply Hcross; [|done]. apply elem_of_app. by left.
    + intros (-> & Hnd & Hfresh & (Hhead & Huniq) & Hcross).
      apply NoDup_cons in Hnd as [Hnr Hnd].
      repeat split; auto.
      * intros r' Hr'. rewrite fmap_app. intros Hin'.
        apply elem_of_app in Hin' as [Hin'|Hin'].
        -- apply (Hfresh r'); [by right | assumption].
        -- simpl in Hin'. apply list_elem_of_singleton in Hin'.
           apply Hnr. rewrite <- Hin'. by apply list_elem_of_fmap_2.
      * intros t r' Ht Hr'. apply elem_of_app in Ht as [Ht|Ht].
        -- apply Hcross; [done | by right].
        -- apply list_elem_of_singleton in Ht as ->.
           by eapply Forall_forall in Hhead.
Qed.




Lemma default_rows_codes org gen :
  map acc_code (default_rows org gen) = default_codes.
Proof. reflexivity. Qed.


Lemma default_row_fields org gen r :
  r ∈ default_rows org gen ->
  acc_organization_id r = Some org
  /\ acc_parent_account_id r = None
  /\ acc_code r ∈ default_codes.
Proof.
  intros Hr. repeat split.
  - unfold default_rows in Hr.
    apply elem_of_lookup_imap in Hr as (i & a & -> & _). reflexivity.
  - unfold default_rows in Hr.
    apply elem_of_lookup_imap in Hr as (i & a & -> & _). reflexivity.
  - rewrite <- (default_rows_codes org gen). by apply list_elem_of_fmap_2.
Qed.


(** The sixteen rows carry the organization of the page: row security
    lets all of them through or refuses the first. *)
Lemma seeding_allowed s org gen db :
  Policies.may_manage s (Some org) = true ->
  ChartOfAccounts.createDefaultAccounts s (Some org) gen db
  = match insert_accounts (default_rows org gen) db with
    | error _ => (db, [Js.toast_error "Failed to create default accounts"])
    | ok db' => (db', [Js.toast_success "Default chart of accounts created!"])
    end.
Proof.
  intros Hm. unfold ChartOfAccounts.createDefaultAccounts.
  fold (default_rows org gen).
  rewrite PolicyProperties.insert_accounts_allowed; [done|].
  apply Forall_forall. intros r Hr.
  by destruct (default_row_fields org gen r Hr) as (-> & _ & _).
Qed.

Lemma seeding_refused_by_policy s org gen db :
  Policies.may_manage s (Some org) = false ->
  ChartOfAccounts.createDefaultAccounts s (Some org) gen db
  = (db, [Js.toast_error "Failed to create default accounts"]).
Proof.
  intros Hm. unfold ChartOfAccounts.createDefaultAccounts.
  unfold ChartOfAccounts.defaultAccounts. cbn [imap].
  by rewrite PolicyProperties.insert_accounts_refused.
Qed.






Lemma seeding_keeps_codes_unique s org gen db :
  codes_unique (accounts db) ->
  codes_unique
    (accounts
       (fst (ChartOfAccounts.createDefaultAccounts s (Some org) gen db))).
Proof.
  intros Huniq.
  destruct (Policies.may_manage s (Some org)) eqn:Hm;
    [|by rewrite seeding_refused_by_policy].
  rewrite (seeding_allowed s org gen db Hm). unfold insert_accounts.
  destruct (add_account_rows _ _) as [tbl|e] eqn:Hadd; [|done].
  destruct (forallb _ _); [|done]. simpl.
  apply add_account_rows_spec in Hadd as (-> & _ & _ & Hrows & Hcross).
  apply codes_unique_app. exact (conj Huniq (conj Hrows Hcross)).
Qed.




(** *** The unique constraint in every reachable state *)

Lemma codes_unique_filter (P : account_row -> Prop)
  `{forall a, Decision (P a)} tbl :
  codes_unique tbl -> codes_unique (filter P tbl).
Proof.
  induction tbl as [|a tbl IH]; simpl; [done|].
  intros [Hhead Htail]. rewrite filter_cons.
  destruct (decide (P a)); [|by apply IH].
  simpl. split; [|by apply IH].
  apply Forall_forall. intros b Hb.
  apply list_elem_of_filter in Hb as [_ Hb].
  by eapply Forall_forall in Hhead.
Qed.

Lemma same_org_code_set_parent_null gone a b :
  same_org_code (set_parent_null gone a) (set_parent_null gone b)
  = same_org_code a b.
Proof.
  unfold set_parent_null.
  destruct (refers_to (acc_parent_account_id a) gone),
    (refers_to (acc_parent_account_id b) gone); reflexivity.
Qed.

Lemma codes_unique_set_parent_null gone tbl :
  codes_unique tbl -> codes_unique (map (set_parent_null gone) tbl).
Proof.
  induction tbl as [|a tbl IH]; simpl; [done|].
  intros [Hhead Htail]. split; [|by apply IH].
  apply Forall_fmap. eapply Forall_impl; [exact Hhead|].
  intros b Hb. simpl. by rewrite same_org_code_set_parent_null.
Qed.

Lemma execute_codes_unique s db db' :
  execute s db = ok db' ->
  codes_unique (accounts db) -> codes_unique (accounts db').
Proof.
  destruct s; simpl; intros Hex Huniq.
  - unfold insert_organization in Hex. case_bool_decide; simplify_eq. done.
  - unfold delete_organization in Hex. simplify_eq. simpl.
    by apply codes_unique_set_parent_null, codes_unique_filter.
  - unfold insert_accounts in Hex.
    destruct (add_account_rows _ _) as [tbl|] eqn:Hadd; [|discriminate].
    destruct (forallb _ _); simplify_eq. simpl.
    apply add_account_rows_spec in Hadd as (-> & _ & _ & Hrows & Hcross).
    apply codes_unique_app. exact (conj Huniq (conj Hrows Hcross)).
  - unfold delete_account in Hex. simplify_eq. simpl.
    by apply codes_unique_set_parent_null, codes_unique_filter.
  - unfold insert_journal_entries in Hex.
    destruct (add_entry_rows _ _); [|discriminate].
    destruct (forallb _ _); simplify_eq. done.
  - unfold delete_journal_entry in Hex. simplify_eq. done.
  - by apply StoreProperties.insert_journal_lines_spec in Hex
      as (_ & _ & _ & _ & ->).
  - unfold delete_journal_line in Hex. simplify_eq. done.
Qed.

Lemma run_codes_unique ss : forall db,
  codes_unique (accounts db) -> codes_unique (accounts (run ss db)).
Proof.
  induction ss as [|s ss IH]; intros db Huniq; [done|].
  simpl. apply IH. unfold step.
  destruct (execute s db) eqn:Hex; [|done].
  by apply execute_codes_unique with s db.
Qed.

(** After any history of statements, and after seeding on top of it, no
    two accounts of one organization carry the same code. *)
Theorem seeding_never_duplicates_a_code s ss org gen :
  codes_unique
    (accounts
       (fst (ChartOfAccounts.createDefaultAccounts s (Some org) gen
               (run ss empty_database)))).
Proof.
  apply seeding_keeps_codes_unique, run_codes_unique. exact I.
Qed.

End SeedingProperties.

(** ** Totals of the dashboard and of the reports *)

Module AggregationProperties.
Import Js Rows Ledger.

(** *** The lines of an answer *)

Lemma all_lines_loaded es : all_lines es = loaded_lines es.
Proof.
  unfold all_lines, loaded_lines, lines_of.
  induction es as [|e es IH]; [done|]. simpl. rewrite IH.
  by destruct (journal_lines e).
Qed.


(** *** Dashboard *)

Lemma dashboard_visit_line_totals m v line :
  Dashboard.v_totalRevenue (Dashboard.visit_line m v line)
  = match revenue_of line with
    | Some x => (Dashboard.v_totalRevenue v + x)%float
    | None => Dashboard.v_totalRevenue v
    end
  /\ Dashboard.v_totalExpenses (Dashboard.visit_line m v line)
     = match expense_of line with
       | Some x => (Dashboard.v_totalExpenses v + x)%float
       | None => Dashboard.v_totalExpenses v
       end.
Proof.
  unfold Dashboard.visit_line, revenue_of, expense_of.
  destruct (accounts line) as [a|]; [|done].
  destruct (bool_decide (type a = Schema.income) && gt0 (credit line));
    destruct (bool_decide (type a = Schema.expense) && gt0 (debit line));
    done.
Qed.

Lemma dashboard_lines_totals m ls : forall v,
  Dashboard.v_totalRevenue (fold_left (Dashboard.visit_line m) ls v)
  = fold_left PrimFloat.add (omap revenue_of ls) (Dashboard.v_totalRevenue v)
  /\ Dashboard.v_totalExpenses (fold_left (Dashboard.visit_line m) ls v)
     = fold_left PrimFloat.add (omap expense_of ls) (Dashboard.v_totalExpenses v).
Proof.
  induction ls as [|l ls IH]; intros v; simpl; [done|].
  destruct (IH (Dashboard.visit_line m v l)) as [-> ->].
  destruct (dashboard_visit_line_totals m v l) as [-> ->].
  destruct (revenue_of l), (expense_of l); done.
Qed.

Lemma dashboard_entry_totals monthLabel v e :
  Dashboard.v_totalRevenue (Dashboard.visit_entry monthLabel v e)
  = fold_left PrimFloat.add (omap revenue_of (lines_of e))
      (Dashboard.v_totalRevenue v)
  /\ Dashboard.v_totalExpenses (Dashboard.visit_entry monthLabel v e)
     = fold_left PrimFloat.add (omap expense_of (lines_of e))
         (Dashboard.v_totalExpenses v).
Proof.
  unfold Dashboard.visit_entry.
  destruct (dashboard_lines_totals (monthLabel (date e)) (lines_of e) v)
    as [<- <-].
  destruct (_ <? 5)%nat; done.
Qed.

Lemma dashboard_entries_totals monthLabel es : forall v,
  Dashboard.v_totalRevenue (fold_left (Dashboard.visit_entry monthLabel) es v)
  = fold_left PrimFloat.add (omap revenue_of (all_lines es))
      (Dashboard.v_totalRevenue v)
  /\ Dashboard.v_totalExpenses
       (fold_left (Dashboard.visit_entry monthLabel) es v)
     = fold_left PrimFloat.add (omap expense_of (all_lines es))
         (Dashboard.v_totalExpenses v).
Proof.
  induction es as [|e es IH]; intros v; [done|].
  unfold all_lines. simpl. rewrite !omap_app, !fold_left_app.
  destruct (IH (Dashboard.visit_entry monthLabel v e)) as [-> ->].
  destruct (dashboard_entry_totals monthLabel v e) as [-> ->]. done.
Qed.

(** *** Reports *)

Lemma reports_visit_line_totals m v line :
  Reports.v_totalRevenue (Reports.visit_line m v line)
  = match revenue_of line with
    | Some x => (Reports.v_totalRevenue v + x)%float
    | None => Reports.v_totalRevenue v
    end
  /\ Reports.v_totalExpenses (Reports.visit_line m v line)
     = match expense_of line with
       | Some x => (Reports.v_totalExpenses v + x)%float
       | None => Reports.v_totalExpenses v
       end.
Proof.
  unfold Reports.visit_line, revenue_of, expense_of.
  destruct (accounts line) as [a|]; [|done].
  destruct (bool_decide (type a = Schema.income) && gt0 (credit line));
    destruct (bool_decide (type a = Schema.expense) && gt0 (debit line));
    done.
Qed.

Lemma reports_lines_totals m ls : forall v,
  Reports.v_totalRevenue (fold_left (Reports.visit_line m) ls v)
  = fold_left PrimFloat.add (omap revenue_of ls) (Reports.v_totalRevenue v)
  /\ Reports.v_totalExpenses (fold_left (Reports.visit_line m) ls v)
     = fold_left PrimFloat.add (omap expense_of ls) (Reports.v_totalExpenses v).
Proof.
  induction ls as [|l ls IH]; intros v; simpl; [done|].
  destruct (IH (Reports.visit_line m v l)) as [-> ->].
  destruct (reports_visit_line_totals m v l) as [-> ->].
  destruct (revenue_of l), (expense_of l); done.
Qed.

Lemma reports_entries_totals monthLabel es : forall v,
  Reports.v_totalRevenue (fold_left (Reports.visit_entry monthLabel) es v)
  = fold_left PrimFloat.add (omap revenue_of (all_lines es))
      (Reports.v_totalRevenue v)
  /\ Reports.v_totalExpenses
       (fold_left (Reports.visit_entry monthLabel) es v)
     = fold_left PrimFloat.add (omap expense_of (all_lines es))
         (Reports.v_totalExpenses v).
Proof.
  induction es as [|e es IH]; intros v; [done|].
  unfold all_lines. simpl. rewrite !omap_app, !fold_left_app.
  destruct (IH (Reports.visit_entry monthLabel v e)) as [-> ->].
  unfold Reports.visit_entry.
  destruct (reports_lines_totals (monthLabel (date e)) (lines_of e) v)
    as [-> ->]. done.
Qed.

Lemma dashboard_totals monthLabel es :
  let d := Dashboard.loadDashboardData monthLabel (QueryData (Some es)) in
  Dashboard.totalRevenue d = js_sum (omap revenue_of (all_lines es))
  /\ Dashboard.totalExpenses d = js_sum (omap expense_of (all_lines es))
  /\ Dashboard.netProfit d
     = (js_sum (omap revenue_of (all_lines es))
        - js_sum (omap expense_of (all_lines es)))%float.
Proof.
  simpl. unfold Dashboard.scan.
  destruct (dashboard_entries_totals monthLabel es Dashboard.start) as [-> ->].
  done.
Qed.

Lemma reports_totals monthLabel es :
  let r := Reports.loadReportData monthLabel (QueryData (Some es)) in
  Reports.totalRevenue r = js_sum (omap revenue_of (all_lines es))
  /\ Reports.totalExpenses r = js_sum (omap expense_of (all_lines es))
  /\ Reports.netProfit r
     = (js_sum (omap revenue_of (all_lines es))
        - js_sum (omap expense_of (all_lines es)))%float
  /\ Reports.profitMargin r
     = if (0 <? js_sum (omap revenue_of (all_lines es)))%float
       then ((js_sum (omap revenue_of (all_lines es))
              - js_sum (omap expense_of (all_lines es)))
             / js_sum (omap revenue_of (all_lines es)) * 100)%float
       else 0%float.
Proof.
  simpl. unfold Reports.scan.
  destruct (reports_entries_totals monthLabel es Reports.start) as [-> ->].
  done.
Qed.

End AggregationProperties.

(** ** The sign convention and the totals *)

Module TotalsClaims.
Import Js Rows Ledger AggregationProperties.

(** C4, as amended: the dashboard and the reports keep two totals only.
    [totalRevenue] is the sum of the strictly positive credits of the
    lines against income accounts, [totalExpenses] the sum of the
    strictly positive debits of the lines against expense accounts, each
    added in the order of the rows.  A debit on an income account and a
    credit on an expense account add nothing, and neither does any line
    against an asset, liability or equity account or a line whose account
    does not resolve. *)
Theorem totals_count_income_credits_and_expense_debits :
  (forall monthLabel es,
      let d := Dashboard.loadDashboardData monthLabel (QueryData (Some es)) in
      let r := Reports.loadReportData monthLabel (QueryData (Some es)) in
      Dashboard.totalRevenue d = js_sum (omap revenue_of (all_lines es))
      /\ Dashboard.totalExpenses d = js_sum (omap expense_of (all_lines es))
      /\ Reports.totalRevenue r = js_sum (omap revenue_of (all_lines es))
      /\ Reports.totalExpenses r = js_sum (omap expense_of (all_lines es)))
  /\ (forall line a,
      accounts line = Some a ->
      (type a = Schema.income ->
         revenue_of line
         = (if gt0 (credit line) then Some (to_number (credit line)) else None)
         /\ expense_of line = None)
      /\ (type a = Schema.expense ->
         expense_of line
         = (if gt0 (debit line) then Some (to_number (debit line)) else None)
         /\ revenue_of line = None)
      /\ (type a = Schema.asset \/ type a = Schema.liability
          \/ type a = Schema.equity ->
         revenue_of line = None /\ expense_of line = None))
  /\ (forall line,
      accounts line = None -> revenue_of line = None /\ expense_of line = None).
Proof.
  split; [|split].
  - intros monthLabel es d r.
    destruct (dashboard_totals monthLabel es) as (H1 & H2 & _).
    destruct (reports_totals monthLabel es) as (H3 & H4 & _).
    auto.
  - intros line a Ha. unfold revenue_of, expense_of. rewrite Ha.
    split; [|split].
    + intros ->. done.
    + intros ->. done.
    + intros [-> | [-> | ->]]; done.
  - intros line Ha. unfold revenue_of, expense_of. by rewrite Ha.
Qed.

(** C4 fails as stated: a debit of 100 on the income account leaves
    [totalRevenue] at 0, as if the line were absent, where the sign
    convention gives -100. *)
Lemma income_debit_is_ignored :
  Dashboard.totalRevenue
    (Dashboard.loadDashboardData Samples.march (QueryData (Some Samples.refund)))
  = 0%float
  /\ Reports.totalRevenue
       (Reports.loadReportData Samples.march (QueryData (Some Samples.refund)))
     = 0%float
  /\ signed_income_total (all_lines Samples.refund) = (- 100)%float
  /\ (- 100)%float <> 0%float.
Proof.
  repeat split.
  intros H. apply (f_equal (fun x => (x <? 0)%float)) in H.
  vm_compute in H. discriminate.
Qed.

(** C5: one line crediting 1000 to an income account and one line
    debiting 400 to an expense account, in either order and however the
    query groups them into entries, give total income 1000, total
    expenses 400, net profit 600 and a profit margin of 60; the dashboard
    shows the same three totals. *)
Theorem sale_1000_cost_400 monthLabel es sale cost a1 a2 :
  all_lines es = [sale; cost] \/ all_lines es = [cost; sale] ->
  accounts sale = Some a1 -> type a1 = Schema.income ->
  credit sale = Some 1000%float ->
  accounts cost = Some a2 -> type a2 = Schema.expense ->
  debit cost = Some 400%float ->
  let r := Reports.loadReportData monthLabel (QueryData (Some es)) in
  let d := Dashboard.loadDashboardData monthLabel (QueryData (Some es)) in
  Reports.totalRevenue r = 1000%float
  /\ Reports.totalExpenses r = 400%float
  /\ Reports.netProfit r = 600%float
  /\ Reports.profitMargin r = 60%float
  /\ Dashboard.totalRevenue d = 1000%float
  /\ Dashboard.totalExpenses d = 400%float
  /\ Dashboard.netProfit d = 600%float.
Proof.
  intros Hlines Hs1 Hs2 Hs3 Hc1 Hc2 Hc3 r d.
  assert (revenue_of sale = Some 1000%float) as Hrs
    by (unfold revenue_of; rewrite Hs1, Hs2, Hs3; reflexivity).
  assert (expense_of sale = None) as Hes
    by (unfold expense_of; rewrite Hs1, Hs2; reflexivity).
  assert (revenue_of cost = None) as Hrc
    by (unfold revenue_of; rewrite Hc1, Hc2; reflexivity).
  assert (expense_of cost = Some 400%float) as Hec
    by (unfold expense_of; rewrite Hc1, Hc2, Hc3; reflexivity).
  destruct (reports_totals monthLabel es) as (H1 & H2 & H3 & H4).
  destruct (dashboard_totals monthLabel es) as (H5 & H6 & H7).
  fold r in H1, H2, H3, H4. fold d in H5, H6, H7.
  rewrite H1, H2, H3, H4, H5, H6, H7.
  destruct Hlines as [-> | ->]; simpl; rewrite Hrs, Hes, Hrc, Hec;
    repeat split; reflexivity.
Qed.

Lemma sale_1000_cost_400_witness :
  let r := Reports.loadReportData Samples.march
             (QueryData (Some Samples.sale_and_rent)) in
  Reports.totalRevenue r = 1000%float
  /\ Reports.totalExpenses r = 400%float
  /\ Reports.netProfit r = 600%float
  /\ Reports.profitMargin r = 60%float.
Proof.
  intros r.
  destruct (sale_1000_cost_400 Samples.march Samples.sale_and_rent
              (Samples.line "jl-1" 0 1000 Samples.sales)
              (Samples.line "jl-3" 400 0 Samples.rent)
              Samples.sales Samples.rent
              (or_intror eq_refl) eq_refl eq_refl eq_refl eq_refl eq_refl
              eq_refl)
    as (H1 & H2 & H3 & H4 & _).
  exact (conj H1 (conj H2 (conj H3 H4))).
Defined.

End TotalsClaims.

(** ** Banking page *)

Module BankingClaims.
Import Js Rows Ledger.

Lemma project_Some entry line tx :
  Banking.project entry line = Some tx ->
  exists a, accounts line = Some a
    /\ (gt0 (debit line) = true \/ gt0 (credit line) = true)
    /\ tx = {| Banking.tx_id := Expenses.row_key entry line;
               Banking.tx_date := date entry;
               Banking.tx_description := description entry;
               Banking.amount :=
                 if gt0 (debit line) then (- to_number (debit line))%float
                 else to_number (credit line);
               Banking.status := "reconciled";
               Banking.category := name a |}.
Proof.
  unfold Banking.project. destruct (accounts line) as [a|]; [|done].
  destruct (gt0 (debit line)) eqn:Hd; simpl.
  - intros [= <-]. exists a. auto.
  - destruct (gt0 (credit line)) eqn:Hc; [|done].
    intros [= <-]. exists a. auto.
Qed.

Lemma elem_of_concat {A} (x : A) (ls : list (list A)) :
  x ∈ concat ls <-> exists l, x ∈ l /\ l ∈ ls.
Proof.
  induction ls as [|l0 ls IH]; simpl.
  - split; [intros H; inversion H | intros (l & _ & H); inversion H].
  - rewrite elem_of_app, IH. split.
    + intros [H | (l & H1 & H2)]; [exists l0 | exists l]; split; auto;
        [left | by right].
    + intros (l & H1 & H2). apply elem_of_cons in H2 as [-> | H2]; eauto.
Qed.

Lemma transactionsData_elem es tx :
  tx ∈ Banking.transactionsData es <->
  exists e l, e ∈ es /\ l ∈ lines_of e /\ Banking.project e l = Some tx.
Proof.
  unfold Banking.transactionsData. rewrite elem_of_concat. split.
  - intros (txs & Htx & Htxs).
    apply list_elem_of_fmap in Htxs as (e & -> & He).
    apply list_elem_of_omap in Htx as (l & Hl & Hp). eauto.
  - intros (e & l & He & Hl & Hp).
    exists (omap (Banking.project e) (lines_of e)). split.
    + apply list_elem_of_omap. eauto.
    + apply list_elem_of_fmap. eauto.
Qed.







Lemma bank_balances_are_zero accounts entries b :
  b ∈ Banking.bankAccounts (Banking.loadBankingData accounts entries) ->
  Banking.balance b = 0%float.
Proof.
  unfold Banking.loadBankingData.
  destruct accounts as [rows|]; [|intros H; inversion H].
  assert (b ∈ Banking.bankAccountsData (Banking.asset_query (default [] rows))
          -> Banking.balance b = 0%float) as Hb.
  { unfold Banking.bankAccountsData. intros H.
    apply list_elem_of_fmap in H as (a & -> & _). reflexivity. }
  destruct entries; exact Hb.
Qed.

(** C8 does not hold of the code: the cash account has one line, a debit
    of 250, in the entries the page loaded; its running balance is 250
    and the page shows 0. *)
Theorem cash_balance_is_shown_as_zero :
  let v :=
    Banking.loadBankingData (QueryData (Some [Samples.cash]))
      (QueryData (Some Samples.deposit)) in
  map Banking.bank_id (Banking.bankAccounts v) = ["acc-cash"]
  /\ map Banking.balance (Banking.bankAccounts v) = [0%float]
  /\ Banking.running_balance "acc-cash" Samples.deposit = 250%float.
Proof. repeat split. Qed.

End BankingClaims.

(** ** Hierarchy of the chart of accounts *)

Module HierarchyClaims.
Import Js Rows.

Lemma nothing_shown_without_roots h k :
  ChartOfAccounts.rootAccounts h = [] -> ~ ChartOfAccounts.shown_in h k.
Proof.
  intros Hroots Hshown. induction Hshown as [k Hk | p o k _ IH _ _]; [|done].
  rewrite Hroots in Hk. inversion Hk.
Qed.

(** C9 does not hold of the copy of the page in unnamed/part_005: an
    account whose parent is not among the loaded accounts is linked
    nowhere and is not shown, while src/pages/ChartOfAccounts.tsx makes
    it a root. *)
Theorem copy_drops_account_with_unknown_parent :
  ChartOfAccounts.rootAccounts (ChartOfAccountsCopy.build_hierarchy [Samples.orphan])
  = []
  /\ ~ ChartOfAccounts.shown_in
       (ChartOfAccountsCopy.build_hierarchy [Samples.orphan]) (id Samples.orphan)
  /\ ChartOfAccounts.rootAccounts (ChartOfAccounts.build_hierarchy [Samples.orphan])
     = [id Samples.orphan].
Proof.
  split; [reflexivity|]. split; [|reflexivity].
  apply nothing_shown_without_roots. reflexivity.
Qed.

End HierarchyClaims.

(** ** Dictionaries and the expense breakdown *)

Module BreakdownProperties.
Import Js Rows Ledger.

Lemma obj_get_set o k v k' :
  obj_get (obj_set o k v) k'
  = if bool_decide (k = k') then Some v else obj_get o k'.
Proof.
  induction o as [|[k0 v0] o IH]; simpl.
  - done.
  - destruct (decide (k0 = k)) as [->|Hne].
    + rewrite bool_decide_eq_true_2 by done. simpl.
      destruct (decide (k = k')) as [->|Hne'].
      * by rewrite !bool_decide_eq_true_2.
      * by rewrite !bool_decide_eq_false_2.
    + rewrite (bool_decide_eq_false_2 (k0 = k)) by done. simpl.
      rewrite IH. destruct (decide (k0 = k')) as [->|Hne'].
      * rewrite bool_decide_eq_true_2 by done.
        by rewrite bool_decide_eq_false_2 by congruence.
      * by rewrite (bool_decide_eq_false_2 (k0 = k')).
Qed.





Lemma bump_all_get cs k : forall o,
  obj_get (bump_all o cs) k = summed (obj_get o k) (amounts_of k cs).
Proof.
  induction cs as [|[k0 x] cs IH]; intros o; [done|].
  simpl. rewrite IH. unfold Dashboard.bump. rewrite obj_get_set.
  unfold amounts_of. rewrite filter_cons. simpl.
  destruct (decide (k0 = k)) as [->|Hne].
  - by rewrite bool_decide_eq_true_2.
  - by rewrite bool_decide_eq_false_2.
Qed.









End BreakdownProperties.

(** ** The expense breakdown of the dashboard and of the expenses page *)

Module BreakdownClaims.
Import Js Rows Ledger BreakdownProperties.

Lemma dashboard_line_categories m v line :
  Dashboard.v_expensesByCategory (Dashboard.visit_line m v line)
  = match expense_category line with
    | Some c => Dashboard.bump (Dashboard.v_expensesByCategory v) c.1 c.2
    | None => Dashboard.v_expensesByCategory v
    end.
Proof.
  unfold Dashboard.visit_line, expense_category.
  destruct (accounts line) as [a|]; [|done].
  destruct (bool_decide (type a = Schema.income) && gt0 (credit line));
    destruct (bool_decide (type a = Schema.expense) && gt0 (debit line));
    done.
Qed.

Lemma dashboard_lines_categories m ls : forall v,
  Dashboard.v_expensesByCategory (fold_left (Dashboard.visit_line m) ls v)
  = bump_all (Dashboard.v_expensesByCategory v) (omap expense_category ls).
Proof.
  induction ls as [|l ls IH]; intros v; simpl; [done|].
  rewrite IH, dashboard_line_categories.
  destruct (expense_category l); done.
Qed.

Lemma bump_all_app o cs1 cs2 :
  bump_all o (cs1 ++ cs2) = bump_all (bump_all o cs1) cs2.
Proof. unfold bump_all. apply fold_left_app. Qed.

Lemma dashboard_entries_categories monthLabel es : forall v,
  Dashboard.v_expensesByCategory
    (fold_left (Dashboard.visit_entry monthLabel) es v)
  = bump_all (Dashboard.v_expensesByCategory v)
      (omap expense_category (all_lines es)).
Proof.
  induction es as [|e es IH]; intros v; [done|].
  unfold all_lines. simpl. rewrite omap_app, bump_all_app, IH. f_equal.
  unfold Dashboard.visit_entry.
  rewrite <- (dashboard_lines_categories (monthLabel (date e))).
  destruct (_ <? 5)%nat; done.
Qed.






(** Two categories of equal total: the slices come in the order in
    which the names were met, here not the order of the names. *)
Lemma equal_totals_keep_row_order :
  map (fun s => (Dashboard.slice_name s, Dashboard.value s))
    (Dashboard.expenseBreakdown
       (Dashboard.loadDashboardData Samples.march
          (QueryData (Some Samples.two_categories))))
  = [("Utilities Expense", 100%float); ("Rent Expense", 100%float)]
  /\ map (fun s => (Dashboard.slice_name s, Dashboard.value s))
       (snd (fst (Expenses.loadExpenses
                    (QueryData (Some Samples.two_categories)) ([], []))))
     = [("Utilities Expense", 100%float); ("Rent Expense", 100%float)]
  /\ String.ltb "Rent Expense" "Utilities Expense" = true.
Proof. repeat split. Qed.

(** C7 does not hold of the code: what both pages call the top five
    categories are the first five in the order of enumeration.  Of six
    expense accounts with totals 100, 200, 300, 400, 500 and 600 the
    breakdown lists the first five, in ascending order of total, and
    leaves out "Payroll Expense", the largest. *)
Theorem largest_category_is_cut_off :
  let dashboard :=
    Dashboard.expenseBreakdown
      (Dashboard.loadDashboardData Samples.march
         (QueryData (Some Samples.six_categories))) in
  let page :=
    snd (fst (Expenses.loadExpenses (QueryData (Some Samples.six_categories))
                ([], []))) in
  map (fun s => (Dashboard.slice_name s, Dashboard.value s)) dashboard
  = [ ("Rent Expense", 100%float); ("Utilities Expense", 200%float);
      ("Marketing Expense", 300%float); ("Operating Expenses", 400%float);
      ("Cost of Goods Sold", 500%float) ]
  /\ page = dashboard
  /\ category_total "Payroll Expense"
       (omap expense_category (loaded_lines Samples.six_categories))
     = Some 600%float
  /\ ("Payroll Expense" ∉ map Dashboard.slice_name dashboard).
Proof.
  repeat split. apply (bool_decide_unpack _). vm_compute. exact I.
Qed.

End BreakdownClaims.

(** ** The hierarchy built by src/pages/ChartOfAccounts.tsx *)

Module HierarchyProperties.
Import Js Rows ChartOfAccounts Hierarchy.

Lemma first_pass_lookup data p : forall m : gmap string AccountObj,
  is_Some (fold_left
             (fun m a => <[id a := {| account := a; children := [] |}]> m)
             data m !! p)
  <-> is_Some (m !! p) \/ resolves data p.
Proof.
  unfold resolves. induction data as [|a data IH]; intros m; simpl.
  - split; [by left|]. intros [H|(b & Hb & _)]; [done | inversion Hb].
  - rewrite IH, lookup_insert_is_Some'. split.
    + intros [[Heq|H]|(b & Hb & Hid)].
      * right. exists a. split; [left | done].
      * by left.
      * right. exists b. split; [by right | done].
    + intros [H|(b & Hb & Hid)]; [by left; right|].
      apply elem_of_cons in Hb as [Heq|Hb].
      * left. left. by subst.
      * right. by exists b.
Qed.

Lemma link_lookup h a p :
  is_Some (accountMap (link h a) !! p) <-> is_Some (accountMap h !! p).
Proof.
  unfold link, push_root.
  destruct (parent_account_id a) as [q|]; [|done].
  destruct (truthy_string q); [|done].
  destruct (accountMap h !! q) as [o|] eqn:Hq; [|done]. simpl.
  rewrite lookup_alter. case_decide as Heq; [|done].
  subst. rewrite Hq. simpl. split; intros _; by eexists.
Qed.

Lemma links_lookup l p : forall h,
  is_Some (accountMap (fold_left link l h) !! p)
  <-> is_Some (accountMap h !! p).
Proof.
  induction l as [|a l IH]; intros h; simpl; [done|].
  by rewrite IH, link_lookup.
Qed.

Lemma link_keeps_root h a k :
  k ∈ rootAccounts h -> k ∈ rootAccounts (link h a).
Proof.
  intros Hk. unfold link, push_root.
  destruct (parent_account_id a) as [q|]; simpl;
    [|apply elem_of_app; by left].
  destruct (truthy_string q); simpl; [|apply elem_of_app; by left].
  destruct (accountMap h !! q); simpl; [done | apply elem_of_app; by left].
Qed.

Lemma links_keep_root l k : forall h,
  k ∈ rootAccounts h -> k ∈ rootAccounts (fold_left link l h).
Proof.
  induction l as [|a l IH]; intros h Hk; simpl; [done|].
  by apply IH, link_keeps_root.
Qed.

Lemma link_keeps_child h a p k : child_of h p k -> child_of (link h a) p k.
Proof.
  intros (o & Ho & Hk). unfold link, push_root, child_of.
  destruct (parent_account_id a) as [q|]; simpl; [|eauto].
  destruct (truthy_string q); simpl; [|eauto].
  destruct (accountMap h !! q) as [oq|] eqn:Hq; simpl; [|eauto].
  rewrite lookup_alter. case_decide as Heq; [|eauto].
  subst. rewrite Ho. simpl. eexists. split; [done|].
  simpl. apply elem_of_app. by left.
Qed.

Lemma links_keep_child l p k : forall h,
  child_of h p k -> child_of (fold_left link l h) p k.
Proof.
  induction l as [|a l IH]; intros h Hk; simpl; [done|].
  by apply IH, link_keeps_child.
Qed.

Lemma link_makes_root h a :
  match parent_account_id a with
  | Some p => truthy_string p = false \/ accountMap h !! p = None
  | None => True
  end ->
  id a ∈ rootAccounts (link h a).
Proof.
  unfold link, push_root. destruct (parent_account_id a) as [q|]; simpl.
  - intros [Hq|Hq]; rewrite Hq; simpl.
    + apply elem_of_app. right. left.
    + destruct (truthy_string q); simpl; apply elem_of_app; right; left.
  - intros _. apply elem_of_app. right. left.
Qed.

Lemma link_makes_child h a p :
  parent_account_id a = Some p -> truthy_string p = true ->
  is_Some (accountMap h !! p) ->
  child_of (link h a) p (id a).
Proof.
  intros Hp Ht [o Ho]. unfold link, child_of. rewrite Hp, Ht, Ho. simpl.
  rewrite lookup_alter_eq, Ho. simpl. eexists. split; [done|].
  simpl. apply elem_of_app. right. left.
Qed.

Lemma build_lookup data l p :
  is_Some (accountMap
             (fold_left link l
                {| accountMap := first_pass data; rootAccounts := [] |}) !! p)
  <-> resolves data p.
Proof.
  rewrite links_lookup. simpl. unfold first_pass.
  rewrite first_pass_lookup, lookup_empty. split; [|by right].
  intros [[x Hx]|H]; [discriminate | done].
Qed.

Lemma top_level_is_root data a :
  a ∈ data -> top_level data a ->
  id a ∈ rootAccounts (build_hierarchy data).
Proof.
  intros Ha Htop. unfold build_hierarchy.
  set (h0 := {| accountMap := first_pass data; rootAccounts := [] |}).
  destruct (list_elem_of_split _ _ Ha) as (l1 & l2 & Hsplit).
  rewrite Hsplit, fold_left_app. simpl.
  apply links_keep_root, link_makes_root.
  unfold top_level in Htop. destruct (parent_account_id a) as [p|]; [|done].
  destruct Htop as [Ht|Hno]; [by left|]. right.
  apply eq_None_not_Some. intros Hsome. subst h0.
  by apply build_lookup in Hsome.
Qed.

Lemma loaded_parent_has_child data a b :
  a ∈ data -> b ∈ data ->
  parent_account_id a = Some (id b) -> truthy_string (id b) = true ->
  child_of (build_hierarchy data) (id b) (id a).
Proof.
  intros Ha Hb Hp Ht. unfold build_hierarchy.
  set (h0 := {| accountMap := first_pass data; rootAccounts := [] |}).
  destruct (list_elem_of_split _ _ Ha) as (l1 & l2 & Hsplit).
  rewrite Hsplit, fold_left_app. simpl.
  apply links_keep_child, link_makes_child; [done..|].
  subst h0. apply build_lookup. by exists b.
Qed.

(** What src/pages/ChartOfAccounts.tsx does with the accounts it loads:
    an account without parent, or whose parent is not loaded, is a root;
    and every account whose chain of parents ends at such an account is
    shown, below its parent. *)
Theorem unresolved_parent_becomes_root data a :
  a ∈ data ->
  (top_level data a -> id a ∈ rootAccounts (build_hierarchy data))
  /\ (anchored data a -> shown_in (build_hierarchy data) (id a)).
Proof.
  intros Ha. split; [by apply top_level_is_root|].
  induction 1 as [a' Ha' Htop | a' b Ha' Hb Hp Ht Hanc IH].
  - apply shown_root. by apply top_level_is_root.
  - destruct (loaded_parent_has_child data a' b Ha' Hb Hp Ht) as (o & Ho & Hk).
    eapply shown_child; [by apply IH | exact Ho | exact Hk].
Qed.

Lemma unresolved_parent_becomes_root_witness :
  Samples.orphan ∈ [Samples.orphan]
  /\ id Samples.orphan
       ∈ rootAccounts (build_hierarchy [Samples.orphan]).
Proof.
  assert (Samples.orphan ∈ [Samples.orphan]) as Hin by left.
  split; [exact Hin|].
  apply (unresolved_parent_becomes_root _ _ Hin).
  right. intros (b & Hb & Hid).
  apply list_elem_of_singleton in Hb as ->. discriminate.
Defined.

(** Accounts on a cycle of parents are linked below one another and are
    reached from no root. *)
Lemma parent_cycle_is_not_shown :
  let data := [ Samples.child_of_b; Samples.child_of_a ] in
  rootAccounts (build_hierarchy data) = []
  /\ ~ shown_in (build_hierarchy data) "acc-a"
  /\ ~ shown_in (build_hierarchy data) "acc-b".
Proof.
  assert (rootAccounts
            (build_hierarchy [Samples.child_of_b; Samples.child_of_a]) = [])
    as Hroots by reflexivity.
  split; [exact Hroots|].
  split; by apply HierarchyClaims.nothing_shown_without_roots.
Qed.

End HierarchyProperties.

(** ** Keys and references in every reachable state *)

Module IntegrityProperties.
Import Schema.

Lemma fk_ok_iff ref keys :
  fk_ok ref keys = true <-> forall k, ref = Some k -> k ∈ keys.
Proof.
  unfold fk_ok. destruct ref as [k|].
  - rewrite bool_decide_eq_true. split; [by intros H k' [= <-] | auto].
  - split; [by intros _ k' | done].
Qed.

Lemma fk_ok_mono ref keys keys' :
  (forall k, k ∈ keys -> k ∈ keys') ->
  fk_ok ref keys = true -> fk_ok ref keys' = true.
Proof. rewrite !fk_ok_iff. eauto. Qed.

Lemma refers_to_false ref gone :
  refers_to ref gone = false <-> forall k, ref = Some k -> k ∉ gone.
Proof.
  unfold refers_to. destruct ref as [k|].
  - rewrite bool_decide_eq_false. split; [by intros H k' [= <-] | auto].
  - split; [by intros _ k' | done].
Qed.

Lemma add_entry_rows_spec rows : forall tbl tbl',
  add_entry_rows rows tbl = ok tbl' <->
  tbl' = tbl ++ rows
  /\ NoDup (map je_id rows)
  /\ (forall r, r ∈ rows -> je_id r ∉ map je_id tbl).
Proof.
  induction rows as [|r rows IH]; intros tbl tbl'; simpl.
  - rewrite app_nil_r. split.
    + intros [= <-]. repeat split; auto using NoDup_nil_2.
      intros r Hr; inversion Hr.
    + intros (-> & _). reflexivity.
  - case_bool_decide as Hin.
    { split; [discriminate|]. intros (_ & _ & Hfresh).
      exfalso. apply (Hfresh r); [left | exact Hin]. }
    rewrite IH. rewrite <- app_assoc. simpl. split.
    + intros (-> & Hnd & Hfresh). repeat split; auto.
      * constructor; [|assumption].
        intros Hr. apply list_elem_of_fmap in Hr as (r' & Heq & Hr').
        apply (Hfresh r' Hr'). rewrite fmap_app. apply elem_of_app. right.
        rewrite <- Heq. simpl. left.
      * intros r' Hr' Hin'. apply elem_of_cons in Hr' as [->|Hr'];
          [contradiction|].
        apply (Hfresh r' Hr'). rewrite fmap_app. apply elem_of_app. by left.
    + intros (-> & Hnd & Hfresh).
      apply NoDup_cons in Hnd as [Hnr Hnd].
      repeat split; auto.
      intros r' Hr'. rewrite fmap_app. intros Hin'.
      apply elem_of_app in Hin' as [Hin'|Hin'].
      * apply (Hfresh r'); [by right | assumption].
      * simpl in Hin'. apply list_elem_of_singleton in Hin'.
        apply Hnr. rewrite <- Hin'. by apply list_elem_of_fmap_2.
Qed.

Lemma NoDup_app_fresh {A B} (f : A -> B) (tbl rows : list A) :
  NoDup (map f tbl) -> NoDup (map f rows) ->
  (forall r, r ∈ rows -> f r ∉ map f tbl) ->
  NoDup (map f (tbl ++ rows)).
Proof.
  intros H1 H2 H3. rewrite map_app. apply NoDup_app. repeat split; auto.
  intros x Hx Hx'. apply list_elem_of_fmap in Hx' as (r & -> & Hr).
  by apply (H3 r Hr).
Qed.

Lemma NoDup_map_filter {A B} (f : A -> B) (P : A -> Prop)
  `{forall x, Decision (P x)} (l : list A) :
  NoDup (map f l) -> NoDup (map f (filter P l)).
Proof.
  induction l as [|x l IH]; [done|]. simpl. intros Hnd.
  apply NoDup_cons in Hnd as [Hx Hnd]. rewrite filter_cons.
  destruct (decide (P x)); [|by apply IH]. simpl.
  apply NoDup_cons. split; [|by apply IH].
  intros Hin. apply Hx. apply list_elem_of_fmap in Hin as (y & -> & Hy).
  apply list_elem_of_filter in Hy as [_ Hy]. by apply list_elem_of_fmap_2.
Qed.

(** The keys that stay when the rows keyed in [gone] are dropped. *)
Lemma kept_account_ids (gone : list string) tbl :
  map acc_id (map (set_parent_null gone) (filter (fun a => acc_id a ∉ gone) tbl))
  = filter (fun k => k ∉ gone) (map acc_id tbl).
Proof.
  induction tbl as [|a tbl IH]; [done|].
  rewrite filter_cons. simpl. rewrite filter_cons.
  destruct (decide (acc_id a ∉ gone)); simpl; [|exact IH].
  rewrite IH. f_equal. unfold set_parent_null. by destruct (refers_to _ _).
Qed.

Lemma kept_entry_ids (gone : list string) (tbl : list journal_entry_row) :
  map je_id (filter (fun e => je_id e ∉ gone) tbl)
  = filter (fun k => k ∉ gone) (map je_id tbl).
Proof.
  induction tbl as [|e tbl IH]; [done|].
  rewrite filter_cons. simpl. rewrite filter_cons.
  destruct (decide (je_id e ∉ gone)); simpl; [by rewrite IH | exact IH].
Qed.

Lemma set_parent_null_fields gone a :
  acc_organization_id (set_parent_null gone a) = acc_organization_id a
  /\ (forall p, acc_parent_account_id (set_parent_null gone a) = Some p ->
        acc_parent_account_id a = Some p /\ p ∉ gone).
Proof.
  unfold set_parent_null.
  destruct (refers_to (acc_parent_account_id a) gone) eqn:Href; simpl.
  - split; [done | discriminate].
  - split; [done|]. intros p Hp. split; [done|].
    by apply (proj1 (refers_to_false _ _) Href).
Qed.

Lemma drop_accounts_consistent gone db :
  keys_unique db -> references_resolve db ->
  keys_unique (drop_accounts gone db)
  /\ references_resolve (drop_accounts gone db).
Proof.
  intros (Ho & Ha & He & Hl) (Ra & Re & Rl). split.
  - unfold keys_unique, drop_accounts; simpl. repeat split; auto.
    + rewrite kept_account_ids. by apply NoDup_filter.
    + by apply NoDup_map_filter.
  - unfold references_resolve, drop_accounts; simpl. repeat split.
    + apply Forall_forall. intros a' Ha'.
      apply list_elem_of_fmap in Ha' as (a & -> & Hin).
      apply list_elem_of_filter in Hin as [Hkeep Hin].
      rewrite Forall_forall in Ra. destruct (Ra a Hin) as [Horg Hpar].
      destruct (set_parent_null_fields gone a) as [Eorg Epar].
      unfold account_refs_ok. simpl. rewrite Eorg. split; [done|].
      apply fk_ok_iff. intros p Hp. destruct (Epar p Hp) as [Hp' Hng].
      rewrite kept_account_ids. apply list_elem_of_filter. split; [done|].
      by apply (proj1 (fk_ok_iff _ _) Hpar).
    + done.
    + apply Forall_forall. intros l Hin.
      apply list_elem_of_filter in Hin as [Hkeep Hin].
      rewrite Forall_forall in Rl. destruct (Rl l Hin) as [Hent Hacc].
      unfold line_refs_ok. simpl. split; [done|].
      apply fk_ok_iff. intros k Hk.
      rewrite kept_account_ids. apply list_elem_of_filter. split.
      * by apply (proj1 (refers_to_false _ _) Hkeep).
      * by apply (proj1 (fk_ok_iff _ _) Hacc).
Qed.

Lemma drop_entries_consistent gone db :
  keys_unique db -> references_resolve db ->
  keys_unique (drop_entries gone db)
  /\ references_resolve (drop_entries gone db).
Proof.
  intros (Ho & Ha & He & Hl) (Ra & Re & Rl). split.
  - unfold keys_unique, drop_entries; simpl. repeat split; auto.
    + rewrite kept_entry_ids. by apply NoDup_filter.
    + by apply NoDup_map_filter.
  - unfold references_resolve, drop_entries; simpl. repeat split.
    + done.
    + apply Forall_forall. intros e Hin.
      apply list_elem_of_filter in Hin as [_ Hin].
      rewrite Forall_forall in Re. by apply Re.
    + apply Forall_forall. intros l Hin.
      apply list_elem_of_filter in Hin as [Hkeep Hin].
      rewrite Forall_forall in Rl. destruct (Rl l Hin) as [Hent Hacc].
      unfold line_refs_ok. simpl. split; [|done].
      apply fk_ok_iff. intros k Hk.
      rewrite kept_entry_ids. apply list_elem_of_filter. split.
      * by apply (proj1 (refers_to_false _ _) Hkeep).
      * by apply (proj1 (fk_ok_iff _ _) Hent).
Qed.

Lemma forallb_Forall {A} (f : A -> bool) (l : list A) :
  forallb f l = true <-> Forall (fun x => f x = true) l.
Proof.
  rewrite forallb_forall, Forall_forall.
  split; intros H x Hx; apply H; by apply list_elem_of_In.
Qed.

Lemma insert_organization_keeps id db db' :
  insert_organization id db = ok db' ->
  keys_unique db -> references_resolve db ->
  keys_unique db' /\ references_resolve db'.
Proof.
  unfold insert_organization. case_bool_decide as Hin; [discriminate|].
  intros [= <-] (Ho & Ha & He & Hl) (Ra & Re & Rl). split.
  - unfold keys_unique; simpl. repeat split; auto.
    apply NoDup_app. repeat split; auto using NoDup_singleton.
    intros x Hx Hx'. apply list_elem_of_singleton in Hx' as ->. done.
  - unfold references_resolve; simpl. repeat split; auto.
    + eapply Forall_impl; [exact Ra|]. intros a [H1 H2]. split; [|done].
      eapply fk_ok_mono; [|exact H1]. intros k Hk. apply elem_of_app. by left.
    + eapply Forall_impl; [exact Re|]. intros e H1.
      eapply fk_ok_mono; [|exact H1]. intros k Hk. apply elem_of_app. by left.
Qed.

Lemma insert_accounts_keeps rows db db' :
  insert_accounts rows db = ok db' ->
  keys_unique db -> references_resolve db ->
  keys_unique db' /\ references_resolve db'.
Proof.
  unfold insert_accounts.
  destruct (add_account_rows rows (accounts db)) as [tbl|] eqn:Hadd;
    [|discriminate].
  destruct (forallb _ rows) eqn:Hfk; [|discriminate].
  intros [= <-] (Ho & Ha & He & Hl) (Ra & Re & Rl).
  apply SeedingProperties.add_account_rows_spec in Hadd
    as (-> & Hnd & Hfresh & _ & _).
  apply forallb_Forall in Hfk.
  assert (forall k, k ∈ map acc_id (accounts db) ->
                    k ∈ map acc_id (accounts db ++ rows)) as Hsub.
  { intros k Hk. rewrite map_app. apply elem_of_app. by left. }
  split.
  - unfold keys_unique; simpl. repeat split; auto.
    by apply NoDup_app_fresh.
  - unfold references_resolve; simpl. repeat split; auto.
    + apply Forall_app. split.
      * eapply Forall_impl; [exact Ra|]. intros a [H1 H2]. split; [done|].
        by eapply fk_ok_mono.
      * eapply Forall_impl; [exact Hfk|]. intros r Hr.
        apply andb_prop in Hr. exact Hr.
    + eapply Forall_impl; [exact Rl|]. intros l [H1 H2]. split; [done|].
      by eapply fk_ok_mono.
Qed.

Lemma insert_journal_entries_keeps rows db db' :
  insert_journal_entries rows db = ok db' ->
  keys_unique db -> references_resolve db ->
  keys_unique db' /\ references_resolve db'.
Proof.
  unfold insert_journal_entries.
  destruct (add_entry_rows rows (journal_entries db)) as [tbl|] eqn:Hadd;
    [|discriminate].
  destruct (forallb _ rows) eqn:Hfk; [|discriminate].
  intros [= <-] (Ho & Ha & He & Hl) (Ra & Re & Rl).
  apply add_entry_rows_spec in Hadd as (-> & Hnd & Hfresh).
  apply forallb_Forall in Hfk.
  assert (forall k, k ∈ map je_id (journal_entries db) ->
                    k ∈ map je_id (journal_entries db ++ rows)) as Hsub.
  { intros k Hk. rewrite map_app. apply elem_of_app. by left. }
  split.
  - unfold keys_unique; simpl. repeat split; auto.
    by apply NoDup_app_fresh.
  - unfold references_resolve; simpl. repeat split; auto.
    + apply Forall_app. by split.
    + eapply Forall_impl; [exact Rl|]. intros l [H1 H2]. split; [|done].
      by eapply fk_ok_mono.
Qed.

Lemma insert_journal_lines_keeps rows db db' :
  insert_journal_lines rows db = ok db' ->
  keys_unique db -> references_resolve db ->
  keys_unique db' /\ references_resolve db'.
Proof.
  intros Hins (Ho & Ha & He & Hl) (Ra & Re & Rl).
  apply StoreProperties.insert_journal_lines_spec in Hins
    as (_ & Hnd & Hfresh & Hrefs & ->).
  split.
  - unfold keys_unique; simpl. repeat split; auto.
    by apply NoDup_app_fresh.
  - unfold references_resolve; simpl. repeat split; auto.
    apply Forall_app. by split.
Qed.

Lemma delete_journal_line_keeps id db db' :
  delete_journal_line id db = ok db' ->
  keys_unique db -> references_resolve db ->
  keys_unique db' /\ references_resolve db'.
Proof.
  unfold delete_journal_line.
  intros [= <-] (Ho & Ha & He & Hl) (Ra & Re & Rl). split.
  - unfold keys_unique; simpl. repeat split; auto.
    by apply NoDup_map_filter.
  - unfold references_resolve; simpl. repeat split; auto.
    apply Forall_forall. intros l Hin.
    apply list_elem_of_filter in Hin as [_ Hin].
    rewrite Forall_forall in Rl. by apply Rl.
Qed.

Lemma delete_organization_keeps id db db' :
  delete_organization id db = ok db' ->
  keys_unique db -> references_resolve db ->
  keys_unique db' /\ references_resolve db'.
Proof.
  unfold delete_organization.
  set (accs := map acc_id
                 (filter (fun a => refers_to (acc_organization_id a) [id] = true)
                    (accounts db))).
  set (ents := map je_id
                 (filter (fun e => refers_to (je_organization_id e) [id] = true)
                    (journal_entries db))).
  intros [= <-] Hk Hr.
  destruct (drop_accounts_consistent accs db Hk Hr) as [Hk1 Hr1].
  destruct (drop_entries_consistent ents _ Hk1 Hr1)
    as [(Ho & Ha & He & Hl) (Ra & Re & Rl)].
  split.
  - unfold keys_unique; simpl. repeat split; auto.
    by apply NoDup_filter.
  - unfold references_resolve; simpl. repeat split; auto.
    + apply Forall_forall. intros a' Ha'.
      rewrite Forall_forall in Ra. destruct (Ra a' Ha') as [Horg Hpar].
      split; [|exact Hpar]. simpl in *.
      apply fk_ok_iff. intros o Ho'.
      apply list_elem_of_filter. split;
        [|by apply (proj1 (fk_ok_iff _ _) Horg)].
      intros ->.
      apply list_elem_of_fmap in Ha' as (a & -> & Hin).
      apply list_elem_of_filter in Hin as [Hkeep Hin]. apply Hkeep.
      unfold accs. apply list_elem_of_fmap_2, list_elem_of_filter.
      split; [|done].
      destruct (set_parent_null_fields accs a) as [Eorg _].
      rewrite Eorg in Ho'. rewrite Ho'. simpl.
      apply bool_decide_eq_true. by left.
    + apply Forall_forall. intros e He'.
      rewrite Forall_forall in Re. pose proof (Re e He') as Horg.
      unfold entry_refs_ok in *. simpl in *.
      apply fk_ok_iff. intros o Ho'.
      apply list_elem_of_filter. split;
        [|by apply (proj1 (fk_ok_iff _ _) Horg)].
      intros ->.
      apply list_elem_of_filter in He' as [Hkeep Hin]. apply Hkeep.
      unfold ents. apply list_elem_of_fmap_2, list_elem_of_filter.
      split; [|done]. rewrite Ho'. simpl.
      apply bool_decide_eq_true. by left.
Qed.

Lemma execute_keys_refs s db db' :
  execute s db = ok db' ->
  keys_unique db -> references_resolve db ->
  keys_unique db' /\ references_resolve db'.
Proof.
  destruct s; simpl.
  - apply insert_organization_keeps.
  - apply delete_organization_keeps.
  - apply insert_accounts_keeps.
  - unfold delete_account. intros [= <-]. apply drop_accounts_consistent.
  - apply insert_journal_entries_keeps.
  - unfold delete_journal_entry. intros [= <-]. apply drop_entries_consistent.
  - apply insert_journal_lines_keeps.
  - apply delete_journal_line_keeps.
Qed.

Lemma execute_consistent s db db' :
  execute s db = ok db' -> consistent db -> consistent db'.
Proof.
  intros Hex (Hk & Hr & Hc & Hl).
  destruct (execute_keys_refs s db db' Hex Hk Hr) as [Hk' Hr'].
  refine (conj Hk' (conj Hr' (conj _ _))).
  - by apply (SeedingProperties.execute_codes_unique s db).
  - by apply (StoreProperties.execute_lines_ok s db).
Qed.

Lemma run_consistent ss : forall db, consistent db -> consistent (run ss db).
Proof.
  induction ss as [|s ss IH]; intros db Hc; [done|].
  simpl. apply IH. unfold step.
  destruct (execute s db) eqn:Hex; [|done].
  by apply (execute_consistent s db).
Qed.

Lemma empty_database_consistent : consistent empty_database.
Proof.
  unfold consistent, keys_unique, references_resolve; simpl.
  repeat split; constructor.
Qed.

(** Whatever statements a client sends, accepted or refused, the store
    stays as the schema declares it: primary keys are unique, every
    foreign key that is not NULL names a stored row (the ON DELETE
    actions leave no dangling reference), no two accounts of one
    organization share a code, and every line passes its CHECK
    constraints. *)
Theorem store_stays_consistent ss : consistent (run ss empty_database).
Proof. apply run_consistent, empty_database_consistent. Qed.

(** *** Deleting an organization *)

Lemma refers_to_singleton ref id :
  refers_to ref [id] = true <-> ref = Some id.
Proof.
  unfold refers_to. destruct ref as [k|]; [|done].
  rewrite bool_decide_eq_true, list_elem_of_singleton.
  split; congruence.
Qed.

Lemma same_key_same_row {A B} (f : A -> B) (l : list A) x y :
  NoDup (map f l) -> x ∈ l -> y ∈ l -> f x = f y -> x = y.
Proof.
  induction l as [|z l IH]; simpl; intros Hnd Hx Hy Hf; [inversion Hx|].
  apply NoDup_cons in Hnd as [Hz Hnd].
  apply elem_of_cons in Hx as [->|Hx]; apply elem_of_cons in Hy as [->|Hy];
    auto.
  - exfalso. apply Hz. rewrite Hf. by apply list_elem_of_fmap_2.
  - exfalso. apply Hz. rewrite <- Hf. by apply list_elem_of_fmap_2.
Qed.

Lemma accounts_of_elem id db a :
  NoDup (map acc_id (accounts db)) -> a ∈ accounts db ->
  acc_id a ∈ accounts_of id db <-> acc_organization_id a = Some id.
Proof.
  intros Hnd Ha. unfold accounts_of. rewrite list_elem_of_fmap. split.
  - intros (a' & Hid & Ha'). apply list_elem_of_filter in Ha' as [Horg Ha'].
    apply refers_to_singleton in Horg.
    by rewrite (same_key_same_row acc_id _ a a' Hnd Ha Ha' Hid).
  - intros Horg. exists a. split; [done|].
    apply list_elem_of_filter. split; [|done]. by apply refers_to_singleton.
Qed.

Lemma entries_of_elem id db e :
  NoDup (map je_id (journal_entries db)) -> e ∈ journal_entries db ->
  je_id e ∈ entries_of id db <-> je_organization_id e = Some id.
Proof.
  intros Hnd He. unfold entries_of. rewrite list_elem_of_fmap. split.
  - intros (e' & Hid & He'). apply list_elem_of_filter in He' as [Horg He'].
    apply refers_to_singleton in Horg.
    by rewrite (same_key_same_row je_id _ e e' Hnd He He' Hid).
  - intros Horg. exists e. split; [done|].
    apply list_elem_of_filter. split; [|done]. by apply refers_to_singleton.
Qed.

(** Deleting an organization takes its accounts and its journal entries
    with it, and with them every line that refers to one of those.  The
    entries of the other organizations stay as they are, their accounts
    stay (a parent that was deleted is reset to NULL), and so does every
    line that refers to no deleted account and no deleted entry. *)
Theorem deleting_organization_removes_its_rows id db :
  keys_unique db ->
  let db' := step db (DeleteOrganization id) in
  (id ∉ organizations db')
  /\ (forall a, a ∈ accounts db' -> acc_organization_id a <> Some id)
  /\ (forall a, a ∈ accounts db -> acc_organization_id a <> Some id ->
        set_parent_null (accounts_of id db) a ∈ accounts db')
  /\ (forall e, e ∈ journal_entries db' <->
        e ∈ journal_entries db /\ je_organization_id e <> Some id)
  /\ (forall l, l ∈ journal_lines db' <->
        l ∈ journal_lines db
        /\ (forall k, jl_account_id l = Some k -> k ∉ accounts_of id db)
        /\ (forall k, jl_entry_id l = Some k -> k ∉ entries_of id db)).
Proof.
  intros (_ & Ha & He & _).
  unfold step, execute, delete_organization. simpl.
  fold (accounts_of id db). fold (entries_of id db).
  split; [|split; [|split; [|split]]].
  - intros Hin. apply list_elem_of_filter in Hin as [Hne _]. done.
  - intros a' Ha'. apply list_elem_of_fmap in Ha' as (a & -> & Hin).
    apply list_elem_of_filter in Hin as [Hkeep Hin].
    destruct (set_parent_null_fields (accounts_of id db) a) as [-> _].
    intros Horg. apply Hkeep. by apply accounts_of_elem.
  - intros a Hin Horg. apply list_elem_of_fmap_2, list_elem_of_filter.
    split; [|done]. intros Hk. by apply accounts_of_elem in Hk.
  - intros e. rewrite list_elem_of_filter. split.
    + intros [Hkeep Hin]. split; [done|]. intros Horg. apply Hkeep.
      by apply entries_of_elem.
    + intros [Hin Horg]. split; [|done]. intros Hk.
      by apply entries_of_elem in Hk.
  - intros l. rewrite !list_elem_of_filter, !refers_to_false. tauto.
Qed.

Lemma deleting_organization_removes_its_rows_witness :
  keys_unique (run Fixtures.sample_history empty_database)
  /\ journal_lines
       (step (run Fixtures.sample_history empty_database)
          (DeleteOrganization "org-1")) = []
  /\ (forall a,
        a ∈ accounts (step (run Fixtures.sample_history empty_database)
                        (DeleteOrganization "org-1")) ->
        acc_organization_id a <> Some "org-1").
Proof.
  assert (keys_unique (run Fixtures.sample_history empty_database)) as Hk
    by apply (run_consistent _ _ empty_database_consistent).
  split; [exact Hk|]. split; [reflexivity|].
  exact (proj1 (proj2
           (deleting_organization_removes_its_rows "org-1" _ Hk))).
Defined.

End IntegrityProperties.

(** ** What row security lets through *)

Module PolicyInvariants.
Import Schema Policies.



End PolicyInvariants.

(** ** Adding and deleting single accounts *)

Module AccountActions.
Import Schema Seeding.

Lemma filter_all {A} (P : A -> Prop) `{forall x, Decision (P x)} (l : list A) :
  Forall P l -> filter P l = l.
Proof.
  induction 1 as [|x l Hx _ IH]; [done|].
  by rewrite filter_cons_True, IH.
Qed.

Lemma map_fixed {A} (f : A -> A) (l : list A) :
  Forall (fun x => f x = x) l -> map f l = l.
Proof. induction 1 as [|x l Hx _ IH]; simpl; congruence. Qed.

(** Nothing refers to a key that no account carries. *)
Lemma drop_unknown_account id db :
  references_resolve db ->
  id ∉ map acc_id (accounts db) ->
  drop_accounts [id] db = db.
Proof.
  intros (Ra & _ & Rl) Hid. unfold drop_accounts. destruct db as [os as_ es ls].
  simpl in *. f_equal.
  - rewrite filter_all.
    + apply map_fixed. eapply Forall_impl; [exact Ra|].
      intros a [_ Hpar]. unfold set_parent_null.
      destruct (refers_to (acc_parent_account_id a) [id]) eqn:Href; [|done].
      exfalso. unfold refers_to in Href.
      destruct (acc_parent_account_id a) as [p|] eqn:Hp; [|discriminate].
      apply bool_decide_eq_true, list_elem_of_singleton in Href as ->.
      apply Hid. by apply (proj1 (IntegrityProperties.fk_ok_iff _ _) Hpar).
    + apply Forall_forall. intros a Ha Hin.
      apply list_elem_of_singleton in Hin. apply Hid. rewrite <- Hin.
      by apply list_elem_of_fmap_2.
  - apply filter_all. eapply Forall_impl; [exact Rl|].
    intros l [_ Hacc]. apply IntegrityProperties.refers_to_false.
    intros k Hk Hin. apply list_elem_of_singleton in Hin as ->.
    apply Hid. by apply (proj1 (IntegrityProperties.fk_ok_iff _ _) Hacc).
Qed.







(** Adding an account and deleting it again gives back the store as it
    was, tables and all. *)
Theorem add_then_delete_restores s org na key db db' :
  references_resolve db ->
  ChartOfAccounts.handleAddAccount s (Some org) na key db
  = (db', [Js.toast_success "Account added successfully!"]) ->
  ChartOfAccounts.handleDeleteAccount s true key db'
  = (db, [Js.toast_success "Account deleted successfully!"]).
Proof.
  intros Hr Hadd. unfold ChartOfAccounts.handleAddAccount in Hadd.
  destruct (_ && _); [|discriminate].
  destruct (Policies.insert_accounts _ _ db) as [db1|e] eqn:Hins;
    [|destruct e; discriminate].
  injection Hadd as <-.
  apply PolicyProperties.insert_accounts_ok in Hins as [Hins Hm].
  apply Forall_cons_1 in Hm as [Hm _]. simpl in Hm.
  unfold insert_accounts in Hins.
  destruct (add_account_rows _ _) as [tbl|] eqn:Hrows; [|discriminate].
  destruct (forallb _ _); [|discriminate]. injection Hins as <-.
  apply SeedingProperties.add_account_rows_spec in Hrows
    as (-> & _ & Hfresh & _).
  assert (key ∉ map acc_id (accounts db)) as Hkey.
  { apply (Hfresh (ChartOfAccounts.new_account_row key org na)). left. }
  unfold ChartOfAccounts.handleDeleteAccount. cbn [negb].
  rewrite (PolicyProperties.delete_account_shown s key _
             (ChartOfAccounts.new_account_row key org na));
    [|simpl; apply elem_of_app; right; left | done | exact Hm].
  unfold delete_account. f_equal.
  transitivity (drop_accounts [key] db); [|by apply drop_unknown_account].
  unfold drop_accounts. simpl. f_equal.
  rewrite filter_app, filter_cons_False, filter_nil, app_nil_r; [done|].
  simpl. intros Hn. apply Hn. left.
Qed.

Lemma add_then_delete_restores_witness :
  let na := {| ChartOfAccounts.new_code := "1010";
               ChartOfAccounts.new_name := "Till";
               ChartOfAccounts.new_type := asset;
               ChartOfAccounts.new_parent_account_id := Some "acc-cash" |} in
  exists db',
    ChartOfAccounts.handleAddAccount Fixtures.owner_session (Some "org-1") na
      "acc-till" Fixtures.opened
    = (db', [Js.toast_success "Account added successfully!"])
    /\ ChartOfAccounts.handleDeleteAccount Fixtures.owner_session true
         "acc-till" db'
       = (Fixtures.opened, [Js.toast_success "Account deleted successfully!"]).
Proof.
  intros na. eexists. split; [reflexivity|].
  apply (add_then_delete_restores Fixtures.owner_session "org-1" na).
  - apply (IntegrityProperties.run_consistent
             [ InsertOrganization "org-1";
               InsertAccounts [Fixtures.cash_row; Fixtures.sales_row];
               InsertJournalEntries [Fixtures.entry_row] ]
             empty_database IntegrityProperties.empty_database_consistent).
  - reflexivity.
Defined.

End AccountActions.

(** ** The hierarchy as a filter of the loaded rows *)

Module HierarchyShape.
Import Js Rows ChartOfAccounts Hierarchy.

Lemma first_pass_holds_loaded data : holds_loaded data (first_pass data).
Proof.
  intros p. unfold first_pass.
  rewrite HierarchyProperties.first_pass_lookup, lookup_empty.
  unfold resolves. rewrite list_elem_of_fmap. split.
  - intros [[x Hx]|(b & Hb & <-)]; [discriminate | eauto].
  - intros (b & -> & Hb). right. eauto.
Qed.

Lemma link_holds_loaded data h a :
  holds_loaded data (accountMap h) -> holds_loaded data (accountMap (link h a)).
Proof.
  intros Hh p. rewrite HierarchyProperties.link_lookup. apply Hh.
Qed.

Lemma lookup_loaded data (m : gmap string AccountObj) p :
  holds_loaded data m ->
  (exists o, m !! p = Some o) \/ m !! p = None /\ p ∉ map id data.
Proof.
  intros Hh. destruct (m !! p) as [o|] eqn:Hp; [left; eauto|].
  right. split; [done|]. intros Hin. apply Hh in Hin as [o Ho]. congruence.
Qed.

Lemma link_roots data h a :
  holds_loaded data (accountMap h) ->
  rootAccounts (link h a)
  = rootAccounts h ++ (if is_top_level data a then [id a] else []).
Proof.
  intros Hh. unfold link, push_root, is_top_level.
  destruct (parent_account_id a) as [p|]; simpl; [|done].
  destruct (truthy_string p); simpl; [|done].
  destruct (lookup_loaded data _ p Hh) as [[o Ho]|[Ho Hno]]; rewrite Ho; simpl.
  - rewrite bool_decide_eq_true_2; [by rewrite app_nil_r|].
    apply Hh. by eexists.
  - by rewrite bool_decide_eq_false_2.
Qed.

Lemma links_roots data l : forall h,
  holds_loaded data (accountMap h) ->
  rootAccounts (fold_left link l h)
  = rootAccounts h ++ map id (filter (fun a => is_top_level data a = true) l).
Proof.
  induction l as [|a l IH]; intros h Hh; simpl; [by rewrite app_nil_r|].
  rewrite IH by by apply link_holds_loaded.
  rewrite (link_roots data) by done. rewrite filter_cons.
  destruct (decide (is_top_level data a = true)) as [Ht|Ht].
  - rewrite Ht. simpl. by rewrite <- app_assoc.
  - apply not_true_is_false in Ht. rewrite Ht. by rewrite app_nil_r.
Qed.

Lemma link_children data h a p :
  holds_loaded data (accountMap h) ->
  accountMap (link h a) !! p
  = grown (if names_parent p a then [id a] else []) <$> accountMap h !! p.
Proof.
  intros Hh. unfold link, push_root, names_parent.
  assert (forall o : option AccountObj, o = grown [] <$> o) as Hsame.
  { intros [o|]; [|done]. simpl. f_equal. destruct o. unfold grown. simpl.
    by rewrite app_nil_r. }
  case_bool_decide as Hpar; simpl.
  - rewrite Hpar. destruct (truthy_string p); simpl; [|apply Hsame].
    destruct (accountMap h !! p) as [o|] eqn:Ho; simpl.
    + by rewrite lookup_alter_eq, Ho.
    + by rewrite Ho.
  - destruct (parent_account_id a) as [q|]; [|apply Hsame].
    destruct (truthy_string q); [|apply Hsame].
    destruct (accountMap h !! q) as [o|] eqn:Ho; [|apply Hsame]. simpl.
    rewrite lookup_alter_ne by congruence. apply Hsame.
Qed.

Lemma links_children data l p : forall h,
  holds_loaded data (accountMap h) ->
  accountMap (fold_left link l h) !! p
  = grown (map id (filter (fun a => names_parent p a = true) l))
      <$> accountMap h !! p.
Proof.
  induction l as [|a l IH]; intros h Hh; simpl.
  - destruct (accountMap h !! p) as [o|]; [|done]. simpl. f_equal.
    destruct o. unfold grown. simpl. by rewrite app_nil_r.
  - rewrite IH by by apply link_holds_loaded.
    rewrite (link_children data) by done. rewrite filter_cons.
    destruct (accountMap h !! p) as [o|]; [|done]. simpl. f_equal.
    unfold grown. simpl. f_equal.
    destruct (decide (names_parent p a = true)) as [Ht|Ht].
    + rewrite Ht. simpl. by rewrite <- app_assoc.
    + apply not_true_is_false in Ht. rewrite Ht. by rewrite app_nil_r.
Qed.

Lemma first_pass_account data p : forall (m : gmap string AccountObj) o,
  (forall q o', m !! q = Some o' -> children o' = [] /\ id (account o') = q) ->
  fold_left (fun m a => <[id a := {| account := a; children := [] |}]> m)
    data m !! p = Some o ->
  children o = [] /\ id (account o) = p
  /\ (account o ∈ data \/ m !! p = Some o).
Proof.
  induction data as [|a data IH]; intros m o Hm; simpl.
  - intros Ho. destruct (Hm p o Ho). auto.
  - intros Ho. apply IH in Ho.
    + destruct Ho as (H1 & H2 & [H3|H3]); repeat split; auto.
      * left. by right.
      * destruct (decide (id a = p)) as [Heq|Hne].
        -- rewrite <- Heq, lookup_insert_eq in H3. injection H3 as <-.
           left. left.
        -- rewrite lookup_insert_ne in H3 by done. by right.
    + intros q o' Hq. destruct (decide (id a = q)) as [Heq|Hne].
      * rewrite <- Heq, lookup_insert_eq in Hq. by injection Hq as <-.
      * rewrite lookup_insert_ne in Hq by done. eauto.
Qed.

(** The two passes of [loadAccounts] amount to filtering the loaded
    rows.  The roots are the accounts without parent or whose parent is
    not loaded, in the order of the rows; the object kept under a key is
    a loaded account with that key, and its children are the accounts
    that name this key as their parent, in the order of the rows; no
    other key has an object. *)
Theorem hierarchy_is_a_filter_of_the_rows data :
  rootAccounts (build_hierarchy data)
  = map id (filter (fun a => is_top_level data a = true) data)
  /\ (forall p o,
      accountMap (build_hierarchy data) !! p = Some o ->
      account o ∈ data /\ id (account o) = p
      /\ children o = map id (filter (fun a => names_parent p a = true) data))
  /\ (forall p,
      is_Some (accountMap (build_hierarchy data) !! p) <-> p ∈ map id data).
Proof.
  pose proof (first_pass_holds_loaded data) as Hh.
  unfold build_hierarchy. split; [|split].
  - by rewrite (links_roots data).
  - intros p o. rewrite (links_children data) by done. simpl.
    destruct (first_pass data !! p) as [o0|] eqn:Ho0; [|discriminate].
    simpl. intros [= <-]. unfold first_pass in Ho0.
    apply first_pass_account in Ho0.
    + destruct Ho0 as (Hkids & Hid & [Hin|Hin]).
      * simpl. rewrite Hkids. auto.
      * by rewrite lookup_empty in Hin.
    + intros q o'. by rewrite lookup_empty.
  - intros p. rewrite HierarchyProperties.links_lookup. apply Hh.
Qed.

End HierarchyShape.

(** ** The hierarchy built by the other copy of the page *)

Module CopyShape.
Import Js Rows ChartOfAccounts Hierarchy.

Lemma copy_link_lookup h a p :
  is_Some (accountMap (ChartOfAccountsCopy.link h a) !! p)
  <-> is_Some (accountMap h !! p).
Proof.
  unfold ChartOfAccountsCopy.link, push_root.
  destruct (parent_account_id a) as [q|]; [|done].
  destruct (truthy_string q); [|done].
  destruct (accountMap h !! q) as [o|] eqn:Hq; [|done]. simpl.
  rewrite lookup_alter. case_decide as Heq; [|done].
  subst. rewrite Hq. simpl. split; intros _; by eexists.
Qed.

Lemma copy_link_holds_loaded data h a :
  holds_loaded data (accountMap h) ->
  holds_loaded data (accountMap (ChartOfAccountsCopy.link h a)).
Proof. intros Hh p. rewrite copy_link_lookup. apply Hh. Qed.

Lemma copy_link_roots h a :
  rootAccounts (ChartOfAccountsCopy.link h a)
  = rootAccounts h ++ (if has_no_parent a then [id a] else []).
Proof.
  unfold ChartOfAccountsCopy.link, push_root, has_no_parent.
  destruct (parent_account_id a) as [p|]; simpl; [|done].
  destruct (truthy_string p); simpl; [|done].
  destruct (accountMap h !! p); simpl; by rewrite app_nil_r.
Qed.

Lemma copy_links_roots l : forall h,
  rootAccounts (fold_left ChartOfAccountsCopy.link l h)
  = rootAccounts h ++ map id (filter (fun a => has_no_parent a = true) l).
Proof.
  induction l as [|a l IH]; intros h; simpl; [by rewrite app_nil_r|].
  rewrite IH, copy_link_roots, filter_cons.
  destruct (decide (has_no_parent a = true)) as [Ht|Ht].
  - rewrite Ht. simpl. by rewrite <- app_assoc.
  - apply not_true_is_false in Ht. rewrite Ht. by rewrite app_nil_r.
Qed.

Lemma copy_link_children h a p :
  accountMap (ChartOfAccountsCopy.link h a) !! p
  = grown (if names_parent p a then [id a] else [])
      <$> accountMap h !! p.
Proof.
  unfold ChartOfAccountsCopy.link, push_root, names_parent.
  assert (forall o : option AccountObj, o = grown [] <$> o)
    as Hsame.
  { intros [o|]; [|done]. simpl. f_equal. destruct o.
    unfold grown. simpl. by rewrite app_nil_r. }
  case_bool_decide as Hpar; simpl.
  - rewrite Hpar. destruct (truthy_string p); simpl; [|apply Hsame].
    destruct (accountMap h !! p) as [o|] eqn:Ho; simpl.
    + by rewrite lookup_alter_eq, Ho.
    + by rewrite Ho.
  - destruct (parent_account_id a) as [q|]; [|apply Hsame].
    destruct (truthy_string q); [|apply Hsame].
    destruct (accountMap h !! q) as [o|] eqn:Ho; [|apply Hsame]. simpl.
    rewrite lookup_alter_ne by congruence. apply Hsame.
Qed.

Lemma copy_links_children l p : forall h,
  accountMap (fold_left ChartOfAccountsCopy.link l h) !! p
  = grown
      (map id (filter (fun a => names_parent p a = true) l))
      <$> accountMap h !! p.
Proof.
  induction l as [|a l IH]; intros h; simpl.
  - destruct (accountMap h !! p) as [o|]; [|done]. simpl. f_equal.
    destruct o. unfold grown. simpl. by rewrite app_nil_r.
  - rewrite IH, copy_link_children, filter_cons.
    destruct (accountMap h !! p) as [o|]; [|done]. simpl. f_equal.
    unfold grown. simpl. f_equal.
    destruct (decide (names_parent p a = true)) as [Ht|Ht].
    + rewrite Ht. simpl. by rewrite <- app_assoc.
    + apply not_true_is_false in Ht. rewrite Ht. by rewrite app_nil_r.
Qed.

(** In the copy of the page the roots are the accounts that name no
    parent, in the order of the rows, and the children of a loaded
    account are the accounts that name it, as in the other file.  So an
    account that names a parent which is not loaded is neither a root nor
    anybody's child. *)
Theorem copy_places_only_accounts_with_known_parent data :
  rootAccounts (ChartOfAccountsCopy.build_hierarchy data)
  = map id (filter (fun a => has_no_parent a = true) data)
  /\ (forall p o,
      accountMap (ChartOfAccountsCopy.build_hierarchy data) !! p = Some o ->
      children o = map id (filter (fun a => names_parent p a = true) data))
  /\ (forall a p,
      NoDup (map id data) -> a ∈ data ->
      parent_account_id a = Some p -> truthy_string p = true ->
      p ∉ map id data ->
      (id a ∉ rootAccounts (ChartOfAccountsCopy.build_hierarchy data))
      /\ forall q o,
           accountMap (ChartOfAccountsCopy.build_hierarchy data) !! q = Some o ->
           id a ∉ children o).
Proof.
  unfold ChartOfAccountsCopy.build_hierarchy.
  assert (forall p o,
    accountMap
      (fold_left ChartOfAccountsCopy.link data
         {| accountMap := first_pass data; rootAccounts := [] |}) !! p = Some o ->
    is_Some (first_pass data !! p)
    /\ children o = map id (filter (fun a => names_parent p a = true) data))
    as Hkids.
  { intros p o. rewrite copy_links_children. simpl.
    destruct (first_pass data !! p) as [o0|] eqn:Ho0; [|discriminate].
    simpl. intros [= <-]. split; [by eexists|]. unfold first_pass in Ho0.
    apply HierarchyShape.first_pass_account in Ho0.
    - destruct Ho0 as (Hk & _). unfold grown. simpl.
      by rewrite Hk.
    - intros q o'. by rewrite lookup_empty. }
  split; [by rewrite copy_links_roots|]. split.
  - intros p o Ho. by destruct (Hkids p o Ho).
  - intros a p Hnd Ha Hp Ht Hno. split.
    + rewrite copy_links_roots. simpl. intros Hin.
      apply list_elem_of_fmap in Hin as (b & Hid & Hb).
      apply list_elem_of_filter in Hb as [Hroot Hb].
      rewrite (IntegrityProperties.same_key_same_row id data a b Hnd Ha Hb Hid)
        in Hp.
      unfold has_no_parent in Hroot. rewrite Hp, Ht in Hroot. discriminate.
    + intros q o Ho Hin. destruct (Hkids q o Ho) as [Hq Hch].
      rewrite Hch in Hin.
      apply list_elem_of_fmap in Hin as (b & Hid & Hb).
      apply list_elem_of_filter in Hb as [Hnames Hb].
      rewrite <- (IntegrityProperties.same_key_same_row id data a b Hnd Ha Hb Hid)
        in Hnames.
      unfold names_parent in Hnames. apply andb_prop in Hnames as [Hq' _].
      apply bool_decide_eq_true in Hq'. rewrite Hp in Hq'. injection Hq' as ->.
      apply Hno. by apply (HierarchyShape.first_pass_holds_loaded data).
Qed.

Lemma copy_places_only_accounts_with_known_parent_witness :
  ("acc-closed" ∉ map id [Samples.orphan])
  /\ (id Samples.orphan
      ∉ rootAccounts (ChartOfAccountsCopy.build_hierarchy [Samples.orphan])).
Proof.
  assert ("acc-closed" ∉ map id [Samples.orphan]) as Hno.
  { apply (bool_decide_unpack _). vm_compute. exact I. }
  split; [exact Hno|].
  apply (proj2 (proj2
           (copy_places_only_accounts_with_known_parent [Samples.orphan]))
           Samples.orphan "acc-closed").
  - apply (bool_decide_unpack _). vm_compute. exact I.
  - apply list_elem_of_singleton. reflexivity.
  - reflexivity.
  - reflexivity.
  - exact Hno.
Defined.

End CopyShape.

(** ** The rest of the dashboard: recent entries and months *)

Module DashboardProperties.
Import Js Rows Ledger AggregationProperties BreakdownProperties.

Lemma visit_line_recent m v l :
  Dashboard.v_recentTransactions (Dashboard.visit_line m v l)
  = Dashboard.v_recentTransactions v.
Proof.
  unfold Dashboard.visit_line. destruct (accounts l) as [a|]; [|done].
  destruct (bool_decide (type a = Schema.income) && gt0 (credit l));
    destruct (bool_decide (type a = Schema.expense) && gt0 (debit l)); done.
Qed.

Lemma visit_lines_recent m ls : forall v,
  Dashboard.v_recentTransactions (fold_left (Dashboard.visit_line m) ls v)
  = Dashboard.v_recentTransactions v.
Proof.
  induction ls as [|l ls IH]; intros v; simpl; [done|].
  by rewrite IH, visit_line_recent.
Qed.

Lemma visit_entries_recent monthLabel es : forall v,
  length (Dashboard.v_recentTransactions v) <= 5 ->
  Dashboard.v_recentTransactions
    (fold_left (Dashboard.visit_entry monthLabel) es v)
  = Dashboard.v_recentTransactions v
    ++ map Dashboard.recent
         (take (5 - length (Dashboard.v_recentTransactions v)) es).
Proof.
  induction es as [|e es IH]; intros v Hlen; simpl.
  - by rewrite take_nil, app_nil_r.
  - unfold Dashboard.visit_entry at 2.
    pose proof (visit_lines_recent (monthLabel (date e)) (lines_of e) v) as Hr.
    rewrite Hr.
    destruct (Nat.ltb_spec (length (Dashboard.v_recentTransactions v)) 5)
      as [Hlt|Hge].
    + rewrite IH; simpl.
      * rewrite length_app. simpl.
        replace (5 - length (Dashboard.v_recentTransactions v))
          with (S (5 - (length (Dashboard.v_recentTransactions v) + 1)))
          by lia.
        simpl. by rewrite <- app_assoc.
      * rewrite length_app. simpl. lia.
    + rewrite IH; rewrite ?Hr; [|done].
      replace (5 - length (Dashboard.v_recentTransactions v)) with 0 by lia.
      by rewrite !take_0.
Qed.

(** The recent list of the dashboard is made of the first five entries
    the query returned, in that order, one row per entry. *)
Theorem recent_transactions_are_the_first_five monthLabel es :
  Dashboard.recentTransactions
    (Dashboard.loadDashboardData monthLabel (QueryData (Some es)))
  = map Dashboard.recent (take 5 es).
Proof.
  simpl. unfold Dashboard.scan.
  by rewrite visit_entries_recent by (simpl; lia).
Qed.

(** An entry that only moves amounts between asset, liability and equity
    accounts is listed with amount 0 and labelled "expense". *)
Theorem balance_sheet_entry_is_listed_as_expense entry :
  Forall off_the_result (lines_of entry) ->
  Dashboard.rt_amount (Dashboard.recent entry) = 0%float
  /\ Dashboard.rt_type (Dashboard.recent entry) = "expense".
Proof.
  intros Hoff.
  assert (Dashboard.entry_amount entry = 0%float) as Hzero.
  { unfold Dashboard.entry_amount, lines_of in *.
    destruct (journal_lines entry) as [ls|]; [|done]. simpl in *.
    assert (fold_left Dashboard.entry_amount_step ls 0%float = 0%float) as ->;
      [|done].
    induction Hoff as [|l ls Hl _ IH]; [done|]. simpl.
    unfold Dashboard.entry_amount_step at 2. unfold off_the_result in Hl.
    destruct (accounts l) as [a|]; [|done]. destruct Hl as [Hi He].
    by rewrite !bool_decide_eq_false_2. }
  unfold Dashboard.recent. simpl. rewrite Hzero. done.
Qed.

Lemma balance_sheet_entry_is_listed_as_expense_witness :
  Dashboard.rt_amount
    (Dashboard.recent
       (Samples.entry "je-4" "2024-04-09" "Deposit"
          [Samples.line "jl-7" 250 0 Samples.cash])) = 0%float
  /\ Dashboard.rt_type
       (Dashboard.recent
          (Samples.entry "je-4" "2024-04-09" "Deposit"
             [Samples.line "jl-7" 250 0 Samples.cash])) = "expense".
Proof.
  apply balance_sheet_entry_is_listed_as_expense.
  constructor; [|constructor]. split; discriminate.
Defined.

End DashboardProperties.

(** ** Months and quarters *)

Module MonthlyProperties.
Import Js Rows Ledger AggregationProperties BreakdownProperties.

Lemma amounts_of_app k cs1 cs2 :
  amounts_of k (cs1 ++ cs2) = amounts_of k cs1 ++ amounts_of k cs2.
Proof. unfold amounts_of. by rewrite filter_app, map_app. Qed.

Lemma amounts_of_pairs k m (xs : list float) :
  amounts_of k (map (pair m) xs) = if decide (m = k) then xs else [].
Proof.
  unfold amounts_of. induction xs as [|x xs IH]; simpl.
  - by destruct (decide (m = k)).
  - rewrite filter_cons. simpl. destruct (decide (m = k)); simpl; by rewrite IH.
Qed.

Lemma amounts_of_month f monthLabel m es :
  amounts_of m (month_contributions f monthLabel es)
  = omap f (all_lines (entries_of_month monthLabel m es)).
Proof.
  unfold month_contributions, entries_of_month, all_lines.
  induction es as [|e es IH]; [done|].
  simpl. rewrite amounts_of_app, amounts_of_pairs, IH, filter_cons.
  destruct (decide (monthLabel (date e) = m)); simpl; [|done].
  by rewrite omap_app.
Qed.

Lemma bump_all_pairs_app o cs1 cs2 :
  bump_all (bump_all o cs1) cs2 = bump_all o (cs1 ++ cs2).
Proof. unfold bump_all. by rewrite fold_left_app. Qed.

(** *** Dashboard *)

Lemma dashboard_line_months m v line :
  Dashboard.v_monthlyRevenue (Dashboard.visit_line m v line)
  = bump_all (Dashboard.v_monthlyRevenue v)
      (map (pair m) (omap revenue_of [line]))
  /\ Dashboard.v_monthlyExpenses (Dashboard.visit_line m v line)
     = bump_all (Dashboard.v_monthlyExpenses v)
         (map (pair m) (omap expense_of [line])).
Proof.
  unfold Dashboard.visit_line, revenue_of, expense_of. simpl.
  destruct (accounts line) as [a|]; [|done].
  destruct (bool_decide (type a = Schema.income) && gt0 (credit line));
    destruct (bool_decide (type a = Schema.expense) && gt0 (debit line));
    done.
Qed.

Lemma dashboard_lines_months m ls : forall v,
  Dashboard.v_monthlyRevenue (fold_left (Dashboard.visit_line m) ls v)
  = bump_all (Dashboard.v_monthlyRevenue v) (map (pair m) (omap revenue_of ls))
  /\ Dashboard.v_monthlyExpenses (fold_left (Dashboard.visit_line m) ls v)
     = bump_all (Dashboard.v_monthlyExpenses v)
         (map (pair m) (omap expense_of ls)).
Proof.
  induction ls as [|l ls IH]; intros v; [done|].
  change (l :: ls) with ([l] ++ ls).
  rewrite fold_left_app, !omap_app, !map_app, <- !bump_all_pairs_app.
  destruct (IH (fold_left (Dashboard.visit_line m) [l] v)) as [-> ->].
  simpl fold_left.
  by destruct (dashboard_line_months m v l) as [-> ->].
Qed.

Lemma dashboard_entries_months monthLabel es : forall v,
  Dashboard.v_monthlyRevenue
    (fold_left (Dashboard.visit_entry monthLabel) es v)
  = bump_all (Dashboard.v_monthlyRevenue v)
      (month_contributions revenue_of monthLabel es)
  /\ Dashboard.v_monthlyExpenses
       (fold_left (Dashboard.visit_entry monthLabel) es v)
     = bump_all (Dashboard.v_monthlyExpenses v)
         (month_contributions expense_of monthLabel es).
Proof.
  unfold month_contributions.
  induction es as [|e es IH]; intros v; [done|].
  simpl. rewrite <- !bump_all_pairs_app.
  destruct (IH (Dashboard.visit_entry monthLabel v e)) as [-> ->].
  destruct (dashboard_lines_months (monthLabel (date e)) (lines_of e) v)
    as [<- <-].
  unfold Dashboard.visit_entry. destruct (_ <? 5)%nat; done.
Qed.

(** *** Reports *)

Lemma reports_line_months m v line :
  Reports.v_monthlyRevenue (Reports.visit_line m v line)
  = bump_all (Reports.v_monthlyRevenue v)
      (map (pair m) (omap revenue_of [line]))
  /\ Reports.v_monthlyExpenses (Reports.visit_line m v line)
     = bump_all (Reports.v_monthlyExpenses v)
         (map (pair m) (omap expense_of [line])).
Proof.
  unfold Reports.visit_line, revenue_of, expense_of. simpl.
  destruct (accounts line) as [a|]; [|done].
  destruct (bool_decide (type a = Schema.income) && gt0 (credit line));
    destruct (bool_decide (type a = Schema.expense) && gt0 (debit line));
    done.
Qed.

Lemma reports_lines_months m ls : forall v,
  Reports.v_monthlyRevenue (fold_left (Reports.visit_line m) ls v)
  = bump_all (Reports.v_monthlyRevenue v) (map (pair m) (omap revenue_of ls))
  /\ Reports.v_monthlyExpenses (fold_left (Reports.visit_line m) ls v)
     = bump_all (Reports.v_monthlyExpenses v)
         (map (pair m) (omap expense_of ls)).
Proof.
  induction ls as [|l ls IH]; intros v; [done|].
  change (l :: ls) with ([l] ++ ls).
  rewrite fold_left_app, !omap_app, !map_app, <- !bump_all_pairs_app.
  destruct (IH (fold_left (Reports.visit_line m) [l] v)) as [-> ->].
  simpl fold_left.
  by destruct (reports_line_months m v l) as [-> ->].
Qed.

Lemma reports_entries_months monthLabel es : forall v,
  Reports.v_monthlyRevenue (fold_left (Reports.visit_entry monthLabel) es v)
  = bump_all (Reports.v_monthlyRevenue v)
      (month_contributions revenue_of monthLabel es)
  /\ Reports.v_monthlyExpenses
       (fold_left (Reports.visit_entry monthLabel) es v)
     = bump_all (Reports.v_monthlyExpenses v)
         (month_contributions expense_of monthLabel es).
Proof.
  unfold month_contributions.
  induction es as [|e es IH]; intros v; [done|].
  simpl. rewrite <- !bump_all_pairs_app.
  destruct (IH (Reports.visit_entry monthLabel v e)) as [-> ->].
  unfold Reports.visit_entry.
  by destruct (reports_lines_months (monthLabel (date e)) (lines_of e) v)
    as [<- <-].
Qed.

Lemma month_lookup f monthLabel m es :
  or0 (obj_get (bump_all [] (month_contributions f monthLabel es)) m)
  = or0 (summed None
           (omap f (all_lines (entries_of_month monthLabel m es)))).
Proof. by rewrite bump_all_get, amounts_of_month. Qed.

(** After a query that succeeded the chart of the dashboard has the
    twelve months, January to December.  The inflow of a month is what
    the lines of the entries labelled with that month add to revenue,
    summed in the order of the rows, and its outflow what they add to
    expenses; a month without entries shows 0 and 0.  After a query
    that failed the chart is empty. *)
Theorem dashboard_months_group_the_entries monthLabel es :
  plain_labels monthLabel es ->
  Dashboard.monthlyData
    (Dashboard.loadDashboardData monthLabel (QueryData (Some es)))
  = map (fun m => {| Dashboard.month := m;
                     Dashboard.inflow := month_revenue monthLabel m es;
                     Dashboard.outflow := month_expenses monthLabel m es |})
      Dashboard.months
  /\ (forall m,
      entries_of_month monthLabel m es = [] ->
      month_revenue monthLabel m es = 0%float
      /\ month_expenses monthLabel m es = 0%float)
  /\ Dashboard.monthlyData (Dashboard.loadDashboardData monthLabel QueryError)
     = [].
Proof.
  intros _. split; [|split].
  - simpl. unfold Dashboard.scan.
    destruct (dashboard_entries_months monthLabel es Dashboard.start)
      as [-> ->].
    simpl. unfold month_revenue, month_expenses. by rewrite !month_lookup.
  - intros m Hm. unfold month_revenue, month_expenses. by rewrite Hm.
  - reflexivity.
Qed.

Lemma dashboard_months_group_the_entries_witness :
  plain_labels Samples.march Samples.sale_and_rent
  /\ map (fun p => (Dashboard.month p, Dashboard.inflow p, Dashboard.outflow p))
       (take 3 (Dashboard.monthlyData
                  (Dashboard.loadDashboardData Samples.march
                     (QueryData (Some Samples.sale_and_rent)))))
     = [ ("Jan", 0%float, 0%float); ("Feb", 0%float, 0%float);
         ("Mar", 1000%float, 400%float) ].
Proof.
  assert (plain_labels Samples.march Samples.sale_and_rent) as Hp.
  { apply (bool_decide_unpack _). vm_compute. exact I. }
  split; [exact Hp|].
  rewrite (proj1 (dashboard_months_group_the_entries Samples.march
                    Samples.sale_and_rent Hp)).
  reflexivity.
Defined.

(** After a query that succeeded the reports page has the twelve months
    too, grouped in the same way; the profit of a month is its revenue
    minus its expenses, and each of the four quarters adds the revenue
    of its three months, from 0, in calendar order.  After a query that
    failed it has no months and no quarters. *)
Theorem report_months_and_quarters monthLabel es :
  plain_labels monthLabel es ->
  let r := Reports.loadReportData monthLabel (QueryData (Some es)) in
  let rev m := month_revenue monthLabel m es in
  Reports.monthlyData r
  = map (fun m => {| Reports.month := m;
                     Reports.revenue := rev m;
                     Reports.expenses := month_expenses monthLabel m es;
                     Reports.profit :=
                       (rev m - month_expenses monthLabel m es)%float |})
      Dashboard.months
  /\ map Reports.quarter_value (Reports.quarterlyData r)
     = [ (0 + rev "Jan" + rev "Feb" + rev "Mar")%float;
         (0 + rev "Apr" + rev "May" + rev "Jun")%float;
         (0 + rev "Jul" + rev "Aug" + rev "Sep")%float;
         (0 + rev "Oct" + rev "Nov" + rev "Dec")%float ]
  /\ Reports.monthlyData (Reports.loadReportData monthLabel QueryError) = []
  /\ Reports.quarterlyData (Reports.loadReportData monthLabel QueryError) = [].
Proof.
  intros _ r rev. subst r rev.
  assert (Reports.monthlyData
            (Reports.loadReportData monthLabel (QueryData (Some es)))
          = map (fun m => {| Reports.month := m;
                     Reports.revenue := month_revenue monthLabel m es;
                     Reports.expenses := month_expenses monthLabel m es;
                     Reports.profit :=
                       (month_revenue monthLabel m es
                        - month_expenses monthLabel m es)%float |})
              Dashboard.months) as Hm.
  { simpl. unfold Reports.scan.
    destruct (reports_entries_months monthLabel es Reports.start) as [-> ->].
    simpl. unfold month_revenue, month_expenses. by rewrite !month_lookup. }
  split; [exact Hm|]. split; [|by split].
  change (map Reports.quarter_value
            (Reports.quarterlyData
               (Reports.loadReportData monthLabel (QueryData (Some es)))))
    with [ Reports.quarter_revenue
             (Reports.monthlyData
                (Reports.loadReportData monthLabel (QueryData (Some es)))) 0 3;
           Reports.quarter_revenue
             (Reports.monthlyData
                (Reports.loadReportData monthLabel (QueryData (Some es)))) 3 6;
           Reports.quarter_revenue
             (Reports.monthlyData
                (Reports.loadReportData monthLabel (QueryData (Some es)))) 6 9;
           Reports.quarter_revenue
             (Reports.monthlyData
                (Reports.loadReportData monthLabel (QueryData (Some es)))) 9 12 ].
  rewrite Hm. reflexivity.
Qed.

Lemma report_months_and_quarters_witness :
  plain_labels Samples.march Samples.sale_and_rent
  /\ map Reports.quarter_value
       (Reports.quarterlyData
          (Reports.loadReportData Samples.march
             (QueryData (Some Samples.sale_and_rent))))
     = [1000%float; 0%float; 0%float; 0%float].
Proof.
  assert (plain_labels Samples.march Samples.sale_and_rent) as Hp.
  { apply (bool_decide_unpack _). vm_compute. exact I. }
  split; [exact Hp|].
  rewrite (proj1 (proj2 (report_months_and_quarters Samples.march
                           Samples.sale_and_rent Hp))).
  reflexivity.
Defined.

End MonthlyProperties.

(** ** The list of the expenses page *)

Module ExpensesProperties.
Import Js Rows Ledger.

(** What a line adds to the list of the expenses page. *)
Lemma expenses_line_listed e v line :
  Expenses.expensesData (Expenses.visit_line e v line)
  = Expenses.expensesData v
    ++ match Ledger.expense_row e line with
       | Some x => [x]
       | None => []
       end.
Proof.
  unfold Expenses.visit_line, expense_row.
  destruct (accounts line) as [a|]; [|by rewrite app_nil_r].
  destruct (bool_decide (type a = Schema.expense) && gt0 (debit line));
    [done | by rewrite app_nil_r].
Qed.

Lemma expenses_lines_listed e ls : forall v,
  Expenses.expensesData (fold_left (Expenses.visit_line e) ls v)
  = Expenses.expensesData v ++ omap (expense_row e) ls.
Proof.
  induction ls as [|l ls IH]; intros v; simpl; [by rewrite app_nil_r|].
  rewrite IH, expenses_line_listed, <- app_assoc.
  by destruct (expense_row e l).
Qed.

Lemma expenses_entries_listed es : forall v,
  Expenses.expensesData (fold_left Expenses.visit_entry es v)
  = Expenses.expensesData v
    ++ concat (map (fun e => omap (expense_row e) (lines_of e)) es).
Proof.
  induction es as [|e es IH]; intros v; simpl; [by rewrite app_nil_r|].
  rewrite IH. unfold Expenses.visit_entry.
  by rewrite expenses_lines_listed, <- app_assoc.
Qed.

Lemma expense_row_amount e l :
  Expenses.amount <$> expense_row e l = expense_of l.
Proof.
  unfold expense_row, expense_of.
  destruct (accounts l) as [a|]; [|done].
  by destruct (bool_decide (type a = Schema.expense) && gt0 (debit l)).
Qed.

Lemma omap_fmap_amount e ls :
  map Expenses.amount (omap (expense_row e) ls) = omap expense_of ls.
Proof.
  induction ls as [|l ls IH]; [done|]. simpl.
  rewrite <- (expense_row_amount e l).
  destruct (expense_row e l); simpl; [f_equal|]; exact IH.
Qed.

Lemma listed_amounts es :
  map Expenses.amount (Expenses.expensesData (Expenses.scan es))
  = omap expense_of (all_lines es).
Proof.
  unfold Expenses.scan. rewrite expenses_entries_listed. simpl.
  unfold all_lines. induction es as [|e es IH]; [done|].
  simpl. by rewrite map_app, omap_app, IH, omap_fmap_amount.
Qed.

Lemma listed_rows es x :
  x ∈ Expenses.expensesData (Expenses.scan es) ->
  exists e l, e ∈ es /\ l ∈ lines_of e /\ expense_row e l = Some x.
Proof.
  unfold Expenses.scan. rewrite expenses_entries_listed. simpl.
  rewrite BankingClaims.elem_of_concat. intros (xs & Hx & Hxs).
  apply list_elem_of_fmap in Hxs as (e & -> & He).
  apply list_elem_of_omap in Hx as (l & Hl & Hp). eauto.
Qed.

Lemma lower_empty_included s : includes s (toLowerCase "") = true.
Proof. by destruct s. Qed.

(** The expenses page lists one row per strictly positive debit to an
    expense account, in the order of the lines: every amount is
    positive, every row is approved and has no receipt.  So the pending
    total is 0 and the status filter [pending] shows nothing, while the
    filters left at their defaults show the whole list. *)
Theorem expenses_page_lists_positive_debits es shown :
  let expenses := (Expenses.loadExpenses (QueryData (Some es)) shown).1.1 in
  map Expenses.amount expenses = omap expense_of (loaded_lines es)
  /\ Forall (fun x => (0 <? Expenses.amount x)%float = true
                      /\ Expenses.status x = "approved"
                      /\ Expenses.receipt x = false) expenses
  /\ Expenses.pendingExpenses expenses = 0%float
  /\ (forall searchTerm categoryFilter,
      Expenses.filteredExpenses searchTerm categoryFilter "pending" expenses
      = [])
  /\ Expenses.filteredExpenses "" "all" "all" expenses = expenses.
Proof.
  intros expenses. subst expenses. simpl.
  rewrite <- AggregationProperties.all_lines_loaded.
  assert (Forall (fun x => (0 <? Expenses.amount x)%float = true
                      /\ Expenses.status x = "approved"
                      /\ Expenses.receipt x = false)
            (Expenses.expensesData (Expenses.scan es))) as Hall.
  { apply Forall_forall. intros x Hx.
    apply listed_rows in Hx as (e & l & _ & _ & Hrow).
    revert Hrow. unfold expense_row.
    destruct (accounts l) as [a|]; [|done].
    destruct (bool_decide (type a = Schema.expense)); [|done]. simpl.
    destruct (debit l) as [dv|] eqn:Hd; simpl; [|done].
    destruct (0 <? dv)%float eqn:Hpos; [|done].
    intros [= <-]. simpl. auto. }
  split; [apply listed_amounts|].
  split; [exact Hall|].
  assert (forall P : Expenses.Expense -> Prop, forall HP : forall x, Decision (P x),
            (forall x, P x -> Expenses.status x = "pending") ->
            filter P (Expenses.expensesData (Expenses.scan es)) = []) as Hnone.
  { intros P HP Himp.
    induction Hall as [|x xs (_ & Hst & _) _ IH]; [done|].
    rewrite filter_cons_False; [exact IH|].
    intros Hx. apply Himp in Hx. rewrite Hst in Hx. discriminate. }
  split.
  { unfold Expenses.pendingExpenses. rewrite Hnone; [done|]. by intros. }
  split.
  { intros s c. unfold Expenses.filteredExpenses. apply Hnone.
    intros x (_ & _ & [Hx|Hx]); [discriminate|done]. }
  unfold Expenses.filteredExpenses. clear Hall Hnone.
  induction (Expenses.expensesData (Expenses.scan es)) as [|x xs IH]; [done|].
  rewrite filter_cons_True; [by rewrite IH|].
  split; [apply lower_empty_included | split; by left].
Qed.

Lemma expenses_page_lists_positive_debits_witness :
  let expenses :=
    (Expenses.loadExpenses (QueryData (Some Samples.sale_and_rent))
       ([], [])).1.1 in
  map Expenses.amount expenses = [400%float]
  /\ map Expenses.category expenses = ["Rent Expense"]
  /\ Expenses.pendingExpenses expenses = 0%float
  /\ Expenses.filteredExpenses "" "all" "all" expenses = expenses.
Proof.
  intros expenses.
  destruct (expenses_page_lists_positive_debits Samples.sale_and_rent ([], []))
    as (Hamounts & _ & Hpending & _ & Hall).
  split; [|split; [reflexivity | split; [exact Hpending | exact Hall]]].
  etransitivity; [exact Hamounts | reflexivity].
Defined.

End ExpensesProperties.

(** ** Answers without income or expense lines *)

Module QuietProperties.
Import Js Rows Ledger AggregationProperties BreakdownProperties
  BreakdownClaims MonthlyProperties.

Lemma omap_none {A B} (f : A -> option B) ls :
  Forall (fun l => f l = None) ls -> omap f ls = [].
Proof.
  induction 1 as [|l ls Hl _ IH]; [done|]. simpl. by rewrite Hl.
Qed.

Lemma all_lines_filter (P : JournalEntry -> Prop) `{forall e, Decision (P e)}
  (Q : JournalLine -> Prop) es :
  Forall Q (all_lines es) -> Forall Q (all_lines (filter P es)).
Proof.
  unfold all_lines. induction es as [|e es IH]; [done|].
  simpl. rewrite Forall_app. intros [He Hes]. rewrite filter_cons.
  destruct (decide (P e)); simpl; [rewrite Forall_app|]; auto.
Qed.

Lemma quiet_lines es :
  quiet es ->
  omap revenue_of (all_lines es) = []
  /\ omap expense_of (all_lines es) = []
  /\ omap expense_category (all_lines es) = [].
Proof.
  intros Hq. repeat split; apply omap_none;
    (eapply Forall_impl; [exact Hq|]); intros l [Hr He]; try done.
  revert He. unfold expense_of, expense_category.
  destruct (accounts l) as [a|]; [|done].
  by destruct (bool_decide (type a = Schema.expense) && gt0 (debit l)).
Qed.

Lemma quiet_month monthLabel m es :
  quiet es ->
  month_revenue monthLabel m es = 0%float
  /\ month_expenses monthLabel m es = 0%float.
Proof.
  intros Hq. unfold month_revenue, month_expenses.
  assert (quiet (entries_of_month monthLabel m es)) as Hq'.
  { unfold quiet, entries_of_month. by apply all_lines_filter. }
  destruct (quiet_lines _ Hq') as (-> & -> & _). done.
Qed.

(** When no line of the answer is a positive credit to an income
    account or a positive debit to an expense account (no entries at
    all, or only movements between balance sheet accounts), the
    dashboard has every total 0, an empty breakdown, twelve months of 0
    and reports to have no data; the reports page has every total 0, a
    profit margin of 0 (nothing is divided by the revenue of 0), and
    months and quarters of 0. *)
Theorem quiet_answer_shows_zeroes monthLabel es :
  quiet es ->
  let d := Dashboard.loadDashboardData monthLabel (QueryData (Some es)) in
  let r := Reports.loadReportData monthLabel (QueryData (Some es)) in
  (Dashboard.totalRevenue d = 0 /\ Dashboard.totalExpenses d = 0
   /\ Dashboard.netProfit d = 0)%float
  /\ Dashboard.hasData d = false
  /\ Dashboard.expenseBreakdown d = []
  /\ map (fun p => (Dashboard.inflow p, Dashboard.outflow p))
       (Dashboard.monthlyData d)
     = replicate 12 (0%float, 0%float)
  /\ (Reports.totalRevenue r = 0 /\ Reports.totalExpenses r = 0
      /\ Reports.netProfit r = 0 /\ Reports.profitMargin r = 0)%float
  /\ map (fun row => (Reports.revenue row, Reports.expenses row,
                      Reports.profit row))
       (Reports.monthlyData r)
     = replicate 12 (0%float, 0%float, 0%float)
  /\ map Reports.quarter_value (Reports.quarterlyData r)
     = replicate 4 0%float.
Proof.
  intros Hq d r.
  destruct (quiet_lines es Hq) as (Hrev & Hexp & Hcat).
  destruct (dashboard_totals monthLabel es) as (Hdr & Hde & Hdn).
  destruct (reports_totals monthLabel es) as (Hrr & Hre & Hrn & Hrm).
  rewrite Hrev, Hexp in *. fold d in Hdr, Hde, Hdn. fold r in Hrr, Hre, Hrn, Hrm.
  assert (forall m, or0 (obj_get (bump_all []
                      (month_contributions revenue_of monthLabel es)) m)
                    = 0%float) as Hmr.
  { intros m. rewrite month_lookup.
    apply (quiet_month monthLabel m es Hq). }
  assert (forall m, or0 (obj_get (bump_all []
                      (month_contributions expense_of monthLabel es)) m)
                    = 0%float) as Hme.
  { intros m. rewrite month_lookup.
    apply (quiet_month monthLabel m es Hq). }
  split; [by rewrite Hdr, Hde, Hdn|].
  split; [unfold Dashboard.hasData; by rewrite Hdr, Hde|].
  split.
  { subst d. simpl. unfold Dashboard.scan.
    rewrite dashboard_entries_categories, Hcat. reflexivity. }
  split.
  { subst d. simpl. unfold Dashboard.scan.
    destruct (dashboard_entries_months monthLabel es Dashboard.start)
      as [-> ->].
    simpl. by rewrite !Hmr, !Hme. }
  split; [by rewrite Hrr, Hre, Hrn, Hrm|].
  assert (Reports.monthlyData r
          = map (fun m => {| Reports.month := m; Reports.revenue := 0;
                             Reports.expenses := 0;
                             Reports.profit := (0 - 0)%float |})
              Dashboard.months) as Hrows.
  { subst r. simpl. unfold Reports.scan.
    destruct (reports_entries_months monthLabel es Reports.start) as [-> ->].
    simpl. by rewrite !Hmr, !Hme. }
  split; [by rewrite Hrows|].
  change (map Reports.quarter_value (Reports.quarterlyData r))
    with [ Reports.quarter_revenue (Reports.monthlyData r) 0 3;
           Reports.quarter_revenue (Reports.monthlyData r) 3 6;
           Reports.quarter_revenue (Reports.monthlyData r) 6 9;
           Reports.quarter_revenue (Reports.monthlyData r) 9 12 ].
  rewrite Hrows. reflexivity.
Qed.

Lemma quiet_answer_shows_zeroes_witness :
  quiet Samples.deposit
  /\ Dashboard.hasData
       (Dashboard.loadDashboardData Samples.march
          (QueryData (Some Samples.deposit))) = false.
Proof.
  assert (quiet Samples.deposit) as Hq.
  { apply (bool_decide_unpack _). vm_compute. exact I. }
  split; [exact Hq|].
  apply (quiet_answer_shows_zeroes Samples.march Samples.deposit Hq).
Defined.

(** On the same answer the dashboard and the reports page show the same
    revenue, expenses and net profit, and the same revenue and expenses
    for each month; the expenses page lists amounts that add up to that
    same total of expenses. *)
Theorem pages_agree_on_totals monthLabel es shown :
  let d := Dashboard.loadDashboardData monthLabel (QueryData (Some es)) in
  let r := Reports.loadReportData monthLabel (QueryData (Some es)) in
  let x := (Expenses.loadExpenses (QueryData (Some es)) shown).1.1 in
  Reports.totalRevenue r = Dashboard.totalRevenue d
  /\ Reports.totalExpenses r = Dashboard.totalExpenses d
  /\ Reports.netProfit r = Dashboard.netProfit d
  /\ map (fun row => (Reports.month row, Reports.revenue row,
                      Reports.expenses row))
       (Reports.monthlyData r)
     = map (fun p => (Dashboard.month p, Dashboard.inflow p,
                      Dashboard.outflow p))
         (Dashboard.monthlyData d)
  /\ Expenses.totalExpenses x = Dashboard.totalExpenses d.
Proof.
  intros d r x.
  destruct (dashboard_totals monthLabel es) as (Hdr & Hde & Hdn).
  destruct (reports_totals monthLabel es) as (Hrr & Hre & Hrn & _).
  fold d in Hdr, Hde, Hdn. fold r in Hrr, Hre, Hrn.
  rewrite Hdr, Hde, Hdn, Hrr, Hre, Hrn.
  repeat split.
  - subst d r. simpl. unfold Dashboard.scan, Reports.scan.
    destruct (dashboard_entries_months monthLabel es Dashboard.start)
      as [-> ->].
    destruct (reports_entries_months monthLabel es Reports.start) as [-> ->].
    reflexivity.
  - subst x. simpl. unfold Expenses.totalExpenses, js_sum.
    rewrite <- (ExpensesProperties.listed_amounts es).
    generalize 0%float.
    induction (Expenses.expensesData (Expenses.scan es)) as [|e l IH];
      intros z; [done|]. simpl. apply IH.
Qed.

End QuietProperties.

(** ** The totals of the banking page *)

Module BankingProperties.
Import Js Rows Ledger.

(** Signs of binary64 numbers. *)
Lemma positive_negated d :
  (0 <? d)%float = true ->
  (- d <? 0)%float = true /\ (0 <? - d)%float = false
  /\ abs (- d)%float = d.
Proof.
  rewrite !ltb_spec, opp_spec. intros H.
  assert (Prim2SF (abs (- d)) = Prim2SF d) as Habs.
  { rewrite abs_spec, opp_spec. revert H.
    change (Prim2SF 0) with (S754_zero false).
    destruct (Prim2SF d) as [s|s| |s m e]; try destruct s; simpl;
      try discriminate; reflexivity. }
  split; [|split].
  - revert H. change (Prim2SF 0) with (S754_zero false).
    destruct (Prim2SF d) as [s|s| |s m e]; try destruct s; simpl;
      try discriminate; reflexivity.
  - revert H. change (Prim2SF 0) with (S754_zero false).
    destruct (Prim2SF d) as [s|s| |s m e]; try destruct s; simpl;
      try discriminate; reflexivity.
  - by apply Prim2SF_inj.
Qed.

Lemma positive_not_negative c :
  (0 <? c)%float = true -> (c <? 0)%float = false.
Proof.
  rewrite !ltb_spec. change (Prim2SF 0) with (S754_zero false).
  destruct (Prim2SF c) as [s|s| |s m e]; try destruct s; simpl;
    try discriminate; reflexivity.
Qed.

(** A transaction is money out exactly when it comes from a positive
    debit, and money in when it comes from a positive credit of a line
    whose debit is not positive. *)
Lemma projected_side e l :
  match Banking.project e l with
  | Some tx =>
      (paid_out l = Some (abs (Banking.amount tx))
       /\ paid_in l = None
       /\ (Banking.amount tx <? 0)%float = true
       /\ (0 <? Banking.amount tx)%float = false)
      \/ (paid_in l = Some (Banking.amount tx)
          /\ paid_out l = None
          /\ (Banking.amount tx <? 0)%float = false
          /\ (0 <? Banking.amount tx)%float = true)
  | None => paid_out l = None /\ paid_in l = None
  end.
Proof.
  unfold Banking.project, paid_out, paid_in.
  destruct (accounts l) as [a|]; [|done].
  destruct (debit l) as [d|]; simpl.
  - destruct (0 <? d)%float eqn:Hd; simpl.
    + left. destruct (positive_negated d Hd) as (H1 & H2 & H3).
      by rewrite H1, H2, H3.
    + destruct (credit l) as [c|]; simpl; [|done].
      destruct (0 <? c)%float eqn:Hc; simpl; [|done].
      right. by rewrite (positive_not_negative c Hc).
  - destruct (credit l) as [c|]; simpl; [|done].
    destruct (0 <? c)%float eqn:Hc; simpl; [|done].
    right. by rewrite (positive_not_negative c Hc).
Qed.

Lemma sides_of_lines e ls :
  map (fun t => abs (Banking.amount t))
    (filter (fun t => (Banking.amount t <? 0)%float = true)
       (omap (Banking.project e) ls))
  = omap paid_out ls
  /\ map Banking.amount
       (filter (fun t => (0 <? Banking.amount t)%float = true)
          (omap (Banking.project e) ls))
     = omap paid_in ls.
Proof.
  induction ls as [|l ls [IHo IHi]]; [done|]. simpl.
  pose proof (projected_side e l) as Hside.
  destruct (Banking.project e l) as [tx|].
  - rewrite !filter_cons.
    destruct Hside as [(-> & -> & Hn & Hp) | (-> & -> & Hn & Hp)];
      rewrite Hn, Hp; simpl; split; first [ by f_equal | done ].
  - destruct Hside as [-> ->]. done.
Qed.

Lemma sides_of_entries es :
  map (fun t => abs (Banking.amount t))
    (filter (fun t => (Banking.amount t <? 0)%float = true)
       (Banking.transactionsData es))
  = omap paid_out (all_lines es)
  /\ map Banking.amount
       (filter (fun t => (0 <? Banking.amount t)%float = true)
          (Banking.transactionsData es))
     = omap paid_in (all_lines es).
Proof.
  unfold Banking.transactionsData, all_lines.
  induction es as [|e es [IHo IHi]]; [done|]. simpl.
  rewrite !filter_app, !map_app, !omap_app, IHo, IHi.
  by destruct (sides_of_lines e (lines_of e)) as [-> ->].
Qed.

Lemma fold_add_map {A} (f : A -> float) xs : forall z,
  fold_left (fun sum t => (sum + f t)%float) xs z
  = fold_left PrimFloat.add (map f xs) z.
Proof. induction xs as [|x xs IH]; intros z; [done|]. simpl. apply IH. Qed.

Lemma all_reconciled es :
  Forall (fun t => Banking.status t = "reconciled")
    (Banking.transactionsData es).
Proof.
  apply Forall_forall. intros tx Htx.
  apply BankingClaims.transactionsData_elem in Htx as (e & l & _ & _ & Hp).
  by apply BankingClaims.project_Some in Hp as (a & _ & _ & ->).
Qed.

(** On the banking page the total outflow is the sum of the positive
    debits of the loaded lines whose account resolves, and the total
    inflow the sum of the positive credits of those among them whose
    debit is not positive, each added in the order of the lines and
    whatever the account is.  Every transaction counts as reconciled,
    so the filter [pending] shows nothing and the default filter shows
    the whole list. *)
Theorem banking_totals_follow_the_sides rows es :
  let txs :=
    Banking.transactions
      (Banking.loadBankingData (QueryData rows) (QueryData (Some es))) in
  Banking.totalOutflow txs = js_sum (omap paid_out (loaded_lines es))
  /\ Banking.totalInflow txs = js_sum (omap paid_in (loaded_lines es))
  /\ Banking.reconciledCount txs = length txs
  /\ (forall searchTerm, Banking.filteredTransactions searchTerm "pending" txs = [])
  /\ Banking.filteredTransactions "" "all" txs = txs.
Proof.
  simpl. rewrite <- AggregationProperties.all_lines_loaded.
  destruct (sides_of_entries es) as [Hout Hin].
  pose proof (all_reconciled es) as Hall.
  split.
  { unfold Banking.totalOutflow, js_sum.
    by rewrite (fold_add_map (fun t => abs (Banking.amount t))), Hout. }
  split.
  { unfold Banking.totalInflow, js_sum. by rewrite fold_add_map, Hin. }
  clear Hout Hin.
  unfold Banking.reconciledCount, Banking.filteredTransactions.
  induction Hall as [|tx txs Hst _ (IH1 & IH2 & IH3)]; [done|].
  split; [|split].
  - rewrite filter_cons_True by done. simpl. by rewrite IH1.
  - intros s. rewrite filter_cons_False; [apply IH2|].
    intros (_ & [H|H]); [discriminate | rewrite Hst in H; discriminate].
  - rewrite filter_cons_True; [by rewrite IH3|].
    split; [apply ExpensesProperties.lower_empty_included | by left].
Qed.

Lemma banking_totals_follow_the_sides_witness :
  let txs :=
    Banking.transactions
      (Banking.loadBankingData (QueryData (Some [Samples.cash]))
         (QueryData (Some Samples.sale_and_rent))) in
  Banking.totalOutflow txs = 400%float
  /\ Banking.totalInflow txs = 1000%float
  /\ Banking.reconciledCount txs = 2.
Proof.
  intros txs.
  destruct (banking_totals_follow_the_sides (Some [Samples.cash])
              Samples.sale_and_rent) as (Hout & Hin & Hcount & _).
  split; [|split].
  - etransitivity; [exact Hout | reflexivity].
  - etransitivity; [exact Hin | reflexivity].
  - etransitivity; [exact Hcount | reflexivity].
Defined.

End BankingProperties.
